(** * goss: a static site generator -- shallow embedding of [main.go]

    The development follows the layout of the program:

    - [GoStrings]  the functions of Go's [strings] package that the program
                   calls ([HasPrefix], [HasSuffix], [TrimSuffix], [Index],
                   [ToLower]);
    - [Filepath]   the functions of Go's [path/filepath] package that the
                   program calls, for the Unix separator ([Clean], [Join],
                   [Base], [Dir], [Ext], [Rel]);
    - the markdown classification, the front-matter splitter and the
      output-path rule of [writeHTMLFile];
    - a file-system store with the [os] calls of the program, the
      traversal [filepath.Walk], [renderMarkdown], [handleRobotsTxt] and
      [build];
    - the polling loop of [serve]: [initializeFileMap] and one tick.

    Strings are Go strings read as byte sequences ([string] of [ascii]).
    Time stamps and durations are integers counting nanoseconds. *)

From Stdlib Require Import ZArith Ascii String List Bool Lia.
From stdpp Require Import gmap strings list pretty.

Local Open Scope Z_scope.

(** The newline byte, and the front-matter delimiter line of the program. *)
Definition nl : string := String "010"%char "".
Definition delim : string := "---" +:+ nl.

(* ===================================================================== *)
(** ** Go's [strings] package *)
(* ===================================================================== *)

Module GoStrings.

(** [s[n:]] and [s[:n]] for [n <= len(s)]. *)
Fixpoint sliceFrom (n : nat) (s : string) : string :=
  match n, s with
  | O, _ => s
  | S n', String _ r => sliceFrom n' r
  | S _, EmptyString => EmptyString
  end.

Fixpoint sliceTo (n : nat) (s : string) : string :=
  match n, s with
  | O, _ => EmptyString
  | S n', String c r => String c (sliceTo n' r)
  | S _, EmptyString => EmptyString
  end.

(** [s[lo:hi]]. *)
Definition slice (lo hi : nat) (s : string) : string :=
  sliceTo (hi - lo) (sliceFrom lo s).

(** [strings.HasPrefix(s, prefix)]:
    [len(s) >= len(prefix) && s[:len(prefix)] == prefix]. *)
Definition HasPrefix (s prefix : string) : bool :=
  (String.length prefix <=? String.length s)%nat
  && String.eqb (sliceTo (String.length prefix) s) prefix.

(** [strings.HasSuffix(s, suffix)]:
    [len(s) >= len(suffix) && s[len(s)-len(suffix):] == suffix]. *)
Definition HasSuffix (s suffix : string) : bool :=
  (String.length suffix <=? String.length s)%nat
  && String.eqb (sliceFrom (String.length s - String.length suffix) s) suffix.

(** [strings.TrimSuffix(s, suffix)]. *)
Definition TrimSuffix (s suffix : string) : string :=
  if HasSuffix s suffix
  then sliceTo (String.length s - String.length suffix) s
  else s.

(** Offset of the first occurrence of [substr] in [s]. *)
Fixpoint indexOf (s substr : string) : option nat :=
  if HasPrefix s substr then Some O
  else match s with
       | EmptyString => None
       | String _ r => option_map S (indexOf r substr)
       end.

(** [strings.Index(s, substr)]: the offset, or [-1]. *)
Definition Index (s substr : string) : Z :=
  match indexOf s substr with
  | Some n => Z.of_nat n
  | None => -1
  end.

(** [strings.ToLower]. A string of ASCII bytes has its letters [A] to [Z]
    lowered byte by byte. Any other string is mapped rune by rune with
    [unicode.ToLower]; of the case tables the model has the ASCII letters and
    the two letters outside ASCII whose lower case is an ASCII letter, U+0130
    (lowered to [i]) and U+212A, the Kelvin sign (lowered to [k]), in UTF-8,
    and it keeps every other byte. A lowered string therefore equals a given
    ASCII string in the model exactly when it does in Go, and the program
    uses [ToLower] for such comparisons only. *)
Definition isASCII (s : string) : bool :=
  forallb (fun c => (nat_of_ascii c <? 128)%nat) (list_ascii_of_string s).

Definition lowerByte (c : ascii) : ascii :=
  let n := nat_of_ascii c in
  if ((65 <=? n) && (n <=? 90))%nat then ascii_of_nat (n + 32) else c.

Fixpoint lowerASCII (s : string) : string :=
  match s with
  | EmptyString => EmptyString
  | String c r => String (lowerByte c) (lowerASCII r)
  end.

Fixpoint lowerRunes (s : string) : string :=
  match s with
  | EmptyString => EmptyString
  | String c r =>
      match r with
      | String c1 r1 =>
          if Ascii.eqb c "196" && Ascii.eqb c1 "176" then String "i" (lowerRunes r1)
          else
            match r1 with
            | String c2 r2 =>
                if Ascii.eqb c "226" && Ascii.eqb c1 "132" && Ascii.eqb c2 "170"
                then String "k" (lowerRunes r2)
                else String (lowerByte c) (lowerRunes r)
            | EmptyString => String (lowerByte c) (lowerRunes r)
            end
      | EmptyString => String (lowerByte c) (lowerRunes r)
      end
  end.

Definition ToLower (s : string) : string :=
  if isASCII s then lowerASCII s else lowerRunes s.

(** [strings.Join(elems, sep)]. *)
Definition JoinWith (sep : string) (elems : list string) : string :=
  String.concat sep elems.

End GoStrings.

Import GoStrings.

(* ===================================================================== *)
(** ** Go's [path/filepath] package (Unix: the separator is [/]) *)
(* ===================================================================== *)

Module Filepath.

Definition Separator : ascii := "/"%char.

Definition isSep (c : ascii) : bool := Ascii.eqb c Separator.

(** The elements of a path between separators: ["a//b"] has the elements
    ["a"], [""] and ["b"]; the empty path has one empty element. *)
Fixpoint elements (p : string) : list string :=
  match p with
  | EmptyString => [EmptyString]
  | String c r =>
      if isSep c then EmptyString :: elements r
      else match elements r with
           | [] => [String c EmptyString]
           | x :: xs => String c x :: xs
           end
  end.

Definition fromElements (es : list string) : string := JoinWith "/" es.

Definition isRooted (p : string) : bool := HasPrefix p "/".

(** The lexical processing of [Clean] over the elements, with the
    elements kept so far in reverse: empty and [.] elements are dropped,
    a [..] removes the element before it unless there is none or it is a
    [..] itself; a [..] at the start of a rooted path is dropped. *)
Fixpoint cleanElements (rooted : bool) (kept : list string) (es : list string)
  : list string :=
  match es with
  | [] => rev kept
  | e :: rest =>
      if String.eqb e "" || String.eqb e "." then cleanElements rooted kept rest
      else if String.eqb e ".." then
        match kept with
        | top :: below =>
            if String.eqb top ".." then cleanElements rooted (e :: kept) rest
            else cleanElements rooted below rest
        | [] =>
            if rooted then cleanElements rooted [] rest
            else cleanElements rooted [e] rest
        end
      else cleanElements rooted (e :: kept) rest
  end.

(** [filepath.Clean]: the shortest equivalent path; ["."] for an empty
    result, a trailing separator only for the root. *)
Definition Clean (p : string) : string :=
  let out := fromElements (cleanElements (isRooted p) [] (elements p)) in
  if isRooted p then "/" +:+ out
  else if String.eqb out "" then "." else out.

(** [filepath.Join]: the elements from the first non-empty one on, joined
    by the separator and cleaned; the empty string when all are empty. *)
Fixpoint Join (elem : list string) : string :=
  match elem with
  | [] => ""
  | e :: rest =>
      if String.eqb e "" then Join rest else Clean (JoinWith "/" elem)
  end.

(** The last element of a list of elements that is not empty. *)
Definition lastNonEmpty (es : list string) : option string :=
  last (List.filter (fun e => negb (String.eqb e "")) es).

(** [filepath.Base]: the last element, trailing separators removed first;
    ["."] for the empty path and ["/"] for a path of separators only. *)
Definition Base (p : string) : string :=
  if String.eqb p "" then "."
  else match lastNonEmpty (elements p) with
       | Some e => e
       | None => "/"
       end.

(** The suffix of a file name that begins at its final dot. *)
Fixpoint extOf (name : string) : string :=
  match name with
  | EmptyString => EmptyString
  | String c r =>
      match extOf r with
      | EmptyString => if Ascii.eqb c "."%char then name else EmptyString
      | e => e
      end
  end.

(** [filepath.Ext]: the suffix beginning at the final dot of the final
    element; empty if there is no dot. *)
Definition Ext (p : string) : string :=
  match last (elements p) with
  | Some e => extOf e
  | None => ""
  end.

Fixpoint hasSep (p : string) : bool :=
  match p with
  | EmptyString => false
  | String c r => isSep c || hasSep r
  end.

(** [path[:i+1]] for [i] the offset of the last separator ([-1] if there
    is none). *)
Fixpoint upToLastSep (p : string) : string :=
  match p with
  | EmptyString => EmptyString
  | String c r => if hasSep p then String c (upToLastSep r) else EmptyString
  end.

(** [filepath.Dir]: all but the last element, cleaned. *)
Definition Dir (p : string) : string := Clean (upToLastSep p).

(** The elements of a cleaned path as [Rel] steps through them: none for
    ["."], the root marker alone for ["/"]. *)
Definition relElements (cleaned : string) : list string :=
  if String.eqb cleaned "." then []
  else if String.eqb cleaned "/" then [""]
  else elements cleaned.

(** The two element lists without their common leading elements. *)
Fixpoint dropCommon (bs ts : list string) : list string * list string :=
  match bs, ts with
  | b :: bs', t :: ts' =>
      if String.eqb b t then dropCommon bs' ts' else (bs, ts)
  | _, _ => (bs, ts)
  end.

(** [filepath.Rel(basepath, targpath)]: [None] is the error result. *)
Definition Rel (basepath targpath : string) : option string :=
  let base := Clean basepath in
  let targ := Clean targpath in
  if String.eqb targ base then Some "."
  else if negb (Bool.eqb (isRooted base) (isRooted targ)) then None
  else
    match dropCommon (relElements base) (relElements targ) with
    | (b :: bs, t :: ts) =>
        if String.eqb b ".." then None
        else Some (fromElements (map (fun _ => "..") (b :: bs) ++ t :: ts))
    | (b :: bs, []) => Some (fromElements (map (fun _ => "..") (b :: bs)))
    | ([], ts) => Some (fromElements ts)
    end.

End Filepath.

Import Filepath.

#[global] Arguments Join : simpl never.
#[global] Arguments Clean : simpl never.
#[global] Arguments Base : simpl never.
#[global] Arguments Dir : simpl never.
#[global] Arguments Ext : simpl never.
#[global] Arguments Rel : simpl never.
#[global] Arguments HasPrefix : simpl never.
#[global] Arguments HasSuffix : simpl never.
#[global] Arguments TrimSuffix : simpl never.

(* ===================================================================== *)
(** ** Data model of the program *)
(* ===================================================================== *)

(** [Configuration]: the command line arguments. *)
Record Configuration := {
  InputDir : string;
  OutputDir : string;
  TemplatesDir : string;
  Serve : bool;
  Host : string;
  Port : Z
}.

(** A value of Go's [interface{}] as the template data holds it: a string,
    trusted HTML ([template.HTML]), a sequence of strings, or another
    decoded YAML value kept as its text. *)
Inductive AnyValue :=
| AString (s : string)
| AHTML (s : string)
| AStrings (l : list string)
| AOther (raw : string).

(** [FrontMatter]: the YAML front matter of a markdown file. *)
Record FrontMatter := {
  Title : string;
  Template : string;
  Description : string;
  Date : string;
  Tags : list string;
  Custom : gmap string AnyValue
}.

(** [FrontMatter{}]: the zero value. *)
Definition emptyFrontMatter : FrontMatter :=
  {| Title := ""; Template := ""; Description := ""; Date := "";
     Tags := []; Custom := ∅ |}.

(** The external collaborators of the program: the YAML decoder
    ([yaml.Unmarshal], which fills the value it is given and may return an
    error), the markdown converter ([goldmark]'s [Convert]) and the template
    engine ([html/template]'s [ParseFiles] and [Execute]) over the templates
    directory as it stands. An [inr] is the error result. *)
Record Engine := {
  Tmpl : Type;
  Unmarshal : string -> FrontMatter -> FrontMatter * option string;
  Convert : string -> string + string;
  ParseFiles : string -> Tmpl + string;
  Execute : Tmpl -> gmap string AnyValue -> string + string
}.

(** The console colours ([color.New(...).SprintFunc()]) leave the text as
    it is; the escape sequences are not part of the model. *)
Definition blue (s : string) : string := s.
Definition green (s : string) : string := s.
Definition yellow (s : string) : string := s.
Definition red (s : string) : string := s.
Definition magenta (s : string) : string := s.
Definition cyan (s : string) : string := s.

(* ===================================================================== *)
(** ** [isMarkdownFile] *)
(* ===================================================================== *)

Definition isMarkdownFile (path : string) : bool :=
  let ext := ToLower (Ext path) in
  String.eqb ext ".md" || String.eqb ext ".markdown"
  || String.eqb ext ".mkd" || String.eqb ext ".mdown".

(** The Kelvin sign, U+212A, in UTF-8. *)
Definition kelvinSign : string :=
  String "226"%char (String "132"%char (String "170"%char "")).

(* ===================================================================== *)
(** ** [parseFrontMatter] *)
(* ===================================================================== *)

(** The result of [parseFrontMatter] with the lines it prints. *)
Definition parseFrontMatter (E : Engine) (content : string)
  : FrontMatter * string * list string :=
  let frontMatter := emptyFrontMatter in
  if negb (HasPrefix content delim) then (frontMatter, content, [])
  else
    let endIndex := Index (sliceFrom 4 content) delim in
    if endIndex =? -1 then (frontMatter, content, [])
    else
      let frontMatterContent := slice 4 (Z.to_nat (endIndex + 4)) content in
      let markdownContent := sliceFrom (Z.to_nat (endIndex + 8)) content in
      let '(frontMatter, err) := Unmarshal E frontMatterContent frontMatter in
      match err with
      | Some e =>
          (frontMatter, markdownContent,
           [red "Error:" +:+ " Error parsing front matter: " +:+ e])
      | None => (frontMatter, markdownContent, [])
      end.

(* ===================================================================== *)
(** ** The output path of [writeHTMLFile] *)
(* ===================================================================== *)

(** [outputHTMLPath] as [writeHTMLFile] determines it. *)
Definition outputHTMLPath (outputPath inputPath : string) : string :=
  if String.eqb (Base inputPath) "index.md" then
    TrimSuffix outputPath (Ext outputPath) +:+ ".html"
  else
    let baseName := TrimSuffix (Base inputPath) (Ext inputPath) in
    Join [Dir outputPath; baseName; "index.html"].

(* ===================================================================== *)
(** ** The file system *)
(* ===================================================================== *)

(** A source tree as [filepath.Walk] reads it: a file with its modification
    time and bytes, or a directory with its entries by name, in the order
    [Walk] visits them (the lexical order of the names). *)
#[warning="-register-all"]
Inductive node :=
| File (modTime : Z) (data : string)
| Directory (modTime : Z) (entries : list (string * node)).

(** [os.FileInfo]: [IsDir] and [ModTime]. *)
Definition IsDir (info : node) : bool :=
  match info with
  | Directory _ _ => true
  | File _ _ => false
  end.

Definition ModTime (info : node) : Z :=
  match info with
  | Directory t _ => t
  | File t _ => t
  end.

(** What stands at the path of the input directory and at the path of the
    templates directory, as [os.Stat] and [filepath.Walk] find it: the tree
    (a directory, or a file when a regular file stands at the path), or [None]
    when nothing exists at the path, the case that [os.IsNotExist] tells.
    The other ways these calls can fail (a path that leads through a regular
    file, a directory that may not be searched) are outside the model.

    The program only reads the two trees. They are values of their own, not
    part of the store below that the program writes to: the model is one of
    layouts in which the input and the templates directory lie apart from the
    output directory ([apart], further down), so that what [build] removes
    and writes leaves them as they are. Theorems that rest on this say so. *)
Record Site := {
  inputRoot : option node;
  templatesRoot : option node
}.

(** What the program writes: the files and directories it creates, by
    cleaned path. The working directory and the root always exist. *)
Inductive entry :=
| EDir
| EFile (data : string).

Abbreviation store := (gmap string entry).

(** The state the program changes: the written part of the file system and
    the lines printed to the console, oldest first. *)
Record Sys := {
  fs : store;
  console : list string
}.

Definition println (line : string) (sys : Sys) : Sys :=
  {| fs := fs sys; console := console sys ++ [line] |}.

Definition printAll (lines : list string) (sys : Sys) : Sys :=
  {| fs := fs sys; console := console sys ++ lines |}.

Definition withFs (f : store -> store) (sys : Sys) : Sys :=
  {| fs := f (fs sys); console := console sys |}.

Module OS.

(** [os.Stat] on the written part of the file system. *)
Definition Stat (st : store) (path : string) : option entry :=
  let p := Clean path in
  if String.eqb p "." || String.eqb p "/" then Some EDir else st !! p.

(** The directory a cleaned path starts from and its elements below it. *)
Definition startDir (p : string) : string := if isRooted p then "/" else ".".
Definition below (p : string) : list string :=
  if isRooted p then tail (elements p) else elements p.

(** Creates the directories [es] one below the other under [dir]; fails
    at the first one that exists as a file. *)
Fixpoint mkdirDown (dir : string) (es : list string) (st : store)
  : store * bool :=
  match es with
  | [] => (st, true)
  | e :: rest =>
      let p := Join [dir; e] in
      match Stat st p with
      | Some EDir => mkdirDown p rest st
      | Some (EFile _) => (st, false)
      | None => mkdirDown p rest (<[p := EDir]> st)
      end
  end.

(** [os.MkdirAll]: the directory and every missing parent; the flag is
    [err == nil]. *)
Definition MkdirAll (path : string) (st : store) : store * bool :=
  let p := Clean path in
  mkdirDown (startDir p) (below p) st.

(** Whether a file can be created or truncated at [path]: its parent is a
    directory and [path] itself is not one. *)
Definition canCreate (st : store) (path : string) : bool :=
  match Stat st (Dir path), Stat st path with
  | Some EDir, Some EDir => false
  | Some EDir, _ => true
  | _, _ => false
  end.

(** [os.WriteFile]: the flag is [err == nil]. *)
Definition WriteFile (path data : string) (st : store) : store * bool :=
  if canCreate st path then (<[Clean path := EFile data]> st, true)
  else (st, false).

(** The errors of [open] on the written part of the file system. *)
Inductive Errno :=
| ENOENT
| ENOTDIR
| EISDIR.

Definition errorString (e : Errno) : string :=
  match e with
  | ENOENT => "no such file or directory"
  | ENOTDIR => "not a directory"
  | EISDIR => "is a directory"
  end.

(** Why no file can be created at the path of the elements [es] under
    [dir]: the first element that is not a directory decides, a missing one
    with [ENOENT] and a file with [ENOTDIR]; when every element is a
    directory, so is the path itself, [EISDIR]. *)
Fixpoint obstacle (dir : string) (es : list string) (st : store) : Errno :=
  match es with
  | [] => EISDIR
  | e :: rest =>
      let p := Join [dir; e] in
      match Stat st p with
      | Some EDir => obstacle p rest st
      | Some (EFile _) => ENOTDIR
      | None => ENOENT
      end
  end.

(** The text of the error of a failed [os.WriteFile], a [*PathError] of
    the operation [open] with the path as it was given. *)
Definition writeError (path : string) (st : store) : string :=
  let p := Clean path in
  "open " +:+ path +:+ ": " +:+ errorString (obstacle (startDir p) (below p) st).

(** Whether [key] is [path] or lies below it. *)
Definition within (path key : string) : bool :=
  let p := Clean path in
  String.eqb key p
  || HasPrefix key (if String.eqb p "/" then "/" else p +:+ "/").

(** [endsWithDot] of [os.RemoveAll]: the path is [.] or ends in a [.]
    element. *)
Definition endsWithDot (path : string) : bool :=
  String.eqb path "." || HasSuffix path "/.".

(** [os.RemoveAll]: [path] and everything below it. A path that ends in a
    [.] element is refused, as [rmdir] refuses it, and nothing is removed.
    (What the call does for a path with [..] elements depends on how the
    system resolves them and is outside the model.) *)
Definition RemoveAll (path : string) (st : store) : store :=
  if endsWithDot path then st
  else filter (fun kv : string * entry => negb (within path kv.1)) st.

End OS.

(** [copyFile(src, dst)] for a source that is [info] ([None]: it does not
    exist, so [os.Open] fails). [os.Create] makes or truncates the
    destination; [io.Copy] then fails on a directory, leaving the
    destination empty. *)
Definition copyFile (info : option node) (dst : string) (st : store)
  : store * bool :=
  match info with
  | None => (st, false)
  | Some (File _ data) => OS.WriteFile dst data st
  | Some (Directory _ _) => (fst (OS.WriteFile dst "" st), false)
  end.

(* ===================================================================== *)
(** ** [filepath.Walk] *)
(* ===================================================================== *)

(** What a [WalkFunc] returns: [nil], [filepath.SkipDir] or another error. *)
Inductive WalkResult :=
| WNil
| WSkipDir
| WErr (e : string).

Section Walk.

Context {S : Type}.
(** The callback on an entry that [Lstat] found. *)
Variable walkFn : string -> node -> S -> S * WalkResult.

(** [walk]: the callback on the entry, then, for a directory on which it
    returned [nil], the entries in order. [SkipDir] from a directory
    skips that directory; from a file it ends the directory the file is
    in. Another error ends the walk. *)
Fixpoint walk (path : string) (info : node) (s : S) : S * WalkResult :=
  match info with
  | File _ _ => walkFn path info s
  | Directory _ entries =>
      let '(s1, r1) := walkFn path info s in
      match r1 with
      | WNil =>
          (fix walkEntries (es : list (string * node)) (s : S) : S * WalkResult :=
             match es with
             | [] => (s, WNil)
             | (name, child) :: rest =>
                 let '(s', r) := walk (Join [path; name]) child s in
                 match r with
                 | WNil => walkEntries rest s'
                 | WSkipDir =>
                     if IsDir child then walkEntries rest s' else (s', WSkipDir)
                 | WErr e => (s', WErr e)
                 end
             end) entries s1
      | _ => (s1, r1)
      end
  end.

(** [filepath.Walk(root, walkFn)]. When [Lstat] of the root fails, every
    callback of the program that checks its [err] argument returns it at
    once, so the walk ends with that error and the state unchanged. *)
Definition Walk (root : string) (tree : option node) (s : S) : S * WalkResult :=
  match tree with
  | None => (s, WErr ("lstat " +:+ root +:+ ": no such file or directory"))
  | Some info =>
      let '(s', r) := walk root info s in
      match r with
      | WSkipDir => (s', WNil)
      | _ => (s', r)
      end
  end.

End Walk.

(** The entry a site directory holds at [path], for [os.Stat] on a path
    below [root]. *)
Fixpoint descend (info : node) (es : list string) : option node :=
  match es with
  | [] => Some info
  | e :: rest =>
      match info with
      | File _ _ => None
      | Directory _ entries =>
          match List.find (fun ne => String.eqb (fst ne) e) entries with
          | Some (_, child) => descend child rest
          | None => None
          end
      end
  end.

Definition statUnder (root : string) (tree : option node) (path : string)
  : option node :=
  match tree, Rel root path with
  | Some info, Some rel =>
      if String.eqb rel "." then Some info else descend info (elements rel)
  | _, _ => None
  end.

(* ===================================================================== *)
(** ** [writeHTMLFile], [renderMarkdown], [handleRobotsTxt] *)
(* ===================================================================== *)

(** [writeHTMLFile(outputPath, inputPath, content)]. *)
Definition writeHTMLFile (outputPath inputPath content : string) (sys : Sys) : Sys :=
  let outputHTMLPath := outputHTMLPath outputPath inputPath in
  let sys := withFs (fun st => fst (OS.MkdirAll (Dir outputHTMLPath) st)) sys in
  let sys := println ("Writing HTML to: " +:+ outputHTMLPath) sys in
  let '(st, ok) := OS.WriteFile outputHTMLPath content (fs sys) in
  let sys := withFs (fun _ => st) sys in
  if ok then sys
  else println (red "Error:" +:+ " Error writing HTML file: "
                +:+ OS.writeError outputHTMLPath (fs sys)) sys.

(** [os.ReadFile] on a visited entry. *)
Definition ReadFile (path : string) (info : node) : string + string :=
  match info with
  | File _ data => inl data
  | Directory _ _ => inr ("read " +:+ path +:+ ": is a directory")
  end.

(** The fallback page of [renderMarkdown]. *)
Definition fallbackPage (htmlContent : string) : string :=
  "<html><body>" +:+ htmlContent +:+ "</body></html>".

(** The template data of [renderMarkdown]: the four named fields, then the
    custom fields of the front matter over them. *)
Definition templateData (frontMatter : FrontMatter) (htmlContent : string)
  : gmap string AnyValue :=
  Custom frontMatter ∪
  <["Title" := AString (Title frontMatter)]>
  (<["Description" := AString (Description frontMatter)]>
  (<["Date" := AString (Date frontMatter)]>
  (<["Content" := AHTML htmlContent]> ∅))).

(** The callback that lists the available templates for the log. *)
Definition listTemplateFn (templatesDir : string) (path : string) (info : node)
  (templates : list string) : list string * WalkResult :=
  if negb (IsDir info) && (HasSuffix path ".html" || HasSuffix path ".tmpl")
  then (templates ++ [default "" (Rel templatesDir path)], WNil)
  else (templates, WNil).

(** [renderMarkdown(inputPath, outputPath, templatesDir)], for the file
    [info] that stands at [inputPath]. [build] calls it only after it has
    found the templates directory; without one the callback that lists the
    templates would be called with a nil [FileInfo], which the model does
    not follow (the list is empty there). *)
Definition renderMarkdown (E : Engine) (site : Site)
  (inputPath : string) (info : node) (outputPath templatesDir : string)
  (sys : Sys) : Sys :=
  match ReadFile inputPath info with
  | inr err => println (red "Error:" +:+ " Error reading markdown file: " +:+ err) sys
  | inl content =>
      let '(frontMatter, markdownContent, printed) := parseFrontMatter E content in
      let sys := printAll printed sys in
      match Convert E markdownContent with
      | inr err => println (red "Error:" +:+ " Error converting markdown: " +:+ err) sys
      | inl htmlContent =>
          let sys := println (blue "Processing" +:+ " " +:+ inputPath) sys in
          let sys := println (green "Template:" +:+ " " +:+ Template frontMatter) sys in
          let sys := println (yellow "Content length:" +:+ " "
                              +:+ pretty (String.length markdownContent)) sys in
          let templates :=
            fst (Walk (listTemplateFn templatesDir) templatesDir (templatesRoot site) []) in
          let sys := println (magenta "Available templates:" +:+ " "
                              +:+ JoinWith ", " templates) sys in
          let data := templateData frontMatter htmlContent in
          let templateFile :=
            if String.eqb (Template frontMatter) "" then "default.html"
            else Template frontMatter in
          let tmplPath := Join [templatesDir; templateFile] in
          match ParseFiles E tmplPath with
          | inr err =>
              let sys := println (red "Error:" +:+ " Error loading template "
                                  +:+ templateFile +:+ ": " +:+ err) sys in
              writeHTMLFile outputPath inputPath (fallbackPage htmlContent) sys
          | inl tmpl =>
              match Execute E tmpl data with
              | inr err =>
                  let sys := println (red "Error:" +:+ " Error executing template: "
                                      +:+ err) sys in
                  writeHTMLFile outputPath inputPath (fallbackPage htmlContent) sys
              | inl output => writeHTMLFile outputPath inputPath output sys
              end
          end
      end
  end.

(** The default [robots.txt]. *)
Definition defaultRobots : string :=
  "User-agent: *" +:+ nl +:+ "Allow: /" +:+ nl +:+ "Sitemap: sitemap.xml".

(** [handleRobotsTxt(inputDir, outputDir)]. *)
Definition handleRobotsTxt (site : Site) (inputDir outputDir : string) (sys : Sys) : Sys :=
  let inputRobots := Join [inputDir; "robots.txt"] in
  let outputRobots := Join [outputDir; "robots.txt"] in
  match statUnder inputDir (inputRoot site) inputRobots with
  | Some info =>
      let sys := withFs (fun st => fst (copyFile (Some info) outputRobots st)) sys in
      println "Copied existing robots.txt" sys
  | None =>
      let '(st, ok) := OS.WriteFile outputRobots defaultRobots (fs sys) in
      let sys := withFs (fun _ => st) sys in
      if ok then println "Generated default robots.txt" sys
      else println (red "Error:" +:+ " Error writing robots.txt: "
                    +:+ OS.writeError outputRobots (fs sys)) sys
  end.

(* ===================================================================== *)
(** ** [build] *)
(* ===================================================================== *)

(** The callback of the first walk of [build]: it lists the files. *)
Definition foundFn (config : Configuration) (path : string) (info : node)
  (sys : Sys) : Sys * WalkResult :=
  if negb (IsDir info) then
    (println (green "Found:" +:+ " " +:+ default "" (Rel (InputDir config) path)) sys, WNil)
  else (sys, WNil).

(** The callback of the second walk of [build], on the state and the
    count of processed files. *)
Definition processFn (E : Engine) (site : Site) (config : Configuration)
  (path : string) (info : node) (s : Sys * nat) : (Sys * nat) * WalkResult :=
  let '(sys, count) := s in
  let relPath := default "" (Rel (InputDir config) path) in
  let outputPath := Join [OutputDir config; relPath] in
  if IsDir info then
    (withFs (fun st => fst (OS.MkdirAll outputPath st)) sys, count, WNil)
  else if isMarkdownFile path then
    (renderMarkdown E site path info outputPath (TemplatesDir config) sys,
     Datatypes.S count, WNil)
  else if negb (HasPrefix (Base path) ".") then
    let sys := withFs (fun st => fst (OS.MkdirAll (Dir outputPath) st)) sys in
    (withFs (fun st => fst (copyFile (Some info) outputPath st)) sys,
     Datatypes.S count, WNil)
  else (sys, count, WNil).

(** The three lines [build] prints first. *)
Definition printConfiguration (config : Configuration) (sys : Sys) : Sys :=
  let sys := println (blue "Build Configuration:") sys in
  let sys := println (yellow "Input directory:" +:+ " " +:+ InputDir config) sys in
  let sys := println (yellow "Output directory:" +:+ " " +:+ OutputDir config) sys in
  println (yellow "Templates directory:" +:+ " " +:+ TemplatesDir config) sys.

(** [os.RemoveAll(config.OutputDir)] then [os.MkdirAll(config.OutputDir)]. *)
Definition resetOutput (config : Configuration) (sys : Sys) : Sys :=
  let sys := withFs (OS.RemoveAll (OutputDir config)) sys in
  withFs (fun st => fst (OS.MkdirAll (OutputDir config) st)) sys.

Definition checkMark : string :=
  String "226"%char (String "156"%char (String "147"%char "")).

(** The last line of a completed [build]. *)
Definition processedLine (count : nat) : string :=
  green checkMark +:+ " Processed " +:+ pretty count +:+ " files".

(** [build(config)]. The elapsed time of the last line is left out. *)
Definition build (E : Engine) (site : Site) (config : Configuration) (sys : Sys) : Sys :=
  let sys := printConfiguration config sys in
  match inputRoot site with
  | None =>
      println (red "Error:" +:+ " Input directory does not exist: " +:+ InputDir config) sys
  | Some _ =>
  match templatesRoot site with
  | None =>
      println (red "Error:" +:+ " Templates directory does not exist: "
               +:+ TemplatesDir config) sys
  | Some _ =>
      let sys := println (blue (nl +:+ "Files found in input directory:")) sys in
      let '(sys, err) := Walk (foundFn config) (InputDir config) (inputRoot site) sys in
      match err with
      | WErr e => println (red "Error:" +:+ " Error walking input directory: " +:+ e) sys
      | _ =>
          let sys := resetOutput config sys in
          let '(sys, count, err) :=
            Walk (processFn E site config) (InputDir config) (inputRoot site) (sys, O) in
          match err with
          | WErr e => println (red "Error:" +:+ " Error processing files: " +:+ e) sys
          | _ =>
              let sys := handleRobotsTxt site (InputDir config) (OutputDir config) sys in
              println (processedLine count) sys
          end
      end
  end
  end.

(** The state changes of the two callbacks of [build], and what both
    return on every entry. *)
Definition foundStep (config : Configuration) (path : string) (info : node)
  (sys : Sys) : Sys :=
  fst (foundFn config path info sys).

Definition processStep (E : Engine) (site : Site) (config : Configuration)
  (path : string) (info : node) (s : Sys * nat) : Sys * nat :=
  fst (processFn E site config path info s).

Definition noSkip (path : string) (info : node) : WalkResult := WNil.

(** Whether the template of a page fails to load or to execute. *)
Definition templateFails (E : Engine) (templatesDir : string)
  (frontMatter : FrontMatter) (htmlContent : string) : bool :=
  let templateFile :=
    if String.eqb (Template frontMatter) "" then "default.html"
    else Template frontMatter in
  match ParseFiles E (Join [templatesDir; templateFile]) with
  | inr _ => true
  | inl tmpl =>
      match Execute E tmpl (templateData frontMatter htmlContent) with
      | inr _ => true
      | inl _ => false
      end
  end.

(* ===================================================================== *)
(** ** The change watcher of [serve] *)
(* ===================================================================== *)

(** [lastModified] and [lastRebuild]. *)
Record WatchState := {
  lastModified : gmap string Z;
  lastRebuild : Z
}.

(** The callback of [initializeFileMap]. *)
Definition initFn (path : string) (info : node) (m : gmap string Z)
  : gmap string Z * WalkResult :=
  if negb (IsDir info) then (<[path := ModTime info]> m, WNil) else (m, WNil).

(** [initializeFileMap(dir)] on the map. *)
Definition initializeFileMap (dir : string) (tree : option node) (m : gmap string Z)
  : gmap string Z :=
  fst (Walk initFn dir tree m).

(** The variables a tick sets while it looks for changes, with the map. *)
Record Detect := {
  filesChanged : bool;
  changedSource : string;
  changedFile : string;
  seen : gmap string Z
}.

(** [!exists || modTime.After(lastMod)]. *)
Definition isNewOrModified (m : gmap string Z) (path : string) (modTime : Z) : bool :=
  match m !! path with
  | Some lastMod => lastMod <? modTime
  | None => true
  end.

(** The block "Check if file is new or modified" of both callbacks. *)
Definition checkModified (source path : string) (info : node) (d : Detect) : Detect :=
  if negb (IsDir info) then
    let modTime := ModTime info in
    if isNewOrModified (seen d) path modTime then
      {| filesChanged := true; changedSource := source; changedFile := path;
         seen := <[path := modTime]> (seen d) |}
    else d
  else d.

(** The callback of the walk over the input directory. *)
Definition checkInputFn (path : string) (info : node) (d : Detect)
  : Detect * WalkResult :=
  if HasPrefix (Base path) "." then
    if IsDir info then (d, WSkipDir) else (d, WNil)
  else if HasSuffix path ".tmp" then (d, WNil)
  else (checkModified "input files" path info d, WNil).

(** The callback of the walk over the templates directory. *)
Definition checkTemplatesFn (path : string) (info : node) (d : Detect)
  : Detect * WalkResult :=
  if HasPrefix (Base path) "." then
    if IsDir info then (d, WSkipDir) else (d, WNil)
  else (checkModified "template files" path info d, WNil).

(** The line a failed walk of a tick prints. *)
Definition reportWalk (r : WalkResult) (sys : Sys) : Sys :=
  match r with
  | WErr e => println (red "Error:" +:+ " Error checking for file changes: " +:+ e) sys
  | _ => sys
  end.

(** The detection part of a tick: the input walk, then the templates walk
    if the input walk set no flag. *)
Definition detect (site : Site) (config : Configuration) (m : gmap string Z)
  (sys : Sys) : Detect * Sys :=
  let d := {| filesChanged := false; changedSource := ""; changedFile := "";
              seen := m |} in
  let '(d, err) := Walk checkInputFn (InputDir config) (inputRoot site) d in
  let sys := reportWalk err sys in
  if negb (filesChanged d) then
    let '(d, err) := Walk checkTemplatesFn (TemplatesDir config) (templatesRoot site) d in
    (d, reportWalk err sys)
  else (d, sys).

(** One second, the tick interval and the least time between rebuilds. *)
Definition second : Z := 1000000000.

(** One tick of the watcher at time [now] ([time.Since(lastRebuild)] is
    [now - lastRebuild]); [rebuilt] is the time read after the build. *)
Definition tick (E : Engine) (site : Site) (config : Configuration)
  (now rebuilt : Z) (s : WatchState * Sys) : WatchState * Sys :=
  let '(w, sys) := s in
  let '(d, sys) := detect site config (lastModified w) sys in
  if filesChanged d && (second <=? now - lastRebuild w) then
    let sys := println (nl +:+ yellow ("Changes detected in " +:+ changedSource d +:+ ":")
                        +:+ " " +:+ changedFile d) sys in
    let sys := println (cyan "Rebuilding entire site...") sys in
    let sys := build E site config sys in
    let sys := println (green "Rebuild complete!") sys in
    let m := initializeFileMap (InputDir config) (inputRoot site) (seen d) in
    let m := initializeFileMap (TemplatesDir config) (templatesRoot site) m in
    ({| lastModified := m; lastRebuild := rebuilt |}, sys)
  else ({| lastModified := seen d; lastRebuild := lastRebuild w |}, sys).

(** The watcher as [serve] starts it at time [started]: the initial build,
    then the map filled from both directories. *)
Definition startWatch (E : Engine) (site : Site) (config : Configuration)
  (started : Z) (sys : Sys) : WatchState * Sys :=
  let sys := build E site config sys in
  let m := initializeFileMap (InputDir config) (inputRoot site) ∅ in
  let m := initializeFileMap (TemplatesDir config) (templatesRoot site) m in
  ({| lastModified := m; lastRebuild := started |}, sys).

(* ===================================================================== *)
(** ** The entries a walk visits *)
(* ===================================================================== *)

Section Visits.

(** What the callback returns on an entry, when that does not depend on
    the state. *)
Variable ctl : string -> node -> WalkResult.

(** The entries on which [walk] calls the callback, in order, with their
    paths: the entries of a directory are visited only if the callback
    returned [nil] on it. *)
Fixpoint visits (path : string) (info : node) : list (string * node) :=
  match info with
  | File _ _ => [(path, info)]
  | Directory _ entries =>
      (path, info) ::
      match ctl path info with
      | WNil =>
          (fix below (es : list (string * node)) : list (string * node) :=
             match es with
             | [] => []
             | (name, child) :: rest =>
                 visits (Join [path; name]) child ++ below rest
             end) entries
      | _ => []
      end
  end.

(** The visits below a directory at [path], entry by entry. *)
Definition visitsBelow (path : string) (es : list (string * node))
  : list (string * node) :=
  flat_map (fun ne => visits (Join [path; fst ne]) (snd ne)) es.

End Visits.

(** The visits of a whole tree at [root]; none if it does not exist. *)
Definition visitsOf (ctl : string -> node -> WalkResult) (root : string)
  (tree : option node) : list (string * node) :=
  match tree with
  | Some info => visits ctl root info
  | None => []
  end.

(** A fold of a state change over visited entries. *)
Definition foldVisits {S : Type} (step : string -> node -> S -> S)
  (vs : list (string * node)) (s : S) : S :=
  fold_left (fun s v => step (fst v) (snd v) s) vs s.

(* ===================================================================== *)
(** ** Lines of a text *)
(* ===================================================================== *)

(** The lines of a text, without their newline bytes. *)
Fixpoint textLines (s : string) : list string :=
  match s with
  | EmptyString => [EmptyString]
  | String c r =>
      if Ascii.eqb c "010"%char then EmptyString :: textLines r
      else match textLines r with
           | [] => [String c EmptyString]
           | x :: xs => String c x :: xs
           end
  end.

(** The text has, after its first line, a line that consists solely of
    [---]. *)
Definition hasClosingLine (content : string) : bool :=
  existsb (String.eqb "---") (tail (textLines content)).

(* ===================================================================== *)
(** ** Sample collaborators, configuration and sites *)
(* ===================================================================== *)

(** The text of [s] up to its first newline. *)
Definition firstLine (s : string) : string :=
  match textLines s with
  | l :: _ => l
  | [] => ""
  end.

(** The text of [s] after its first newline; empty if there is none. *)
Fixpoint afterFirstLine (s : string) : string :=
  match s with
  | EmptyString => EmptyString
  | String c r => if Ascii.eqb c "010"%char then r else afterFirstLine r
  end.

(** A decoder that knows two keys, on the first line of the block:
    [title: T] sets the title and [template: F] the template. An empty
    block sets nothing. Anything else is an error; like [yaml.v3] on a type
    error, the decoder keeps what it has decoded before: a known first line
    followed by more lines gives the error and the field. *)
Definition sampleUnmarshal (block : string) (fm : FrontMatter)
  : FrontMatter * option string :=
  let err :=
    if String.eqb (afterFirstLine block) "" then None
    else Some "yaml: unmarshal errors" in
  if String.eqb block "" then (fm, None)
  else if HasPrefix block "title: " then
    ({| Title := firstLine (sliceFrom 7 block); Template := Template fm;
        Description := Description fm; Date := Date fm; Tags := Tags fm;
        Custom := Custom fm |}, err)
  else if HasPrefix block "template: " then
    ({| Title := Title fm; Template := firstLine (sliceFrom 10 block);
        Description := Description fm; Date := Date fm; Tags := Tags fm;
        Custom := Custom fm |}, err)
  else (fm, Some "yaml: unmarshal errors").

(** A converter that wraps the text in a paragraph, a loader that knows
    [templates/default.html] and [templates/broken.html], and an execution
    that puts the content in a [main] element and fails for the broken
    template. *)
Definition sampleEngine : Engine := {|
  Tmpl := string;
  Unmarshal := sampleUnmarshal;
  Convert := fun text => inl ("<p>" +:+ text +:+ "</p>");
  ParseFiles := fun path =>
    if String.eqb path "templates/default.html"
       || String.eqb path "templates/broken.html"
    then inl path
    else inr ("open " +:+ path +:+ ": no such file or directory");
  Execute := fun tmpl data =>
    if String.eqb tmpl "templates/broken.html" then inr "template: nil pointer"
    else match data !! "Content" with
         | Some (AHTML html) => inl ("<main>" +:+ html +:+ "</main>")
         | _ => inr "template: no content"
         end
|}.

(** A text with a front-matter block the sample decoder rejects, and one
    with a block it rejects after it has decoded the title. *)
Definition undecodableText : string :=
  delim +:+ "tags: {" +:+ nl +:+ delim +:+ "# Body" +:+ nl.

Definition typeErrorText : string :=
  delim +:+ "title: Hello" +:+ nl +:+ "tags: 5" +:+ nl +:+ delim +:+ "# Body" +:+ nl.

Definition sampleConfig : Configuration := {|
  InputDir := "input"; OutputDir := "output"; TemplatesDir := "templates";
  Serve := false; Host := "0.0.0.0"; Port := 8000
|}.

Definition sampleTemplates : node :=
  Directory 0 [("default.html", File 0 "{{.Content}}")].

(** A site with a blog section. *)
Definition blogSite : Site := {|
  inputRoot := Some (Directory 0
    [("blog", Directory 0 [("index.md", File 0 "hello"); ("post.md", File 0 "post")]);
     ("style.css", File 0 "body {}")]);
  templatesRoot := Some sampleTemplates
|}.

(** A site whose input directory is missing. *)
Definition noInputSite : Site := {|
  inputRoot := None;
  templatesRoot := Some sampleTemplates
|}.

(** Sites without a directory at one of the two paths: a regular file
    stands at the path of the templates directory, or at the path of the
    input directory. *)
Definition fileTemplatesSite : Site := {|
  inputRoot := Some (Directory 0 [("style.css", File 0 "body {}")]);
  templatesRoot := Some (File 0 "not a directory")
|}.

Definition fileInputSite : Site := {|
  inputRoot := Some (File 0 "not a directory");
  templatesRoot := Some sampleTemplates
|}.

(** An output tree left by an earlier build. *)
Definition staleSys : Sys := {|
  fs := <["output" := EDir]> (<["output/old.html" := EFile "old"]> ∅);
  console := []
|}.

Definition emptySys : Sys := {| fs := ∅; console := [] |}.

(** A text whose only other [---] stands at the end of a line of text, not
    on a line of its own. *)
Definition inlineDashesText : string :=
  delim +:+ "title: a" +:+ delim +:+ "body".


(** A page that names a template the loader does not know, and one whose
    template fails when it is executed. *)
Definition missingTemplatePage : string :=
  delim +:+ "template: missing.html" +:+ nl +:+ delim +:+ "hi".

Definition brokenTemplatePage : string :=
  delim +:+ "template: broken.html" +:+ nl +:+ delim +:+ "hi".

(** A site with such a page before an ordinary one. *)
Definition fallbackSite : Site := {|
  inputRoot := Some (Directory 0
    [("a.md", File 0 missingTemplatePage); ("b.md", File 0 "second")]);
  templatesRoot := Some sampleTemplates
|}.

(** A site in which the page of [a.md], whose template does not load, is
    to be written where the directory [a/index.html] has been mirrored. *)
Definition collidingPageSite : Site := {|
  inputRoot := Some (Directory 0
    [("a", Directory 0 [("index.html", Directory 0 [])]);
     ("a.md", File 0 missingTemplatePage)]);
  templatesRoot := Some sampleTemplates
|}.

(** An empty output directory. *)
Definition freshSys : Sys := {| fs := {["output" := EDir]}; console := [] |}.

(* ===================================================================== *)
(** ** Source trees without some of their entries *)
(* ===================================================================== *)

Section Prune.

(** Which entries to leave out, by path and entry. *)
Variable drop : string -> node -> bool.

(** The tree at [path] without the entries that [drop] names, at every
    depth. The root itself stays. *)
Fixpoint prune (path : string) (info : node) : node :=
  match info with
  | File _ _ => info
  | Directory t entries =>
      Directory t
        ((fix keep (es : list (string * node)) : list (string * node) :=
            match es with
            | [] => []
            | (name, child) :: rest =>
                if drop (Join [path; name]) child then keep rest
                else (name, prune (Join [path; name]) child) :: keep rest
            end) entries)
  end.

(** The kept entries of a directory at [path]. *)
Fixpoint pruneEntries (path : string) (es : list (string * node))
  : list (string * node) :=
  match es with
  | [] => []
  | (name, child) :: rest =>
      if drop (Join [path; name]) child then pruneEntries path rest
      else (name, prune (Join [path; name]) child) :: pruneEntries path rest
  end.

End Prune.

(** The same for a directory that may not exist. *)
Definition pruneRoot (drop : string -> node -> bool) (root : string)
  (tree : option node) : option node :=
  match tree with
  | Some info => Some (prune drop root info)
  | None => None
  end.

(* ===================================================================== *)
(** ** The walks of the watcher, entry by entry *)
(* ===================================================================== *)

(** What both callbacks of a tick return: [SkipDir] on a hidden directory,
    [nil] otherwise. *)
Definition skipHidden (path : string) (info : node) : WalkResult :=
  if HasPrefix (Base path) "." && IsDir info then WSkipDir else WNil.

(** The state changes of the callbacks of the watcher. *)
Definition initStep (path : string) (info : node) (m : gmap string Z) : gmap string Z :=
  fst (initFn path info m).

Definition checkInputStep (path : string) (info : node) (d : Detect) : Detect :=
  fst (checkInputFn path info d).

Definition checkTemplatesStep (path : string) (info : node) (d : Detect) : Detect :=
  fst (checkTemplatesFn path info d).

(** A hidden entry; for the input walk also a file with the suffix [.tmp]. *)
Definition isHidden (path : string) (info : node) : bool :=
  HasPrefix (Base path) ".".

Definition isHiddenOrTmp (path : string) (info : node) : bool :=
  HasPrefix (Base path) "." || (HasSuffix path ".tmp" && negb (IsDir info)).

(** A file that is not markdown and whose base name starts with a dot. *)
Definition isHiddenAsset (path : string) (info : node) : bool :=
  negb (IsDir info) && negb (isMarkdownFile path) && HasPrefix (Base path) ".".

(** The state a tick starts its detection from. *)
Definition noChange (m : gmap string Z) : Detect :=
  {| filesChanged := false; changedSource := ""; changedFile := ""; seen := m |}.

(** The two walks of a tick on their own. *)
Definition detectInput (site : Site) (config : Configuration) (d : Detect) : Detect :=
  fst (Walk checkInputFn (InputDir config) (inputRoot site) d).

Definition detectTemplates (site : Site) (config : Configuration) (d : Detect) : Detect :=
  fst (Walk checkTemplatesFn (TemplatesDir config) (templatesRoot site) d).

(** The site as the watcher sees it: the input tree without hidden
    entries and without files with the suffix [.tmp], the templates tree
    without hidden entries. *)
Definition withoutUnwatched (site : Site) (config : Configuration) : Site :=
  {| inputRoot := pruneRoot isHiddenOrTmp (InputDir config) (inputRoot site);
     templatesRoot := pruneRoot isHidden (TemplatesDir config) (templatesRoot site) |}.

(** Two states of a site, the second after edits to a hidden file, to a
    file inside a hidden directory and to a [.tmp] file of the input. *)
Definition watchedSite : Site := {|
  inputRoot := Some (Directory 0
    [(".git", Directory 0 [("HEAD", File 1 "ref")]);
     (".draft.md", File 1 "x");
     ("page.md", File 1 "page");
     ("page.md.tmp", File 1 "swap")]);
  templatesRoot := Some (Directory 0
    [(".cache", File 1 "c"); ("default.html", File 1 "t")])
|}.

Definition watchedSiteEdited : Site := {|
  inputRoot := Some (Directory 0
    [(".git", Directory 5 [("HEAD", File 9 "ref2"); ("index", File 9 "i")]);
     (".draft.md", File 9 "xy");
     ("page.md", File 1 "page");
     ("page.md.tmp", File 9 "swap2")]);
  templatesRoot := Some (Directory 0
    [(".cache", File 9 "c2"); ("default.html", File 1 "t")])
|}.

(** The map of the watcher after it has seen [watchedSite]. *)
Definition watchedMap : gmap string Z :=
  <["input/page.md" := 1]> (<["templates/default.html" := 1]> ∅).

(** A site in which an input file and a template are newer than the map
    says, and one in which only a [.tmp] file of the templates is. *)
Definition bothChangedSite : Site := {|
  inputRoot := Some (Directory 0 [("page.md", File 7 "page2")]);
  templatesRoot := Some (Directory 0 [("default.html", File 9 "t2")])
|}.

Definition templateTmpSite : Site := {|
  inputRoot := Some (Directory 0 [("page.md", File 1 "page")]);
  templatesRoot := Some (Directory 0
    [("default.html", File 1 "t"); ("default.html.tmp", File 9 "swap")])
|}.

(** The files a walk of the watcher compares with the map. *)
Definition watchedInput (path : string) (info : node) : bool :=
  negb (isHiddenOrTmp path info) && negb (IsDir info).

Definition watchedTemplate (path : string) (info : node) : bool :=
  negb (isHidden path info) && negb (IsDir info).

(** The paths of the files of a tree, as [initializeFileMap] visits them. *)
Definition filePaths (root : string) (tree : option node) : list string :=
  map fst (List.filter (fun v => negb (IsDir (snd v))) (visitsOf noSkip root tree)).

(** Ticks one after the other on a site that stays as it is, each with its
    two clock readings. *)
Definition runTicks (E : Engine) (site : Site) (config : Configuration)
  (times : list (Z * Z)) (s : WatchState * Sys) : WatchState * Sys :=
  fold_left (fun s nr => tick E site config (fst nr) (snd nr) s) times s.

(** A watcher that still remembers a page that has been deleted since. *)
Definition staleWatch : WatchState := {|
  lastModified := <["input/old.md" := 1]> watchedMap;
  lastRebuild := 0
|}.

(** A watcher that rebuilt half a second ago, and a site in which a page
    has been saved since. *)
Definition recentWatch : WatchState := {|
  lastModified := watchedMap;
  lastRebuild := 10 * second
|}.

Definition pageSavedSite : Site := {|
  inputRoot := Some (Directory 0 [("page.md", File 7 "page2")]);
  templatesRoot := Some (Directory 0 [("default.html", File 1 "t")])
|}.

(* ===================================================================== *)
(** ** Plain paths *)
(* ===================================================================== *)

(** A file or directory name: not empty, not [.] or [..], no separator. *)
Definition isName (n : string) : bool :=
  negb (String.eqb n "") && negb (String.eqb n ".") && negb (String.eqb n "..")
  && negb (hasSep n).

(** A plain path: names joined by the separator, below the root ([/a/b])
    or not ([a/b]). *)
Definition rootMarker (rooted : bool) : list string :=
  if rooted then [""] else [].

Definition plainPath (rooted : bool) (names : list string) : string :=
  fromElements (rootMarker rooted ++ names).

(** A path that is a plain path: its elements are names. *)
Definition isPlain (p : string) : bool := forallb isName (OS.below p).

(** Two directories that lie apart: plain paths, both from the root or
    both from the working directory, neither of them the other or below
    it. *)
Definition apart (a b : string) : bool :=
  isPlain a && isPlain b && Bool.eqb (isRooted a) (isRooted b)
  && negb (OS.within a b) && negb (OS.within b a).

(** A file name without its extension, as [writeHTMLFile] takes it. *)
Definition stem (name : string) : string := TrimSuffix name (extOf name).

(** Where [build] writes the page of the markdown file at [path]:
    [processFn] computes [outputPath], [writeHTMLFile] the page path. *)
Definition pagePath (config : Configuration) (path : string) : string :=
  let relPath := default "" (Rel (InputDir config) path) in
  let outputPath := Join [OutputDir config; relPath] in
  outputHTMLPath outputPath path.

(** The site without the hidden files of its input tree that are not
    markdown. *)
Definition withoutHiddenAssets (site : Site) (config : Configuration) : Site :=
  {| inputRoot := pruneRoot isHiddenAsset (InputDir config) (inputRoot site);
     templatesRoot := templatesRoot site |}.

(** A site with a hidden directory and a hidden file. *)
Definition hiddenEntriesSite : Site := {|
  inputRoot := Some (Directory 0
    [(".env", File 0 "SECRET=1");
     (".git", Directory 0 [("config", File 0 "[core]")]);
     ("index.md", File 0 "home")]);
  templatesRoot := Some sampleTemplates
|}.

(** A site with a hidden markdown file beside a hidden file that is not
    markdown. *)
Definition hiddenPageSite : Site := {|
  inputRoot := Some (Directory 0
    [(".draft.md", File 0 "draft");
     (".env", File 0 "SECRET=1")]);
  templatesRoot := Some sampleTemplates
|}.

(** The state and the count of [build] when its traversal has ended, for
    a site with both directories. *)
Definition traversed (E : Engine) (site : Site) (config : Configuration) (sys : Sys)
  : Sys * nat :=
  let sys := printConfiguration config sys in
  let sys := println (blue (nl +:+ "Files found in input directory:")) sys in
  let sys := fst (Walk (foundFn config) (InputDir config) (inputRoot site) sys) in
  let sys := resetOutput config sys in
  fst (Walk (processFn E site config) (InputDir config) (inputRoot site) (sys, O)).

(** A site with a [robots.txt] of its own, one with a page named
    [robots.txt.md] and no [robots.txt], and one without templates. *)
Definition ownRobots : string := "User-agent: *" +:+ nl +:+ "Disallow: /private".

Definition robotsSite : Site := {|
  inputRoot := Some (Directory 0
    [("index.md", File 0 "home"); ("robots.txt", File 0 ownRobots)]);
  templatesRoot := Some sampleTemplates
|}.

Definition robotsPageSite : Site := {|
  inputRoot := Some (Directory 0
    [("index.md", File 0 "home"); ("robots.txt.md", File 0 "about robots")]);
  templatesRoot := Some sampleTemplates
|}.

Definition noTemplatesSite : Site := {|
  inputRoot := Some (Directory 0 [("index.md", File 0 "home")]);
  templatesRoot := None
|}.

(** Ticks over the successive states of a site, each with its two clock
    readings. *)
Definition runTicksOn (E : Engine) (config : Configuration)
  (steps : list (Site * (Z * Z))) (s : WatchState * Sys) : WatchState * Sys :=
  fold_left (fun s step => tick E (fst step) config (fst (snd step)) (snd (snd step)) s)
    steps s.

(** In this state of the site every file at [path], in either tree, has
    the modification time [t]: the file has not been modified again. *)
Definition keepsTime (site : Site) (config : Configuration) (path : string) (t : Z)
  : Prop :=
  forall i,
    In (path, i) (visitsOf noSkip (InputDir config) (inputRoot site)
                  ++ visitsOf noSkip (TemplatesDir config) (templatesRoot site)) ->
    IsDir i = false -> ModTime i = t.

(* ===================================================================== *)
(** ** Induction over source trees *)
(* ===================================================================== *)

Section NodeInduction.

Variable P : node -> Prop.
Hypothesis P_File : forall t data, P (File t data).
Hypothesis P_Directory :
  forall t entries, List.Forall (fun ne => P (snd ne)) entries -> P (Directory t entries).

Fixpoint node_nested_ind (info : node) : P info :=
  match info with
  | File t data => P_File t data
  | Directory t entries =>
      P_Directory t entries
        ((fix all (es : list (string * node)) : List.Forall (fun ne => P (snd ne)) es :=
            match es with
            | [] => @List.Forall_nil _ _
            | ne :: rest =>
                @List.Forall_cons _ _ ne rest (node_nested_ind (snd ne)) (all rest)
            end) entries)
  end.

End NodeInduction.

(** A configuration with directories given from the root. *)
Definition rootedConfig : Configuration := {|
  InputDir := "/srv/site/input"; OutputDir := "/var/www"; TemplatesDir := "/srv/site/templates";
  Serve := false; Host := "0.0.0.0"; Port := 8000
|}.

(* ===================================================================== *)
(** ** What [build] counts *)
(* ===================================================================== *)

(** The entries the traversal of [build] counts as processed: the markdown
    files, and the other files whose base name does not start with a dot. *)
Definition isCounted (path : string) (info : node) : bool :=
  negb (IsDir info) && (isMarkdownFile path || negb (HasPrefix (Base path) ".")).

(* ===================================================================== *)
(** ** Sites for the watcher *)
(* ===================================================================== *)

(** The site without the entries of its two trees that [dropInput] and
    [dropTemplates] name: the site after these files and directories have
    been deleted. *)
Definition withoutEntries (dropInput dropTemplates : string -> node -> bool)
  (site : Site) (config : Configuration) : Site :=
  {| inputRoot := pruneRoot dropInput (InputDir config) (inputRoot site);
     templatesRoot := pruneRoot dropTemplates (TemplatesDir config) (templatesRoot site) |}.

(* ===================================================================== *)
(** ** Directories of a plain path *)
(* ===================================================================== *)

(** The directory that the names [done] lead to from where a plain path
    starts: the root or the working directory when there are none. *)
Definition dirAt (rooted : bool) (done : list string) : string :=
  match done with
  | [] => if rooted then "/" else "."
  | _ => plainPath rooted done
  end.

(* ===================================================================== *)
(** ** Input trees with ordinary names, and changes below a directory *)
(* ===================================================================== *)

(** A name that does not begin with two dots. *)
Definition isSafeName (n : string) : bool := isName n && negb (HasPrefix n "..").

(** Every entry of the tree, at every depth, has such a name. *)
Fixpoint wellNamed (info : node) : bool :=
  match info with
  | File _ _ => true
  | Directory _ entries =>
      (fix all (es : list (string * node)) : bool :=
         match es with
         | [] => true
         | (name, child) :: rest => isSafeName name && wellNamed child && all rest
         end) entries
  end.

(** The file system [after] is [before] apart from what is at or below the
    plain path of the names [outd], and apart from directories on the way
    to it that did not exist and have been made. *)
Definition confinedTo (rooted : bool) (outd : list string) (before after : store)
  : Prop :=
  forall k,
    OS.within (plainPath rooted outd) k = false ->
    after !! k = before !! k
    \/ (before !! k = None /\ after !! k = Some EDir
        /\ exists j, (0 < j < length outd)%nat /\ k = plainPath rooted (take j outd)).

(* ===================================================================== *)
(** ** The traversal of [build], entry by entry *)
(* ===================================================================== *)

(** The path at which the traversal of [build] writes a file for an entry
    of the input tree: the page path for a markdown file, the mirrored path
    for another file whose name does not start with a dot, none for a
    directory or a skipped file. *)
Definition writeTarget (config : Configuration) (path : string) (info : node)
  : option string :=
  if IsDir info then None
  else if isMarkdownFile path then Some (pagePath config path)
  else if negb (HasPrefix (Base path) ".") then
    Some (Join [OutputDir config; default "" (Rel (InputDir config) path)])
  else None.

(** The line the first walk of [build] prints for a file. *)
Definition foundLine (config : Configuration) (path : string) : string :=
  green "Found:" +:+ " " +:+ default "" (Rel (InputDir config) path).

(** The state and the count of [build] when its traversal has handled the
    entries [vs], for a site with both directories. *)
Definition traversedUpTo (E : Engine) (site : Site) (config : Configuration)
  (sys : Sys) (vs : list (string * node)) : Sys * nat :=
  let sys := printConfiguration config sys in
  let sys := println (blue (nl +:+ "Files found in input directory:")) sys in
  let sys := fst (Walk (foundFn config) (InputDir config) (inputRoot site) sys) in
  let sys := resetOutput config sys in
  foldVisits (processStep E site config) vs (sys, O).

(* ===================================================================== *)
(** ** More sample collaborators, sites and file systems *)
(* ===================================================================== *)

(** The sample engine with a converter that fails. *)
Definition failingEngine : Engine := {|
  Tmpl := string;
  Unmarshal := sampleUnmarshal;
  Convert := fun _ => inr "render: write failed";
  ParseFiles := ParseFiles sampleEngine;
  Execute := Execute sampleEngine
|}.

(** A site with a markdown file whose base name is [..]. *)
Definition dotdotSite : Site := {|
  inputRoot := Some (Directory 0 [("...md", File 0 "up")]);
  templatesRoot := Some sampleTemplates
|}.

(** A file system with a file beside the output directory. *)
Definition notesSys : Sys := {|
  fs := <["notes.txt" := EFile "keep"]> (fs staleSys);
  console := []
|}.

(** A watcher that has seen [watchedSite], and what is deleted from the
    input tree next: the page. *)
Definition seenWatch : WatchState := {|
  lastModified := watchedMap;
  lastRebuild := 0
|}.

Definition isThePage (path : string) (info : node) : bool :=
  String.eqb path "input/page.md".

Definition keepAll (path : string) (info : node) : bool := false.

(** [watchedSite] after its page has been given other bytes with the time
    it had, and its template an older version with an earlier time. *)
Definition restoredSite : Site := {|
  inputRoot := Some (Directory 0 [("page.md", File 1 "other page")]);
  templatesRoot := Some (Directory 0 [("default.html", File 0 "older")])
|}.


(* ===================================================================== *)
(** ** The place of an entry in the output tree *)
(* ===================================================================== *)

(** The path an entry of the input tree takes in the output tree: the
    mirrored directory for a directory, the path its file is written to for
    a file that is written. *)
Definition placeOf (config : Configuration) (path : string) (info : node)
  : option string :=
  if IsDir info then
    Some (Join [OutputDir config; default "" (Rel (InputDir config) path)])
  else writeTarget config path info.


(* ===================================================================== *)
(** * Properties *)
(* ===================================================================== *)

(** ** The library functions on sample paths *)

Example Clean_ex1 : Clean "a//b/./c/.." = "a/b". Proof. reflexivity. Qed.
Example Clean_ex2 : Clean "" = ".". Proof. reflexivity. Qed.
Example Clean_ex3 : Clean "/../a/" = "/a". Proof. reflexivity. Qed.
Example Clean_ex4 : Clean "../../a" = "../../a". Proof. reflexivity. Qed.
Example Clean_ex5 : Clean "/" = "/". Proof. reflexivity. Qed.
Example Clean_ex6 : Clean "a/.." = ".". Proof. reflexivity. Qed.
Example Join_ex1 : Join ["output"; "blog/post.md"] = "output/blog/post.md". Proof. reflexivity. Qed.
Example Join_ex2 : Join ["output"; "."] = "output". Proof. reflexivity. Qed.
Example Join_ex3 : Join [""; ""] = "". Proof. reflexivity. Qed.
Example Join_ex4 : Join ["a"; ""; "index.html"] = "a/index.html". Proof. reflexivity. Qed.
Example Base_ex1 : Base "input/blog/post.md" = "post.md". Proof. reflexivity. Qed.
Example Base_ex2 : Base "a/b//" = "b". Proof. reflexivity. Qed.
Example Base_ex3 : Base "///" = "/". Proof. reflexivity. Qed.
Example Base_ex4 : Base "" = ".". Proof. reflexivity. Qed.
Example Ext_ex1 : Ext "a.b/c.tar.gz" = ".gz". Proof. reflexivity. Qed.
Example Ext_ex2 : Ext "a.b/c" = "". Proof. reflexivity. Qed.
Example Ext_ex3 : Ext "a.b/" = "". Proof. reflexivity. Qed.
Example Ext_ex4 : Ext ".md" = ".md". Proof. reflexivity. Qed.
Example Dir_ex1 : Dir "output/blog/post.md" = "output/blog". Proof. reflexivity. Qed.
Example Dir_ex2 : Dir "post.md" = ".". Proof. reflexivity. Qed.
Example Dir_ex3 : Dir "/a" = "/". Proof. reflexivity. Qed.
Example Dir_ex4 : Dir "a/b/" = "a/b". Proof. reflexivity. Qed.
Example Rel_ex1 : Rel "input" "input/blog/post.md" = Some "blog/post.md". Proof. reflexivity. Qed.
Example Rel_ex2 : Rel "input" "input" = Some ".". Proof. reflexivity. Qed.
Example Rel_ex3 : Rel "a/b" "a/c/d" = Some "../c/d". Proof. reflexivity. Qed.
Example Rel_ex4 : Rel "/a" "b" = None. Proof. reflexivity. Qed.
Example Rel_ex5 : Rel "." "a/b" = Some "a/b". Proof. reflexivity. Qed.
Example Rel_ex6 : Rel "/" "/a/b" = Some "a/b". Proof. reflexivity. Qed.
Example Rel_ex7 : Rel ".." "a" = None. Proof. reflexivity. Qed.
Example Rel_ex8 : Rel "a/b/c" "a" = Some "../..". Proof. reflexivity. Qed.
Example HasSuffix_ex : HasSuffix "a/x.tmp" ".tmp" = true. Proof. reflexivity. Qed.
Example TrimSuffix_ex : TrimSuffix "output/index.md" ".md" = "output/index". Proof. reflexivity. Qed.
Example Index_ex : Index "abc---" "---" = 3. Proof. reflexivity. Qed.
Example ToLower_ex : ToLower ".MarkDown" = ".markdown". Proof. reflexivity. Qed.
Example outputHTMLPath_post :
  outputHTMLPath "output/blog/post.md" "input/blog/post.md" = "output/blog/post/index.html".
Proof. reflexivity. Qed.
Example outputHTMLPath_index :
  outputHTMLPath "output/blog/index.md" "input/blog/index.md" = "output/blog/index.html".
Proof. reflexivity. Qed.
Example outputHTMLPath_index_markdown :
  outputHTMLPath "output/blog/index.markdown" "input/blog/index.markdown"
  = "output/blog/index/index.html".
Proof. reflexivity. Qed.

(** ** A walk is a fold over the entries it visits *)

Section WalkVisits.

Context {S : Type}.
Variable walkFn : string -> node -> S -> S * WalkResult.
Variable step : string -> node -> S -> S.
Variable ctl : string -> node -> WalkResult.

(** The callback changes the state by [step] and returns [ctl], which is
    [nil], or [SkipDir] on a directory. *)
Hypothesis walkFn_shape : forall p i s, walkFn p i s = (step p i s, ctl p i).
Hypothesis ctl_shape :
  forall p i, ctl p i = WNil \/ (ctl p i = WSkipDir /\ IsDir i = true).

Lemma visits_Directory_below path t entries :
  visits ctl path (Directory t entries)
  = (path, Directory t entries) ::
    match ctl path (Directory t entries) with
    | WNil => visitsBelow ctl path entries
    | _ => []
    end.
Proof.
  simpl. f_equal. destruct (ctl path (Directory t entries)); try reflexivity.
  induction entries as [|[name child] rest IH]; simpl; [reflexivity|].
  now rewrite IH.
Qed.

Lemma walk_visits info :
  forall path s,
    walk walkFn path info s = (foldVisits step (visits ctl path info) s, ctl path info).
Proof.
  induction info as [t data | t entries IH] using node_nested_ind; intros path s.
  - simpl. now rewrite walkFn_shape.
  - rewrite visits_Directory_below. simpl walk. rewrite walkFn_shape.
    destruct (ctl_shape path (Directory t entries)) as [Hc | [Hc _]]; rewrite Hc;
      [|reflexivity].
    unfold foldVisits at 1. simpl fold_left.
    generalize (step path (Directory t entries) s) as s1.
    clear Hc. induction entries as [|[name child] rest IHrest]; intros s1.
    + reflexivity.
    + inversion IH as [|? ? Hchild Hrest]; subst. simpl in Hchild.
      rewrite Hchild.
      unfold visitsBelow. simpl flat_map. unfold foldVisits.
      rewrite fold_left_app.
      destruct (ctl_shape (Join [path; name]) child) as [Hc | [Hc Hd]]; rewrite Hc.
      * rewrite (IHrest Hrest). reflexivity.
      * rewrite Hd. rewrite (IHrest Hrest). reflexivity.
Qed.

(** The whole walk of an existing tree: it ends with [nil]. *)
Lemma Walk_visits root info s :
  Walk walkFn root (Some info) s = (foldVisits step (visits ctl root info) s, WNil).
Proof.
  unfold Walk. rewrite walk_visits.
  destruct (ctl_shape root info) as [Hc | [Hc _]]; now rewrite Hc.
Qed.

End WalkVisits.

(* ===================================================================== *)
(** ** [build]: the directory checks *)
(* ===================================================================== *)

Lemma fs_println line sys : fs (println line sys) = fs sys.
Proof. reflexivity. Qed.

(** [build] stops at the directory checks when nothing exists at one of
    the two paths. *)
Lemma fs_build_missing E site config sys :
  inputRoot site = None \/ templatesRoot site = None ->
  fs (build E site config sys) = fs sys.
Proof.
  intros Hmissing. unfold build.
  destruct (inputRoot site) as [input|] eqn:Hin; [|reflexivity].
  destruct Hmissing as [Hm | Hm]; [discriminate|]. now rewrite Hm.
Qed.
(* ===================================================================== *)
(** ** Strings: slices, prefixes and occurrences *)
(* ===================================================================== *)

Lemma append_cons c s t : String c s +:+ t = String c (s +:+ t).
Proof. reflexivity. Qed.

Lemma append_empty_l t : "" +:+ t = t.
Proof. reflexivity. Qed.

Lemma append_empty_r s : s +:+ "" = s.
Proof. induction s as [|c s IH]; [reflexivity|]. now rewrite append_cons, IH. Qed.

Lemma append_assoc s t u : (s +:+ t) +:+ u = s +:+ t +:+ u.
Proof. induction s as [|c s IH]; [reflexivity|]. now rewrite !append_cons, IH. Qed.

Lemma length_append s t :
  String.length (s +:+ t) = (String.length s + String.length t)%nat.
Proof. induction s as [|c s IH]; [reflexivity|]. rewrite append_cons. simpl. now rewrite IH. Qed.

Lemma sliceFrom_append s t : sliceFrom (String.length s) (s +:+ t) = t.
Proof. induction s as [|c s IH]; [now destruct t|]. exact IH. Qed.

Lemma sliceTo_append s t : sliceTo (String.length s) (s +:+ t) = s.
Proof.
  induction s as [|c s IH]; [reflexivity|].
  rewrite append_cons. simpl. now rewrite IH.
Qed.

Lemma sliceFrom_add n m s : sliceFrom (n + m) s = sliceFrom m (sliceFrom n s).
Proof.
  revert s. induction n as [|n IH]; intros s; [reflexivity|].
  destruct s as [|c s]; simpl; [now destruct m|]. apply IH.
Qed.

Lemma HasPrefix_empty s : HasPrefix s "" = true.
Proof. unfold HasPrefix. now destruct s. Qed.

Lemma HasPrefix_cons b t a s :
  HasPrefix (String b t) (String a s) = Ascii.eqb b a && HasPrefix t s.
Proof.
  unfold HasPrefix. simpl.
  destruct (Ascii.eqb b a); simpl; [reflexivity|].
  now rewrite andb_false_r.
Qed.

Lemma HasPrefix_append s t : HasPrefix (s +:+ t) s = true.
Proof.
  induction s as [|c s IH]; [apply HasPrefix_empty|].
  rewrite append_cons, HasPrefix_cons, Ascii.eqb_refl. exact IH.
Qed.

Lemma HasPrefix_inv s u : HasPrefix u s = true -> exists t, u = s +:+ t.
Proof.
  revert u. induction s as [|c s IH]; intros u H.
  - now exists u.
  - destruct u as [|d u]; [discriminate|].
    rewrite HasPrefix_cons in H. apply andb_true_iff in H as [Hc Hs].
    apply Ascii.eqb_eq in Hc as ->. destruct (IH _ Hs) as [t ->]. now exists t.
Qed.

(** [indexOf] finds an occurrence, and finds none only if there is none. *)
Lemma indexOf_Some s sub n :
  indexOf s sub = Some n ->
  exists a b, s = a +:+ sub +:+ b /\ String.length a = n.
Proof.
  revert n. induction s as [|c s IH]; intros n H; simpl in H.
  - destruct (HasPrefix "" sub) eqn:Hp; [|discriminate].
    injection H as <-. destruct (HasPrefix_inv _ _ Hp) as [t Ht].
    exists "", t. now split.
  - destruct (HasPrefix (String c s) sub) eqn:Hp.
    + injection H as <-. destruct (HasPrefix_inv _ _ Hp) as [t Ht].
      exists "", t. now split.
    + destruct (indexOf s sub) as [m|] eqn:Hi; [|discriminate].
      injection H as <-. destruct (IH m eq_refl) as (a & b & -> & <-).
      exists (String c a), b. now split.
Qed.

Lemma indexOf_None s sub :
  (forall a b, s <> a +:+ sub +:+ b) -> indexOf s sub = None.
Proof.
  intros Hno. destruct (indexOf s sub) as [n|] eqn:Hi; [|reflexivity].
  destruct (indexOf_Some _ _ _ Hi) as (a & b & Hs & _). now destruct (Hno a b).
Qed.

(** The first [---] line delimiter after a block that has none is the one
    that follows the block. *)
Lemma indexOf_delim_after block rest :
  (forall a b, block <> a +:+ delim +:+ b) ->
  indexOf (block +:+ delim +:+ rest) delim = Some (String.length block).
Proof.
  induction block as [|c block IH]; intros Hno.
  - rewrite append_empty_l. unfold indexOf.
    destruct (delim +:+ rest) eqn:Hd; [discriminate Hd|].
    rewrite <- Hd. now rewrite HasPrefix_append.
  - rewrite append_cons. simpl indexOf.
    destruct (HasPrefix (String c (block +:+ delim +:+ rest)) delim) eqn:Hp.
    + exfalso. destruct (HasPrefix_inv _ _ Hp) as [t Ht].
      destruct block as [|x [|y [|z block]]]; try discriminate Ht.
      apply (Hno "" block). rewrite append_empty_l.
      change (delim +:+ block)
        with (String "-" (String "-" (String "-" (String "010" block)))).
      rewrite !append_cons in Ht. injection Ht as -> -> -> -> _. reflexivity.
    + rewrite IH; [reflexivity|].
      intros a b ->. apply (Hno (String c a) b). reflexivity.
Qed.

(* ===================================================================== *)
(** ** [parseFrontMatter] *)
(* ===================================================================== *)

Lemma HasPrefix_delim rest : HasPrefix (delim +:+ rest) delim = true.
Proof. apply HasPrefix_append. Qed.

Lemma sliceFrom_delim rest : sliceFrom 4 (delim +:+ rest) = rest.
Proof. exact (sliceFrom_append delim rest). Qed.

(** A text that begins with the delimiter line and has the delimiter again
    after a block without one: the block goes to the decoder, the body is
    what follows the second delimiter. *)
Lemma parseFrontMatter_block E block body :
  (forall a b, block <> a +:+ delim +:+ b) ->
  parseFrontMatter E (delim +:+ block +:+ delim +:+ body)
  = let '(frontMatter, err) := Unmarshal E block emptyFrontMatter in
    (frontMatter, body,
     match err with
     | Some e => [red "Error:" +:+ " Error parsing front matter: " +:+ e]
     | None => []
     end).
Proof.
  intros Hno. unfold parseFrontMatter.
  rewrite HasPrefix_delim. simpl negb. cbv iota.
  rewrite sliceFrom_delim. unfold Index.
  rewrite (indexOf_delim_after block body Hno).
  replace (Z.of_nat (String.length block) =? -1) with false by (symmetry; apply Z.eqb_neq; lia).
  replace (Z.to_nat (Z.of_nat (String.length block) + 4)) with (4 + String.length block)%nat by lia.
  replace (Z.to_nat (Z.of_nat (String.length block) + 8))
    with (4 + (String.length block + 4))%nat by lia.
  unfold slice. rewrite !sliceFrom_add, !sliceFrom_delim.
  replace (4 + String.length block - 4)%nat with (String.length block) by lia.
  rewrite sliceTo_append, sliceFrom_append.
  change 4%nat with (String.length delim). rewrite sliceFrom_append.
  destruct (Unmarshal E block emptyFrontMatter) as [fm [e|]]; reflexivity.
Qed.

Lemma indexOf_occurrence a sub b : indexOf (a +:+ sub +:+ b) sub <> None.
Proof.
  induction a as [|c a IH].
  - rewrite append_empty_l. unfold indexOf.
    destruct (sub +:+ b) eqn:Hs; rewrite <- Hs, HasPrefix_append; discriminate.
  - rewrite append_cons. simpl.
    destruct (HasPrefix _ sub); [discriminate|].
    destruct (indexOf (a +:+ sub +:+ b) sub); [discriminate|]. now destruct IH.
Qed.

Lemma no_occurrence s sub :
  indexOf s sub = None -> forall a b, s <> a +:+ sub +:+ b.
Proof. intros Hi a b ->. now apply (indexOf_occurrence a sub b). Qed.

(** C3, as the code has it. A text that does not begin with the [---]
    line, or that begins with it and in which the four bytes of that line
    ([---] and a newline) occur nowhere after it, has no front matter:
    the splitter returns the zero [FrontMatter], the whole text as the body,
    and prints nothing. *)
Theorem parseFrontMatter_without_block E content :
  HasPrefix content delim = false
  \/ (exists rest, content = delim +:+ rest
                   /\ forall a b, rest <> a +:+ delim +:+ b) ->
  parseFrontMatter E content = (emptyFrontMatter, content, []).
Proof.
  intros [Hp | (rest & -> & Hno)]; unfold parseFrontMatter.
  - now rewrite Hp.
  - rewrite HasPrefix_delim, sliceFrom_delim. unfold Index.
    now rewrite (indexOf_None _ _ Hno).
Qed.

Lemma parseFrontMatter_without_block_witness :
  parseFrontMatter sampleEngine ("# Title" +:+ nl +:+ "text")
  = (emptyFrontMatter, "# Title" +:+ nl +:+ "text", [])
  /\ parseFrontMatter sampleEngine (delim +:+ "title: x" +:+ nl +:+ "---")
     = (emptyFrontMatter, delim +:+ "title: x" +:+ nl +:+ "---", []).
Proof.
  split.
  - apply (parseFrontMatter_without_block sampleEngine ("# Title" +:+ nl +:+ "text")).
    left. reflexivity.
  - apply (parseFrontMatter_without_block sampleEngine
             (delim +:+ "title: x" +:+ nl +:+ "---")).
    right. exists ("title: x" +:+ nl +:+ "---"). split; [reflexivity|].
    apply no_occurrence. reflexivity.
Defined.

(** C3 as the claim states it fails: [inlineDashesText] begins with the
    [---] line and no later line of it consists solely of [---], yet the
    splitter finds the bytes [---] and newline at the end of its second
    line, decodes [title: a] and returns [body], not the whole text. *)
Lemma parseFrontMatter_inline_dashes_counterexample :
  HasPrefix inlineDashesText delim = true
  /\ textLines inlineDashesText = ["---"; "title: a---"; "body"]
  /\ hasClosingLine inlineDashesText = false
  /\ Title (fst (fst (parseFrontMatter sampleEngine inlineDashesText))) = "a"
  /\ snd (fst (parseFrontMatter sampleEngine inlineDashesText)) = "body"
  /\ parseFrontMatter sampleEngine inlineDashesText
     <> (emptyFrontMatter, inlineDashesText, []).
Proof. repeat split; try reflexivity. discriminate. Qed.

(** C7, as the code has it. When the decoder returns an error for the
    block between the delimiters, the splitter prints one error line with
    it and returns the [FrontMatter] as the decoder left it, with the body
    that follows the closing delimiter: the same body as without the
    error. *)
Theorem parseFrontMatter_decode_failure E block body frontMatter e :
  (forall a b, block <> a +:+ delim +:+ b) ->
  Unmarshal E block emptyFrontMatter = (frontMatter, Some e) ->
  parseFrontMatter E (delim +:+ block +:+ delim +:+ body)
  = (frontMatter, body, [red "Error:" +:+ " Error parsing front matter: " +:+ e]).
Proof.
  intros Hno Hdec. rewrite (parseFrontMatter_block E block body Hno).
  now rewrite Hdec.
Qed.

Lemma parseFrontMatter_decode_failure_witness :
  parseFrontMatter sampleEngine undecodableText
  = (emptyFrontMatter, "# Body" +:+ nl,
     [red "Error:" +:+ " Error parsing front matter: " +:+ "yaml: unmarshal errors"])
  /\ parseFrontMatter sampleEngine typeErrorText
     = ({| Title := "Hello"; Template := ""; Description := ""; Date := "";
           Tags := []; Custom := ∅ |}, "# Body" +:+ nl,
        [red "Error:" +:+ " Error parsing front matter: " +:+ "yaml: unmarshal errors"]).
Proof.
  split.
  - apply (parseFrontMatter_decode_failure sampleEngine ("tags: {" +:+ nl)
             ("# Body" +:+ nl) emptyFrontMatter "yaml: unmarshal errors").
    + apply no_occurrence. reflexivity.
    + reflexivity.
  - apply (parseFrontMatter_decode_failure sampleEngine
             ("title: Hello" +:+ nl +:+ "tags: 5" +:+ nl) ("# Body" +:+ nl)
             {| Title := "Hello"; Template := ""; Description := ""; Date := "";
                Tags := []; Custom := ∅ |} "yaml: unmarshal errors").
    + apply no_occurrence. reflexivity.
    + reflexivity.
Defined.

(** C7 as the claim states it fails: for [typeErrorText] the decoder
    returns an error, and the body is what follows the closing delimiter,
    not everything after the opening one; the metadata is what the decoder
    has left, here with the title it had decoded. For [undecodableText],
    where the decoder leaves nothing, the body is again what follows the
    closing delimiter. *)
Lemma parseFrontMatter_decode_failure_counterexample :
  snd (Unmarshal sampleEngine ("title: Hello" +:+ nl +:+ "tags: 5" +:+ nl)
         emptyFrontMatter)
  = Some "yaml: unmarshal errors"
  /\ snd (fst (parseFrontMatter sampleEngine typeErrorText)) = "# Body" +:+ nl
  /\ sliceFrom 4 typeErrorText
     = "title: Hello" +:+ nl +:+ "tags: 5" +:+ nl +:+ delim +:+ "# Body" +:+ nl
  /\ snd (fst (parseFrontMatter sampleEngine typeErrorText))
     <> sliceFrom 4 typeErrorText
  /\ Title (fst (fst (parseFrontMatter sampleEngine typeErrorText))) = "Hello"
  /\ fst (fst (parseFrontMatter sampleEngine typeErrorText)) <> emptyFrontMatter
  /\ snd (Unmarshal sampleEngine ("tags: {" +:+ nl) emptyFrontMatter)
     = Some "yaml: unmarshal errors"
  /\ snd (fst (parseFrontMatter sampleEngine undecodableText)) = "# Body" +:+ nl
  /\ snd (fst (parseFrontMatter sampleEngine undecodableText))
     <> sliceFrom 4 undecodableText.
Proof. repeat split; try reflexivity; discriminate. Qed.

(* ===================================================================== *)
(** ** [renderMarkdown]: the fallback page *)
(* ===================================================================== *)

Lemma fs_withFs f sys : fs (withFs f sys) = f (fs sys).
Proof. reflexivity. Qed.

(** What [writeHTMLFile] leaves in the file system. *)
Lemma fs_writeHTMLFile outputPath inputPath content sys :
  fs (writeHTMLFile outputPath inputPath content sys)
  = fst (OS.WriteFile (outputHTMLPath outputPath inputPath) content
           (fst (OS.MkdirAll (Dir (outputHTMLPath outputPath inputPath)) (fs sys)))).
Proof.
  unfold writeHTMLFile. simpl.
  destruct (OS.WriteFile _ content _) as [st [|]]; reflexivity.
Qed.

Lemma WriteFile_lookup path data st :
  OS.canCreate st path = true ->
  fst (OS.WriteFile path data st) !! Clean path = Some (EFile data).
Proof.
  intros Hc. unfold OS.WriteFile. rewrite Hc. simpl. apply lookup_insert_eq.
Qed.

(** Both callbacks of [build] return [nil] on every entry. *)
Lemma foundFn_shape config p i s : foundFn config p i s = (foundStep config p i s, noSkip p i).
Proof. unfold foundStep, foundFn, noSkip. now destruct (negb (IsDir i)). Qed.

Lemma processFn_shape E site config p i s :
  processFn E site config p i s = (processStep E site config p i s, noSkip p i).
Proof.
  unfold processStep, processFn, noSkip. destruct s as [sys count].
  destruct (IsDir i); [reflexivity|].
  destruct (isMarkdownFile p); [reflexivity|].
  now destruct (negb (HasPrefix (Base p) ".")).
Qed.

Lemma noSkip_shape p i : noSkip p i = WNil \/ (noSkip p i = WSkipDir /\ IsDir i = true).
Proof. now left. Qed.

(** The traversal of [build] handles every entry of the input tree, in
    order, and ends with [nil]. *)
Lemma Walk_processFn E site config root input s :
  Walk (processFn E site config) root (Some input) s
  = (foldVisits (processStep E site config) (visits noSkip root input) s, WNil).
Proof.
  apply Walk_visits; [apply processFn_shape | apply noSkip_shape].
Qed.

Lemma Walk_foundFn config root input s :
  Walk (foundFn config) root (Some input) s
  = (foldVisits (foundStep config) (visits noSkip root input) s, WNil).
Proof.
  apply Walk_visits; [apply foundFn_shape | apply noSkip_shape].
Qed.

(** With both directories present [build] runs to its last line. *)
Lemma build_completes E site config sys input templates :
  inputRoot site = Some input ->
  templatesRoot site = Some templates ->
  exists count,
    last (console (build E site config sys)) = Some (processedLine count).
Proof.
  intros Hin Htm. unfold build. rewrite Hin, Htm.
  rewrite Walk_foundFn, Walk_processFn.
  destruct (foldVisits (processStep E site config) _ _) as [sys' count].
  exists count. unfold println. simpl. apply last_snoc.
Qed.

(** A markdown page whose template fails to load or to execute gets the
    fallback page: [renderMarkdown] writes it through [writeHTMLFile], where
    the page would have been written. *)
Lemma fs_renderMarkdown_fallback E site inputPath t data outputPath templatesDir sys
    frontMatter markdownContent printed htmlContent :
  parseFrontMatter E data = (frontMatter, markdownContent, printed) ->
  Convert E markdownContent = inl htmlContent ->
  templateFails E templatesDir frontMatter htmlContent = true ->
  fs (renderMarkdown E site inputPath (File t data) outputPath templatesDir sys)
  = fs (writeHTMLFile outputPath inputPath (fallbackPage htmlContent) sys).
Proof.
  intros Hparse Hconv Hfail.
  unfold renderMarkdown. simpl ReadFile. cbv iota. rewrite Hparse, Hconv.
  unfold templateFails in Hfail.
  destruct (ParseFiles E _) as [tmpl | err].
  - destruct (Execute E tmpl _) as [out | err]; [discriminate|].
    now rewrite !fs_writeHTMLFile.
  - now rewrite !fs_writeHTMLFile.
Qed.

(** On a whole build: the page with the unknown template gets the fallback
    page, the page after it is rendered with its template, and a template
    that fails in execution gives the fallback page too. *)
Example build_fallbackSite :
  fs (build sampleEngine fallbackSite sampleConfig emptySys) !! "output/a/index.html"
  = Some (EFile "<html><body><p>hi</p></body></html>")
  /\ fs (build sampleEngine fallbackSite sampleConfig emptySys) !! "output/b/index.html"
     = Some (EFile "<main><p>second</p></main>")
  /\ last (console (build sampleEngine fallbackSite sampleConfig emptySys))
     = Some (processedLine 2)
  /\ fs (renderMarkdown sampleEngine fallbackSite "input/c.md"
           (File 0 brokenTemplatePage) "output/c.md" "templates" freshSys)
     !! "output/c/index.html"
     = Some (EFile "<html><body><p>hi</p></body></html>").
Proof. repeat split; vm_compute; reflexivity. Qed.

(* ===================================================================== *)
(** ** Entries without effect can be left out of a walk *)
(* ===================================================================== *)

Section PruneFold.

Context {S : Type}.
Variable step : string -> node -> S -> S.
Variable ctl : string -> node -> WalkResult.
Variable drop : string -> node -> bool.

(** A dropped entry, with all the walk visits below it, changes nothing;
    on a directory the callback does not look at the entries. *)
Hypothesis drop_inert :
  forall p i s, drop p i = true -> foldVisits step (visits ctl p i) s = s.
Hypothesis step_entries :
  forall p t es es' s, step p (Directory t es) s = step p (Directory t es') s.
Hypothesis ctl_entries :
  forall p t es es', ctl p (Directory t es) = ctl p (Directory t es').

Lemma prune_Directory path t entries :
  prune drop path (Directory t entries) = Directory t (pruneEntries drop path entries).
Proof.
  simpl. f_equal. induction entries as [|[name child] rest IH]; simpl; [reflexivity|].
  now rewrite IH.
Qed.

Lemma foldVisits_app vs ws (s : S) :
  foldVisits step (vs ++ ws) s = foldVisits step ws (foldVisits step vs s).
Proof. unfold foldVisits. apply fold_left_app. Qed.

Lemma foldVisits_cons p i vs (s : S) :
  foldVisits step ((p, i) :: vs) s = foldVisits step vs (step p i s).
Proof. reflexivity. Qed.

Lemma foldVisits_prune info :
  forall path s,
    foldVisits step (visits ctl path (prune drop path info)) s
    = foldVisits step (visits ctl path info) s.
Proof.
  induction info as [t data | t entries IH] using node_nested_ind; intros path s.
  - reflexivity.
  - rewrite prune_Directory, !visits_Directory_below.
    rewrite (ctl_entries path t (pruneEntries drop path entries) entries).
    rewrite !foldVisits_cons.
    rewrite (step_entries path t (pruneEntries drop path entries) entries).
    destruct (ctl path (Directory t entries)); try reflexivity.
    generalize (step path (Directory t entries) s) as s1.
    induction entries as [|[name child] rest IHrest]; intros s1; [reflexivity|].
    inversion IH as [|? ? Hchild Hrest]; subst. simpl in Hchild.
    simpl pruneEntries.
    destruct (drop (Join [path; name]) child) eqn:Hd.
    + rewrite (IHrest Hrest). unfold visitsBelow at 2. simpl flat_map.
      rewrite foldVisits_app. now rewrite drop_inert.
    + unfold visitsBelow. simpl flat_map. rewrite !foldVisits_app.
      rewrite Hchild. apply (IHrest Hrest).
Qed.

End PruneFold.

(* ===================================================================== *)
(** ** The watcher: what a tick looks at *)
(* ===================================================================== *)

Lemma skipHidden_shape p i :
  skipHidden p i = WNil \/ (skipHidden p i = WSkipDir /\ IsDir i = true).
Proof.
  unfold skipHidden. destruct (HasPrefix (Base p) "."), (IsDir i); simpl; auto.
Qed.

Lemma checkInputFn_shape p i d : checkInputFn p i d = (checkInputStep p i d, skipHidden p i).
Proof.
  unfold checkInputStep, checkInputFn, skipHidden.
  destruct (HasPrefix (Base p) "."); simpl.
  - now destruct (IsDir i).
  - now destruct (HasSuffix p ".tmp").
Qed.

Lemma checkTemplatesFn_shape p i d :
  checkTemplatesFn p i d = (checkTemplatesStep p i d, skipHidden p i).
Proof.
  unfold checkTemplatesStep, checkTemplatesFn, skipHidden.
  destruct (HasPrefix (Base p) "."); simpl; [now destruct (IsDir i)|reflexivity].
Qed.

Lemma Walk_checkInputFn root info d :
  Walk checkInputFn root (Some info) d
  = (foldVisits checkInputStep (visits skipHidden root info) d, WNil).
Proof. apply Walk_visits; [apply checkInputFn_shape | apply skipHidden_shape]. Qed.

Lemma Walk_checkTemplatesFn root info d :
  Walk checkTemplatesFn root (Some info) d
  = (foldVisits checkTemplatesStep (visits skipHidden root info) d, WNil).
Proof. apply Walk_visits; [apply checkTemplatesFn_shape | apply skipHidden_shape]. Qed.

(** A hidden entry is visited alone: the walk does not enter a hidden
    directory. *)
Lemma visits_hidden p i :
  HasPrefix (Base p) "." = true -> visits skipHidden p i = [(p, i)].
Proof.
  intros Hh. destruct i as [t data | t entries]; [reflexivity|].
  rewrite visits_Directory_below. unfold skipHidden. now rewrite Hh.
Qed.

Lemma input_unwatched_inert p i d :
  isHiddenOrTmp p i = true ->
  foldVisits checkInputStep (visits skipHidden p i) d = d.
Proof.
  unfold isHiddenOrTmp. intros H.
  destruct (HasPrefix (Base p) ".") eqn:Hh.
  - rewrite (visits_hidden p i Hh). unfold foldVisits, checkInputStep, checkInputFn.
    simpl. rewrite Hh. now destruct (IsDir i).
  - simpl in H. apply andb_true_iff in H as [Ht Hf].
    destruct i as [t data | t entries]; [|discriminate].
    unfold foldVisits, checkInputStep, checkInputFn. simpl. now rewrite Hh, Ht.
Qed.

Lemma templates_unwatched_inert p i d :
  isHidden p i = true ->
  foldVisits checkTemplatesStep (visits skipHidden p i) d = d.
Proof.
  unfold isHidden. intros Hh.
  rewrite (visits_hidden p i Hh). unfold foldVisits, checkTemplatesStep, checkTemplatesFn.
  simpl. rewrite Hh. now destruct (IsDir i).
Qed.

Lemma Walk_checkInputFn_pruned root tree d :
  Walk checkInputFn root (pruneRoot isHiddenOrTmp root tree) d
  = Walk checkInputFn root tree d.
Proof.
  destruct tree as [info|]; [|reflexivity]. simpl pruneRoot.
  rewrite !Walk_checkInputFn. f_equal. apply foldVisits_prune.
  - apply input_unwatched_inert.
  - reflexivity.
  - reflexivity.
Qed.

Lemma Walk_checkTemplatesFn_pruned root tree d :
  Walk checkTemplatesFn root (pruneRoot isHidden root tree) d
  = Walk checkTemplatesFn root tree d.
Proof.
  destruct tree as [info|]; [|reflexivity]. simpl pruneRoot.
  rewrite !Walk_checkTemplatesFn. f_equal. apply foldVisits_prune.
  - apply templates_unwatched_inert.
  - reflexivity.
  - reflexivity.
Qed.

(** [detect] in terms of its two walks. *)
Lemma detect_walks site config m sys :
  fst (detect site config m sys)
  = if filesChanged (detectInput site config (noChange m))
    then detectInput site config (noChange m)
    else detectTemplates site config (detectInput site config (noChange m)).
Proof.
  unfold detect, detectInput, detectTemplates. fold (noChange m).
  destruct (Walk checkInputFn _ _ _) as [d err]. simpl.
  destruct (filesChanged d); simpl; [reflexivity|].
  now destruct (Walk checkTemplatesFn _ _ _).
Qed.

Lemma detect_pruned site config m sys :
  detect (withoutUnwatched site config) config m sys = detect site config m sys.
Proof.
  unfold detect, withoutUnwatched. simpl inputRoot. simpl templatesRoot.
  rewrite Walk_checkInputFn_pruned.
  destruct (Walk checkInputFn _ _ _) as [d err].
  destruct (negb (filesChanged d)); [|reflexivity].
  now rewrite Walk_checkTemplatesFn_pruned.
Qed.

(** C8, as the code has it. On a tick the watcher walks the input tree,
    and the templates tree only if the input walk found no change. The
    input walk skips hidden entries (it does not enter a hidden directory)
    and files with the suffix [.tmp]; the templates walk skips hidden
    entries. So two states of a site that differ only in such entries give
    the same detection: the same flag, the same map, the same printed
    lines. *)
Theorem watcher_detection_ignores_unwatched site1 site2 config m sys :
  withoutUnwatched site1 config = withoutUnwatched site2 config ->
  detect site1 config m sys = detect site2 config m sys
  /\ (filesChanged (detectInput site1 config (noChange m)) = true ->
      fst (detect site1 config m sys) = detectInput site1 config (noChange m))
  /\ (filesChanged (detectInput site1 config (noChange m)) = false ->
      fst (detect site1 config m sys)
      = detectTemplates site1 config (detectInput site1 config (noChange m))).
Proof.
  intros Hsame. split; [|split].
  - rewrite <- (detect_pruned site1), <- (detect_pruned site2). now rewrite Hsame.
  - intros Hc. now rewrite detect_walks, Hc.
  - intros Hc. now rewrite detect_walks, Hc.
Qed.

Lemma watcher_detection_ignores_unwatched_witness :
  detect watchedSite sampleConfig watchedMap emptySys
  = detect watchedSiteEdited sampleConfig watchedMap emptySys.
Proof.
  apply (watcher_detection_ignores_unwatched watchedSite watchedSiteEdited
           sampleConfig watchedMap emptySys).
  reflexivity.
Defined.

(** C8 as the claim states it fails twice. When an input file has changed
    the templates tree is not walked: the newer time of the template is not
    stored. And a change to a [.tmp] file of the templates tree is
    detected. *)
Lemma watcher_walks_counterexample :
  filesChanged (fst (detect bothChangedSite sampleConfig watchedMap emptySys)) = true
  /\ changedSource (fst (detect bothChangedSite sampleConfig watchedMap emptySys))
     = "input files"
  /\ seen (fst (detect bothChangedSite sampleConfig watchedMap emptySys))
     !! "templates/default.html" = Some 1
  /\ filesChanged (fst (detect templateTmpSite sampleConfig watchedMap emptySys)) = true
  /\ changedFile (fst (detect templateTmpSite sampleConfig watchedMap emptySys))
     = "templates/default.html.tmp".
Proof. repeat split; vm_compute; reflexivity. Qed.

(* ===================================================================== *)
(** ** The watcher: the map under the walks *)
(* ===================================================================== *)

Lemma initFn_shape p i m : initFn p i m = (initStep p i m, noSkip p i).
Proof. unfold initStep, initFn, noSkip. now destruct (negb (IsDir i)). Qed.

Lemma initializeFileMap_visits root tree m :
  initializeFileMap root tree m = foldVisits initStep (visitsOf noSkip root tree) m.
Proof.
  unfold initializeFileMap. destruct tree as [info|]; [|reflexivity].
  now rewrite (Walk_visits initFn initStep noSkip initFn_shape noSkip_shape).
Qed.

Lemma initStep_eq p i m :
  initStep p i m = if IsDir i then m else <[p := ModTime i]> m.
Proof. unfold initStep, initFn. now destruct (IsDir i). Qed.

(** [initializeFileMap] leaves the entries of all other paths alone. *)
Lemma foldVisits_initStep_other vs m p :
  ~ In p (map fst (List.filter (fun v => negb (IsDir (snd v))) vs)) ->
  foldVisits initStep vs m !! p = m !! p.
Proof.
  revert m. induction vs as [|[q i] vs IH]; intros m Hp; [reflexivity|].
  rewrite foldVisits_cons.
  simpl in Hp. rewrite initStep_eq. destruct (IsDir i) eqn:Hd; simpl in Hp.
  - now apply IH.
  - rewrite IH by tauto. apply lookup_insert_ne. intros ->. apply Hp. now left.
Qed.

(** It gives every file of the tree the time of an entry at that path. *)
Lemma foldVisits_initStep_member vs m p :
  In p (map fst (List.filter (fun v => negb (IsDir (snd v))) vs)) ->
  exists i, In (p, i) vs /\ IsDir i = false
            /\ foldVisits initStep vs m !! p = Some (ModTime i).
Proof.
  revert m. induction vs as [|[q i] vs IH] using rev_ind; intros m Hp; [now destruct Hp|].
  rewrite List.filter_app, map_app, in_app_iff in Hp.
  unfold foldVisits. rewrite fold_left_app. simpl fold_left.
  fold (foldVisits initStep vs m). rewrite initStep_eq.
  destruct (IsDir i) eqn:Hd.
  - simpl in Hp. rewrite Hd in Hp. simpl in Hp.
    destruct Hp as [Hp | []]. destruct (IH m Hp) as (j & Hj & Hdj & Hl).
    exists j. rewrite in_app_iff. auto.
  - destruct (decide (q = p)) as [-> | Hne].
    + exists i. rewrite in_app_iff. split; [right; now left|].
      split; [exact Hd|]. apply lookup_insert_eq.
    + simpl in Hp. rewrite Hd in Hp. simpl in Hp.
      destruct Hp as [Hp | [Hp | []]]; [|congruence].
      destruct (IH m Hp) as (j & Hj & Hdj & Hl).
      exists j. rewrite in_app_iff. split; [auto|]. split; [exact Hdj|].
      now rewrite lookup_insert_ne.
Qed.

Section CheckWalk.

Variable source : string.
Variable watched : string -> node -> bool.
Variable step : string -> node -> Detect -> Detect.

(** The callback compares a watched file with the map and leaves every
    other entry alone. *)
Hypothesis step_eq :
  forall p i d, step p i d = if watched p i then checkModified source p i d else d.
Hypothesis watched_file : forall p i, watched p i = true -> IsDir i = false.

Lemma step_cases p i d :
  (step p i d = d
   /\ (watched p i = true -> isNewOrModified (seen d) p (ModTime i) = false))
  \/ (watched p i = true /\ isNewOrModified (seen d) p (ModTime i) = true
      /\ step p i d
         = {| filesChanged := true; changedSource := source; changedFile := p;
              seen := <[p := ModTime i]> (seen d) |}).
Proof.
  rewrite step_eq. destruct (watched p i) eqn:Hw; [|left; split; [reflexivity|discriminate]].
  unfold checkModified. rewrite (watched_file p i Hw). simpl.
  destruct (isNewOrModified (seen d) p (ModTime i)) eqn:Hn.
  - right. auto.
  - left. auto.
Qed.

(** A time the map covers stays covered. *)
Lemma step_covered p i d q t :
  isNewOrModified (seen d) q t = false ->
  isNewOrModified (seen (step p i d)) q t = false.
Proof.
  intros Hc. destruct (step_cases p i d) as [[-> _] | (_ & Hn & ->)]; [exact Hc|].
  simpl. unfold isNewOrModified in *.
  destruct (decide (p = q)) as [-> | Hne].
  - rewrite lookup_insert_eq. destruct (seen d !! q) as [t0|]; [|discriminate].
    apply Z.ltb_ge in Hc. apply Z.ltb_lt in Hn. apply Z.ltb_ge. lia.
  - now rewrite lookup_insert_ne.
Qed.

Lemma foldVisits_covered vs d q t :
  isNewOrModified (seen d) q t = false ->
  isNewOrModified (seen (foldVisits step vs d)) q t = false.
Proof.
  revert d. induction vs as [|[p i] vs IH]; intros d Hc; [exact Hc|].
  rewrite foldVisits_cons. apply IH. now apply step_covered.
Qed.

(** After the callback the file it was called on is covered. *)
Lemma step_records p i d :
  watched p i = true -> isNewOrModified (seen (step p i d)) p (ModTime i) = false.
Proof.
  intros Hw. destruct (step_cases p i d) as [[-> Hc] | (_ & _ & ->)]; [auto|].
  simpl. unfold isNewOrModified. rewrite lookup_insert_eq. apply Z.ltb_irrefl.
Qed.

(** After a walk every watched file it visited is covered. *)
Lemma foldVisits_records vs d p i :
  In (p, i) vs -> watched p i = true ->
  isNewOrModified (seen (foldVisits step vs d)) p (ModTime i) = false.
Proof.
  revert d. induction vs as [|[q j] vs IH]; intros d Hin Hw; [now destruct Hin|].
  rewrite foldVisits_cons. destruct Hin as [Heq | Hin].
  - injection Heq as -> ->. apply foldVisits_covered. now apply step_records.
  - now apply IH.
Qed.

(** A walk over files that are all covered changes nothing. *)
Lemma foldVisits_clean vs d :
  (forall p i, In (p, i) vs -> watched p i = true ->
               isNewOrModified (seen d) p (ModTime i) = false) ->
  foldVisits step vs d = d.
Proof.
  induction vs as [|[q j] vs IH]; intros Hc; [reflexivity|].
  rewrite foldVisits_cons.
  destruct (step_cases q j d) as [[-> _] | (Hw & Hn & _)].
  - apply IH. intros p i Hin. apply Hc. now right.
  - rewrite (Hc q j) in Hn; [discriminate | now left | exact Hw].
Qed.

(** The flag, once set, stays set; if it is not set after a walk, the
    walk has changed nothing. *)
Lemma step_flag p i d : filesChanged d = true -> filesChanged (step p i d) = true.
Proof.
  intros Hf. now destruct (step_cases p i d) as [[-> _] | (_ & _ & ->)].
Qed.

Lemma foldVisits_flag vs d :
  filesChanged d = true -> filesChanged (foldVisits step vs d) = true.
Proof.
  revert d. induction vs as [|[p i] vs IH]; intros d Hf; [exact Hf|].
  rewrite foldVisits_cons. apply IH. now apply step_flag.
Qed.

Lemma foldVisits_unflagged vs d :
  filesChanged (foldVisits step vs d) = false -> foldVisits step vs d = d.
Proof.
  revert d. induction vs as [|[p i] vs IH]; intros d Hf; [reflexivity|].
  rewrite foldVisits_cons in *.
  destruct (step_cases p i d) as [[Hs _] | (_ & _ & Hs)].
  - rewrite Hs in *. now apply IH.
  - rewrite foldVisits_flag in Hf; [discriminate|]. now rewrite Hs.
Qed.

(** A walk changes the entries of the watched files it visits only. *)
Lemma foldVisits_seen_other vs d q :
  (forall i, In (q, i) vs -> watched q i = false) ->
  seen (foldVisits step vs d) !! q = seen d !! q.
Proof.
  revert d. induction vs as [|[p i] vs IH]; intros d Hq; [reflexivity|].
  rewrite foldVisits_cons.
  rewrite IH by (intros j Hj; apply Hq; now right).
  destruct (step_cases p i d) as [[-> _] | (Hw & _ & ->)]; [reflexivity|].
  simpl. apply lookup_insert_ne. intros ->.
  rewrite (Hq i) in Hw; [discriminate | now left].
Qed.

(** With one entry per path, a file that was new or modified when the
    walk began has exactly its own time afterwards. *)
Lemma foldVisits_records_exact vs d p i :
  NoDup (map fst vs) ->
  In (p, i) vs -> watched p i = true ->
  isNewOrModified (seen d) p (ModTime i) = true ->
  seen (foldVisits step vs d) !! p = Some (ModTime i).
Proof.
  revert d. induction vs as [|[q j] vs IH]; intros d Hnd Hin Hw Hn; [now destruct Hin|].
  simpl in Hnd. apply NoDup_cons in Hnd as [Hq Hnd].
  rewrite foldVisits_cons.
  destruct Hin as [Heq | Hin].
  - injection Heq as -> ->.
    rewrite foldVisits_seen_other.
    + destruct (step_cases p i d) as [[_ Hc] | (_ & _ & ->)].
      * rewrite (Hc Hw) in Hn. discriminate.
      * simpl. apply lookup_insert_eq.
    + intros k Hk. exfalso. apply Hq. apply list_elem_of_In.
      apply in_map_iff. now exists (p, k).
  - apply IH; try assumption.
    assert (q <> p) as Hne.
    { intros ->. apply Hq. apply list_elem_of_In. apply in_map_iff. now exists (p, i). }
    destruct (step_cases q j d) as [[-> _] | (_ & _ & ->)]; [exact Hn|].
    simpl. unfold isNewOrModified in *. now rewrite lookup_insert_ne.
Qed.

End CheckWalk.

Lemma checkInputStep_eq p i d :
  checkInputStep p i d
  = if watchedInput p i then checkModified "input files" p i d else d.
Proof.
  unfold checkInputStep, checkInputFn, watchedInput, isHiddenOrTmp.
  destruct (HasPrefix (Base p) "."); simpl; [now destruct (IsDir i)|].
  destruct (HasSuffix p ".tmp"), i; reflexivity.
Qed.

Lemma checkTemplatesStep_eq p i d :
  checkTemplatesStep p i d
  = if watchedTemplate p i then checkModified "template files" p i d else d.
Proof.
  unfold checkTemplatesStep, checkTemplatesFn, watchedTemplate, isHidden.
  destruct (HasPrefix (Base p) "."); simpl; [now destruct (IsDir i)|].
  now destruct i.
Qed.

Lemma watchedInput_file p i : watchedInput p i = true -> IsDir i = false.
Proof. unfold watchedInput. intros H. apply andb_true_iff in H as [_ H]. now destruct (IsDir i). Qed.

Lemma watchedTemplate_file p i : watchedTemplate p i = true -> IsDir i = false.
Proof. unfold watchedTemplate. intros H. apply andb_true_iff in H as [_ H]. now destruct (IsDir i). Qed.

Lemma detectInput_visits site config d :
  detectInput site config d
  = foldVisits checkInputStep (visitsOf skipHidden (InputDir config) (inputRoot site)) d.
Proof.
  unfold detectInput. destruct (inputRoot site) as [info|]; [|reflexivity].
  now rewrite Walk_checkInputFn.
Qed.

Lemma detectTemplates_visits site config d :
  detectTemplates site config d
  = foldVisits checkTemplatesStep
      (visitsOf skipHidden (TemplatesDir config) (templatesRoot site)) d.
Proof.
  unfold detectTemplates. destruct (templatesRoot site) as [info|]; [|reflexivity].
  now rewrite Walk_checkTemplatesFn.
Qed.

(** The watcher visits entries that [initializeFileMap] visits too. *)
Lemma visits_skipHidden_noSkip info :
  forall path v, In v (visits skipHidden path info) -> In v (visits noSkip path info).
Proof.
  induction info as [t data | t entries IH] using node_nested_ind; intros path v Hv.
  - exact Hv.
  - rewrite visits_Directory_below in *. unfold noSkip at 1.
    destruct Hv as [Hv | Hv]; [now left|]. right.
    destruct (skipHidden path (Directory t entries)); try now destruct Hv.
    unfold visitsBelow in *. apply in_flat_map in Hv as ([name child] & Hin & Hv).
    apply in_flat_map. exists (name, child). split; [exact Hin|].
    rewrite List.Forall_forall in IH. apply (IH (name, child) Hin). exact Hv.
Qed.

Lemma visitsOf_skipHidden_noSkip root tree v :
  In v (visitsOf skipHidden root tree) -> In v (visitsOf noSkip root tree).
Proof. destruct tree as [info|]; [apply visits_skipHidden_noSkip | trivial]. Qed.

Lemma watched_in_filePaths root tree p i :
  In (p, i) (visitsOf skipHidden root tree) -> IsDir i = false ->
  In p (filePaths root tree).
Proof.
  intros Hin Hd. unfold filePaths. apply in_map_iff. exists (p, i).
  split; [reflexivity|]. apply List.filter_In. split.
  - now apply visitsOf_skipHidden_noSkip.
  - simpl. now rewrite Hd.
Qed.

(** Detection changes the entries of files of the two trees only. *)
Lemma detect_seen_other site config m sys p :
  ~ In p (filePaths (InputDir config) (inputRoot site)) ->
  ~ In p (filePaths (TemplatesDir config) (templatesRoot site)) ->
  seen (fst (detect site config m sys)) !! p = m !! p.
Proof.
  intros Hi Ht. rewrite detect_walks.
  assert (Hin : forall d, seen (detectInput site config d) !! p = seen d !! p).
  { intros d. rewrite detectInput_visits.
    apply (foldVisits_seen_other "input files" watchedInput checkInputStep
             checkInputStep_eq watchedInput_file).
    intros i Hv. destruct (watchedInput p i) eqn:Hw; [|reflexivity].
    exfalso. apply Hi. eapply watched_in_filePaths; [exact Hv|].
    now apply watchedInput_file with p. }
  assert (Htm : forall d, seen (detectTemplates site config d) !! p = seen d !! p).
  { intros d. rewrite detectTemplates_visits.
    apply (foldVisits_seen_other "template files" watchedTemplate checkTemplatesStep
             checkTemplatesStep_eq watchedTemplate_file).
    intros i Hv. destruct (watchedTemplate p i) eqn:Hw; [|reflexivity].
    exfalso. apply Ht. eapply watched_in_filePaths; [exact Hv|].
    now apply watchedTemplate_file with p. }
  destruct (filesChanged (detectInput site config (noChange m))).
  - now rewrite Hin.
  - now rewrite Htm, Hin.
Qed.

Lemma fs_reportWalk r sys : fs (reportWalk r sys) = fs sys.
Proof. now destruct r. Qed.

Lemma fs_detect site config m sys : fs (snd (detect site config m sys)) = fs sys.
Proof.
  unfold detect. destruct (Walk checkInputFn _ _ _) as [d err].
  destruct (negb (filesChanged d)).
  - destruct (Walk checkTemplatesFn _ _ _) as [d' err']. simpl.
    now rewrite !fs_reportWalk.
  - simpl. now rewrite fs_reportWalk.
Qed.

(** A tick without a rebuild and a tick with one. *)
Lemma tick_no_rebuild E site config now rebuilt w sys :
  filesChanged (fst (detect site config (lastModified w) sys))
  && (second <=? now - lastRebuild w) = false ->
  tick E site config now rebuilt (w, sys)
  = ({| lastModified := seen (fst (detect site config (lastModified w) sys));
        lastRebuild := lastRebuild w |},
     snd (detect site config (lastModified w) sys)).
Proof.
  intros H. unfold tick. destruct (detect site config (lastModified w) sys) as [d sys'].
  simpl in *. now rewrite H.
Qed.

Lemma tick_rebuild E site config now rebuilt w sys :
  filesChanged (fst (detect site config (lastModified w) sys)) = true ->
  second <= now - lastRebuild w ->
  fst (tick E site config now rebuilt (w, sys))
  = {| lastModified :=
         initializeFileMap (TemplatesDir config) (templatesRoot site)
           (initializeFileMap (InputDir config) (inputRoot site)
              (seen (fst (detect site config (lastModified w) sys))));
       lastRebuild := rebuilt |}.
Proof.
  intros Hc Ht. unfold tick. destruct (detect site config (lastModified w) sys) as [d sys'].
  simpl in *. rewrite Hc. apply Z.leb_le in Ht. now rewrite Ht.
Qed.

(** C9, as the code has it. After a rebuild the watcher sets
    [lastRebuild] and runs [initializeFileMap] for both directories on the
    map it has: every file of the two trees gets the time of its entry, and
    the entry of every other path stays what it was before the tick. The
    map is updated, not emptied. *)
Theorem rebuild_updates_watch_map E site config now rebuilt w sys :
  filesChanged (fst (detect site config (lastModified w) sys)) = true ->
  second <= now - lastRebuild w ->
  lastRebuild (fst (tick E site config now rebuilt (w, sys))) = rebuilt
  /\ lastModified (fst (tick E site config now rebuilt (w, sys)))
     = initializeFileMap (TemplatesDir config) (templatesRoot site)
         (initializeFileMap (InputDir config) (inputRoot site)
            (seen (fst (detect site config (lastModified w) sys))))
  /\ (forall p,
        ~ In p (filePaths (InputDir config) (inputRoot site)) ->
        ~ In p (filePaths (TemplatesDir config) (templatesRoot site)) ->
        lastModified (fst (tick E site config now rebuilt (w, sys))) !! p
        = lastModified w !! p)
  /\ (forall p,
        In p (filePaths (InputDir config) (inputRoot site))
        \/ In p (filePaths (TemplatesDir config) (templatesRoot site)) ->
        exists i,
          (In (p, i) (visitsOf noSkip (InputDir config) (inputRoot site))
           \/ In (p, i) (visitsOf noSkip (TemplatesDir config) (templatesRoot site)))
          /\ IsDir i = false
          /\ lastModified (fst (tick E site config now rebuilt (w, sys))) !! p
             = Some (ModTime i)).
Proof.
  intros Hc Ht. rewrite (tick_rebuild E site config now rebuilt w sys Hc Ht). simpl.
  split; [reflexivity|]. split; [reflexivity|]. split.
  - intros p Hi Htm. rewrite !initializeFileMap_visits.
    rewrite foldVisits_initStep_other by exact Htm.
    rewrite foldVisits_initStep_other by exact Hi.
    now apply detect_seen_other.
  - intros p Hp. rewrite !initializeFileMap_visits.
    destruct (in_dec string_dec p (filePaths (TemplatesDir config) (templatesRoot site)))
      as [Htm | Htm].
    + destruct (foldVisits_initStep_member _
                  (foldVisits initStep
                     (visitsOf noSkip (InputDir config) (inputRoot site))
                     (seen (fst (detect site config (lastModified w) sys)))) p Htm)
        as (i & Hin & Hd & Hl).
      exists i. auto.
    + destruct Hp as [Hi | Hp]; [|contradiction].
      rewrite foldVisits_initStep_other by exact Htm.
      destruct (foldVisits_initStep_member _
                  (seen (fst (detect site config (lastModified w) sys))) p Hi)
        as (i & Hin & Hd & Hl).
      exists i. auto.
Qed.

Lemma rebuild_updates_watch_map_witness :
  lastRebuild (fst (tick sampleEngine bothChangedSite sampleConfig
                      (10 * second) (11 * second) (staleWatch, emptySys)))
  = 11 * second
  /\ lastModified (fst (tick sampleEngine bothChangedSite sampleConfig
                          (10 * second) (11 * second) (staleWatch, emptySys)))
     !! "input/old.md"
     = lastModified staleWatch !! "input/old.md".
Proof.
  assert (Hlate : second <= 10 * second - lastRebuild staleWatch)
    by (vm_compute; discriminate).
  pose proof (rebuild_updates_watch_map sampleEngine bothChangedSite sampleConfig
                (10 * second) (11 * second) staleWatch emptySys eq_refl Hlate)
    as (Hrebuilt & _ & Hother & _).
  split; [exact Hrebuilt|]. apply Hother.
  - vm_compute. intros [H | [ ]]. discriminate H.
  - vm_compute. intros [H | [ ]]. discriminate H.
Defined.

(** C9 as the claim states it fails: [input/old.md] is no file of the site
    any more, the tick rebuilds, and the map still holds the entry. *)
Lemma rebuild_keeps_stale_entries_counterexample :
  ~ In "input/old.md" (filePaths "input" (inputRoot bothChangedSite))
  /\ ~ In "input/old.md" (filePaths "templates" (templatesRoot bothChangedSite))
  /\ lastModified staleWatch !! "input/old.md" = Some 1
  /\ lastRebuild (fst (tick sampleEngine bothChangedSite sampleConfig
                         (10 * second) (11 * second) (staleWatch, emptySys)))
     = 11 * second
  /\ lastModified (fst (tick sampleEngine bothChangedSite sampleConfig
                          (10 * second) (11 * second) (staleWatch, emptySys)))
     !! "input/old.md" = Some 1.
Proof.
  split; [|split; [|split; [|split]]].
  - vm_compute. intros [H | [ ]]. discriminate H.
  - vm_compute. intros [H | [ ]]. discriminate H.
  - reflexivity.
  - vm_compute. reflexivity.
  - vm_compute. reflexivity.
Qed.

(** The watcher as [serve] starts it: after the initial build and the
    first scan a tick on the unchanged site finds nothing and keeps the
    state. *)
Example startWatch_then_tick :
  fst (tick sampleEngine blogSite sampleConfig (5 * second) (6 * second)
         (startWatch sampleEngine blogSite sampleConfig 0 emptySys))
  = fst (startWatch sampleEngine blogSite sampleConfig 0 emptySys)
  /\ lastModified (fst (startWatch sampleEngine blogSite sampleConfig 0 emptySys))
     !! "input/blog/post.md" = Some 0.
Proof. split; vm_compute; reflexivity. Qed.

(* ===================================================================== *)
(** ** The watcher: a change found while rebuilds are held back *)
(* ===================================================================== *)

(** After detection every watched file of the input tree is covered by
    the map, and every watched template too if the templates were walked. *)
Lemma detect_records_input site config m sys p i :
  In (p, i) (visitsOf skipHidden (InputDir config) (inputRoot site)) ->
  watchedInput p i = true ->
  isNewOrModified (seen (fst (detect site config m sys))) p (ModTime i) = false.
Proof.
  intros Hin Hw. rewrite detect_walks.
  assert (Hc : isNewOrModified (seen (detectInput site config (noChange m))) p (ModTime i)
               = false).
  { rewrite detectInput_visits.
    now apply (foldVisits_records "input files" watchedInput checkInputStep
                 checkInputStep_eq watchedInput_file). }
  destruct (filesChanged (detectInput site config (noChange m))); [exact Hc|].
  rewrite detectTemplates_visits.
  now apply (foldVisits_covered "template files" watchedTemplate checkTemplatesStep
               checkTemplatesStep_eq watchedTemplate_file).
Qed.

Lemma detect_records_templates site config m sys p i :
  filesChanged (detectInput site config (noChange m)) = false ->
  In (p, i) (visitsOf skipHidden (TemplatesDir config) (templatesRoot site)) ->
  watchedTemplate p i = true ->
  isNewOrModified (seen (fst (detect site config m sys))) p (ModTime i) = false.
Proof.
  intros Hf Hin Hw. rewrite detect_walks, Hf. rewrite detectTemplates_visits.
  now apply (foldVisits_records "template files" watchedTemplate checkTemplatesStep
               checkTemplatesStep_eq watchedTemplate_file).
Qed.

(** A walk over covered files returns the state it was given. *)
Lemma detectInput_clean site config d :
  (forall p i, In (p, i) (visitsOf skipHidden (InputDir config) (inputRoot site)) ->
               watchedInput p i = true ->
               isNewOrModified (seen d) p (ModTime i) = false) ->
  detectInput site config d = d.
Proof.
  intros Hc. rewrite detectInput_visits.
  now apply (foldVisits_clean "input files" watchedInput checkInputStep
               checkInputStep_eq watchedInput_file).
Qed.

Lemma detectTemplates_clean site config d :
  (forall p i, In (p, i) (visitsOf skipHidden (TemplatesDir config) (templatesRoot site)) ->
               watchedTemplate p i = true ->
               isNewOrModified (seen d) p (ModTime i) = false) ->
  detectTemplates site config d = d.
Proof.
  intros Hc. rewrite detectTemplates_visits.
  now apply (foldVisits_clean "template files" watchedTemplate checkTemplatesStep
               checkTemplatesStep_eq watchedTemplate_file).
Qed.

Lemma detectInput_unflagged site config d :
  filesChanged (detectInput site config d) = false -> detectInput site config d = d.
Proof.
  rewrite detectInput_visits.
  apply (foldVisits_unflagged "input files" watchedInput checkInputStep
           checkInputStep_eq watchedInput_file).
Qed.

Lemma detectTemplates_unflagged site config d :
  filesChanged (detectTemplates site config d) = false -> detectTemplates site config d = d.
Proof.
  rewrite detectTemplates_visits.
  apply (foldVisits_unflagged "template files" watchedTemplate checkTemplatesStep
           checkTemplatesStep_eq watchedTemplate_file).
Qed.

(** A file that is new or modified sets the flag of the input walk, and
    with one entry per path the map then holds exactly its time. *)
Lemma detect_records_input_exact site config m sys p i :
  NoDup (map fst (visitsOf skipHidden (InputDir config) (inputRoot site))) ->
  In (p, i) (visitsOf skipHidden (InputDir config) (inputRoot site)) ->
  watchedInput p i = true ->
  isNewOrModified m p (ModTime i) = true ->
  filesChanged (detectInput site config (noChange m)) = true
  /\ seen (fst (detect site config m sys)) !! p = Some (ModTime i).
Proof.
  intros Hnd Hin Hw Hn.
  assert (He : seen (detectInput site config (noChange m)) !! p = Some (ModTime i)).
  { rewrite detectInput_visits.
    now apply (foldVisits_records_exact "input files" watchedInput checkInputStep
                 checkInputStep_eq watchedInput_file). }
  assert (Hf : filesChanged (detectInput site config (noChange m)) = true).
  { destruct (filesChanged (detectInput site config (noChange m))) eqn:Hf; [reflexivity|].
    rewrite (detectInput_unflagged _ _ _ Hf) in He. simpl in He.
    unfold isNewOrModified in Hn. rewrite He in Hn.
    rewrite Z.ltb_irrefl in Hn. discriminate. }
  split; [exact Hf|]. now rewrite detect_walks, Hf.
Qed.

(** A state in which neither walk finds a change is kept by every tick,
    and no tick rebuilds. *)
Lemma tick_quiet E site config now rebuilt w sys :
  detectInput site config (noChange (lastModified w)) = noChange (lastModified w) ->
  filesChanged (detectTemplates site config (noChange (lastModified w))) = false ->
  fst (tick E site config now rebuilt (w, sys)) = w
  /\ fs (snd (tick E site config now rebuilt (w, sys))) = fs sys.
Proof.
  intros Hi Ht.
  assert (Hd : fst (detect site config (lastModified w) sys) = noChange (lastModified w)).
  { rewrite detect_walks, Hi. simpl. now apply detectTemplates_unflagged. }
  rewrite tick_no_rebuild by now rewrite Hd.
  simpl. rewrite Hd, fs_detect. simpl. now destruct w.
Qed.

Lemma runTicks_cons E site config now rebuilt times s :
  runTicks E site config ((now, rebuilt) :: times) s
  = runTicks E site config times (tick E site config now rebuilt s).
Proof. reflexivity. Qed.

Lemma runTicks_quiet E site config times w sys :
  detectInput site config (noChange (lastModified w)) = noChange (lastModified w) ->
  filesChanged (detectTemplates site config (noChange (lastModified w))) = false ->
  fst (runTicks E site config times (w, sys)) = w
  /\ fs (snd (runTicks E site config times (w, sys))) = fs sys.
Proof.
  intros Hi Ht. revert sys. induction times as [|[now rebuilt] times IH]; intros sys.
  - now split.
  - rewrite runTicks_cons.
    destruct (tick_quiet E site config now rebuilt w sys Hi Ht) as [Hw Hfs].
    destruct (tick E site config now rebuilt (w, sys)) as [w' sys'].
    simpl in Hw, Hfs. subst w'. rewrite <- Hfs. apply IH.
Qed.

(** A time the map covers stays covered through detection, through
    [initializeFileMap] on a tree in which the file has that time, and so
    through a whole tick, rebuild or not. *)
Lemma detect_covered site config m sys f t :
  isNewOrModified m f t = false ->
  isNewOrModified (seen (fst (detect site config m sys))) f t = false.
Proof.
  intros Hc. rewrite detect_walks.
  assert (Hi : isNewOrModified (seen (detectInput site config (noChange m))) f t = false).
  { rewrite detectInput_visits.
    now apply (foldVisits_covered "input files" watchedInput checkInputStep
                 checkInputStep_eq watchedInput_file). }
  destruct (filesChanged (detectInput site config (noChange m))); [exact Hi|].
  rewrite detectTemplates_visits.
  now apply (foldVisits_covered "template files" watchedTemplate checkTemplatesStep
               checkTemplatesStep_eq watchedTemplate_file).
Qed.

Lemma initializeFileMap_covered root tree m f t :
  isNewOrModified m f t = false ->
  (forall i, In (f, i) (visitsOf noSkip root tree) -> IsDir i = false -> ModTime i = t) ->
  isNewOrModified (initializeFileMap root tree m) f t = false.
Proof.
  intros Hc Hkeep. rewrite initializeFileMap_visits. unfold isNewOrModified.
  destruct (in_dec string_dec f
              (map fst (List.filter (fun v => negb (IsDir (snd v)))
                          (visitsOf noSkip root tree)))) as [Hin | Hout].
  - destruct (foldVisits_initStep_member _ m f Hin) as (i & Hv & Hd & ->).
    rewrite (Hkeep i Hv Hd). apply Z.ltb_irrefl.
  - now rewrite foldVisits_initStep_other.
Qed.

Lemma tick_covered E site config now rebuilt w sys f t :
  isNewOrModified (lastModified w) f t = false ->
  keepsTime site config f t ->
  isNewOrModified (lastModified (fst (tick E site config now rebuilt (w, sys)))) f t
  = false.
Proof.
  intros Hc Hkeep.
  pose proof (detect_covered site config (lastModified w) sys f t Hc) as Hd.
  destruct (filesChanged (fst (detect site config (lastModified w) sys))
            && (second <=? now - lastRebuild w)) eqn:Hb.
  - apply andb_true_iff in Hb as [Hf Ht]. apply Z.leb_le in Ht.
    rewrite (tick_rebuild E site config now rebuilt w sys Hf Ht). simpl.
    apply initializeFileMap_covered.
    + apply initializeFileMap_covered; [exact Hd|].
      intros i Hi. apply Hkeep. apply in_or_app. now left.
    + intros i Hi. apply Hkeep. apply in_or_app. now right.
  - now rewrite (tick_no_rebuild E site config now rebuilt w sys Hb).
Qed.

Lemma runTicksOn_covered E config steps w sys f t :
  isNewOrModified (lastModified w) f t = false ->
  List.Forall (fun step => keepsTime (fst step) config f t) steps ->
  isNewOrModified (lastModified (fst (runTicksOn E config steps (w, sys)))) f t = false.
Proof.
  intros Hc Hsteps. revert w sys Hc.
  induction Hsteps as [|[site [now rebuilt]] steps Hkeep _ IH]; intros w sys Hc.
  - exact Hc.
  - change (runTicksOn E config ((site, (now, rebuilt)) :: steps) (w, sys))
      with (runTicksOn E config steps (tick E site config now rebuilt (w, sys))).
    pose proof (tick_covered E site config now rebuilt w sys f t Hc Hkeep) as Hc'.
    destruct (tick E site config now rebuilt (w, sys)) as [w' sys'].
    now apply IH.
Qed.

(** C10. A tick that finds a change less than a second after the last
    rebuild does not rebuild: the file system and [lastRebuild] stay as they
    are. But the map has taken the new times: every watched file of the
    input tree is covered by it (and holds exactly its time where it was new
    or modified, with one entry per path), and so is every watched template
    if the input walk found nothing. A file stays covered through all later
    ticks, whatever else changes on the site, as long as it keeps its time.
    So the input walk of any later tick finds no change; and unless a change
    of the templates is still to be found, which cannot be if the change
    was found there, no later tick on the unchanged site ever rebuilds for
    it. *)
Theorem suppressed_change_is_swallowed E site config now rebuilt w sys :
  filesChanged (fst (detect site config (lastModified w) sys)) = true ->
  now - lastRebuild w < second ->
  fs (snd (tick E site config now rebuilt (w, sys))) = fs sys
  /\ lastRebuild (fst (tick E site config now rebuilt (w, sys))) = lastRebuild w
  /\ lastModified (fst (tick E site config now rebuilt (w, sys)))
     = seen (fst (detect site config (lastModified w) sys))
  /\ (forall p i,
        In (p, i) (visitsOf skipHidden (InputDir config) (inputRoot site)) ->
        watchedInput p i = true ->
        isNewOrModified (lastModified (fst (tick E site config now rebuilt (w, sys))))
          p (ModTime i) = false)
  /\ (forall p i,
        NoDup (map fst (visitsOf skipHidden (InputDir config) (inputRoot site))) ->
        In (p, i) (visitsOf skipHidden (InputDir config) (inputRoot site)) ->
        watchedInput p i = true ->
        isNewOrModified (lastModified w) p (ModTime i) = true ->
        lastModified (fst (tick E site config now rebuilt (w, sys))) !! p
        = Some (ModTime i))
  /\ (filesChanged (detectInput site config (noChange (lastModified w))) = false ->
      forall p i,
        In (p, i) (visitsOf skipHidden (TemplatesDir config) (templatesRoot site)) ->
        watchedTemplate p i = true ->
        isNewOrModified (lastModified (fst (tick E site config now rebuilt (w, sys))))
          p (ModTime i) = false)
  /\ (forall p i steps,
        In (p, i) (visitsOf skipHidden (InputDir config) (inputRoot site)) ->
        watchedInput p i = true ->
        List.Forall (fun step => keepsTime (fst step) config p (ModTime i)) steps ->
        isNewOrModified
          (lastModified
             (fst (runTicksOn E config steps (tick E site config now rebuilt (w, sys)))))
          p (ModTime i) = false)
  /\ filesChanged
       (detectInput site config
          (noChange (lastModified (fst (tick E site config now rebuilt (w, sys))))))
     = false
  /\ (filesChanged (detectInput site config (noChange (lastModified w))) = false ->
      filesChanged
        (detectTemplates site config
           (noChange (lastModified (fst (tick E site config now rebuilt (w, sys))))))
      = false)
  /\ (filesChanged
        (detectTemplates site config
           (noChange (lastModified (fst (tick E site config now rebuilt (w, sys))))))
      = false ->
      forall times,
        fst (runTicks E site config times (tick E site config now rebuilt (w, sys)))
        = fst (tick E site config now rebuilt (w, sys))
        /\ fs (snd (runTicks E site config times
                      (tick E site config now rebuilt (w, sys))))
           = fs sys).
Proof.
  intros Hc Ht.
  assert (Hno : filesChanged (fst (detect site config (lastModified w) sys))
                && (second <=? now - lastRebuild w) = false).
  { rewrite Hc. simpl. apply Z.leb_gt. exact Ht. }
  rewrite (tick_no_rebuild E site config now rebuilt w sys Hno). simpl.
  assert (Hin : forall p i,
            In (p, i) (visitsOf skipHidden (InputDir config) (inputRoot site)) ->
            watchedInput p i = true ->
            isNewOrModified (seen (fst (detect site config (lastModified w) sys)))
              p (ModTime i) = false).
  { intros p i. apply detect_records_input. }
  assert (Htm : filesChanged (detectInput site config (noChange (lastModified w))) = false ->
            forall p i,
              In (p, i) (visitsOf skipHidden (TemplatesDir config) (templatesRoot site)) ->
              watchedTemplate p i = true ->
              isNewOrModified (seen (fst (detect site config (lastModified w) sys)))
                p (ModTime i) = false).
  { intros Hf p i. now apply detect_records_templates. }
  assert (Hclean : detectInput site config
                     (noChange (seen (fst (detect site config (lastModified w) sys))))
                   = noChange (seen (fst (detect site config (lastModified w) sys)))).
  { apply detectInput_clean. exact Hin. }
  split; [apply fs_detect|]. split; [reflexivity|]. split; [reflexivity|].
  split; [exact Hin|]. split.
  { intros p i Hnd Hv Hw Hn.
    now apply (detect_records_input_exact site config (lastModified w) sys p i). }
  split; [exact Htm|]. split.
  { intros p i steps Hv Hw Hsteps.
    apply (runTicksOn_covered E config steps
             {| lastModified := seen (fst (detect site config (lastModified w) sys));
                lastRebuild := lastRebuild w |}); [|exact Hsteps].
    simpl. now apply Hin. }
  split; [now rewrite Hclean|]. split.
  { intros Hf. rewrite detectTemplates_clean; [reflexivity|]. simpl. now apply Htm. }
  intros Hq times.
  destruct (runTicks_quiet E site config times
              {| lastModified := seen (fst (detect site config (lastModified w) sys));
                 lastRebuild := lastRebuild w |}
              (snd (detect site config (lastModified w) sys)) Hclean Hq) as [Hw Hfs].
  split; [exact Hw|]. rewrite Hfs. apply fs_detect.
Qed.

Lemma suppressed_change_is_swallowed_witness :
  lastModified (fst (tick sampleEngine pageSavedSite sampleConfig
                       (10 * second + 500000000) (12 * second)
                       (recentWatch, freshSys)))
  !! "input/page.md" = Some 7
  /\ fst (runTicks sampleEngine pageSavedSite sampleConfig
            [(12 * second, 13 * second); (13 * second, 14 * second)]
            (tick sampleEngine pageSavedSite sampleConfig
               (10 * second + 500000000) (12 * second) (recentWatch, freshSys)))
     = fst (tick sampleEngine pageSavedSite sampleConfig
              (10 * second + 500000000) (12 * second) (recentWatch, freshSys))
  /\ fs (snd (runTicks sampleEngine pageSavedSite sampleConfig
                [(12 * second, 13 * second); (13 * second, 14 * second)]
                (tick sampleEngine pageSavedSite sampleConfig
                   (10 * second + 500000000) (12 * second) (recentWatch, freshSys))))
     = fs freshSys.
Proof.
  pose proof (suppressed_change_is_swallowed sampleEngine pageSavedSite sampleConfig
                (10 * second + 500000000) (12 * second) recentWatch freshSys
                eq_refl eq_refl)
    as (_ & _ & _ & _ & Hexact & _ & _ & _ & _ & Hquiet).
  split.
  - apply (Hexact "input/page.md" (File 7 "page2")).
    + apply (bool_decide_unpack _). vm_compute. exact I.
    + vm_compute. auto.
    + reflexivity.
    + reflexivity.
  - apply Hquiet. reflexivity.
Defined.

(* ===================================================================== *)
(** ** Paths made of plain names *)
(* ===================================================================== *)

Lemma isName_inv n :
  isName n = true ->
  String.eqb n "" = false /\ String.eqb n "." = false /\ String.eqb n ".." = false
  /\ hasSep n = false.
Proof.
  unfold isName. intros H.
  repeat (apply andb_true_iff in H as [H ?]).
  repeat split; now apply negb_true_iff.
Qed.

Lemma elements_no_sep x : hasSep x = false -> elements x = [x].
Proof.
  induction x as [|c x IH]; intros H; [reflexivity|].
  simpl in H. apply orb_false_iff in H as [Hc Hx].
  simpl. rewrite Hc. now rewrite (IH Hx).
Qed.

Lemma elements_app_sep x r :
  hasSep x = false -> elements (x +:+ String "/" r) = x :: elements r.
Proof.
  induction x as [|c x IH]; intros H; [reflexivity|].
  simpl in H. apply orb_false_iff in H as [Hc Hx].
  rewrite append_cons. simpl. rewrite Hc. now rewrite (IH Hx).
Qed.

Lemma fromElements_cons x y ys :
  fromElements (x :: y :: ys) = x +:+ String "/" (fromElements (y :: ys)).
Proof. reflexivity. Qed.

Lemma fromElements_app xs ys :
  xs <> [] -> ys <> [] ->
  fromElements (xs ++ ys) = fromElements xs +:+ String "/" (fromElements ys).
Proof.
  intros Hx Hy. induction xs as [|x xs IH]; [congruence|].
  destruct xs as [|x' xs].
  - destruct ys as [|y ys]; [congruence|]. reflexivity.
  - change ((x :: x' :: xs) ++ ys) with (x :: (x' :: xs) ++ ys).
    simpl app at 1. rewrite !fromElements_cons.
    change (x' :: xs ++ ys) with ((x' :: xs) ++ ys). rewrite IH by discriminate.
    now rewrite append_assoc.
Qed.

Lemma elements_fromElements ns :
  ns <> [] -> List.Forall (fun n => hasSep n = false) ns ->
  elements (fromElements ns) = ns.
Proof.
  intros Hne Hall. induction ns as [|x ns IH]; [congruence|].
  inversion Hall as [|? ? Hx Hns]; subst.
  destruct ns as [|y ns]; [now apply elements_no_sep|].
  rewrite fromElements_cons, elements_app_sep by exact Hx.
  now rewrite IH.
Qed.

Lemma names_no_sep ns :
  List.Forall (fun n => isName n = true) ns -> List.Forall (fun n => hasSep n = false) ns.
Proof.
  apply List.Forall_impl. intros n Hn. now apply isName_inv in Hn.
Qed.

Lemma cleanElements_names rooted kept ns :
  List.Forall (fun n => isName n = true) ns ->
  cleanElements rooted kept ns = rev kept ++ ns.
Proof.
  intros Hall. revert kept. induction ns as [|n ns IH]; intros kept.
  - simpl. now rewrite app_nil_r.
  - inversion Hall as [|? ? Hn Hns]; subst.
    destruct (isName_inv n Hn) as (H1 & H2 & H3 & _).
    simpl. rewrite H1, H2, H3. simpl. rewrite (IH Hns). simpl.
    now rewrite <- app_assoc.
Qed.

(** A path that begins with a name is not rooted and not empty. *)
Lemma fromElements_head n ns :
  isName n = true ->
  exists c r, fromElements (n :: ns) = String c r /\ isSep c = false.
Proof.
  intros Hn. destruct (isName_inv n Hn) as (H1 & _ & _ & H4).
  destruct n as [|c n]; [discriminate|].
  simpl in H4. apply orb_false_iff in H4 as [Hc _].
  destruct ns as [|y ns].
  - exists c, n. now split.
  - rewrite fromElements_cons, append_cons. eexists c, _. now split.
Qed.

Lemma isRooted_String c r : isRooted (String c r) = isSep c.
Proof.
  unfold isRooted. rewrite HasPrefix_cons, HasPrefix_empty. apply andb_true_r.
Qed.

Lemma fromElements_not_empty n ns :
  isName n = true -> String.eqb (fromElements (n :: ns)) "" = false.
Proof.
  intros Hn. destruct (fromElements_head n ns Hn) as (c & r & -> & _). reflexivity.
Qed.

Lemma filter_names ns :
  List.Forall (fun n => isName n = true) ns ->
  List.filter (fun e => negb (String.eqb e "")) ns = ns.
Proof.
  induction 1 as [|n ns Hn _ IH]; [reflexivity|].
  simpl. destruct (isName_inv n Hn) as (-> & _). simpl. now rewrite IH.
Qed.

Lemma Forall_names_snoc ds f :
  List.Forall (fun n => isName n = true) ds -> isName f = true ->
  List.Forall (fun n => isName n = true) (ds ++ [f]).
Proof. intros Hd Hf. apply List.Forall_app. split; [exact Hd|]. now constructor. Qed.

Lemma snoc_not_nil {A} (l : list A) x : l ++ [x] <> [].
Proof. now destruct l. Qed.

Lemma upToLastSep_no_sep f : hasSep f = false -> upToLastSep f = "".
Proof. destruct f as [|c f]; [reflexivity|]. intros H. simpl in *. now rewrite H. Qed.

Lemma hasSep_app_sep a r : hasSep (a +:+ String "/" r) = true.
Proof.
  induction a as [|c a IH]; [reflexivity|].
  rewrite append_cons. simpl. rewrite IH. apply orb_true_r.
Qed.

Lemma upToLastSep_app_sep a f :
  hasSep f = false -> upToLastSep (a +:+ String "/" f) = a +:+ "/".
Proof.
  intros Hf. induction a as [|c a IH].
  - rewrite append_empty_l. simpl.
    now rewrite (upToLastSep_no_sep f Hf).
  - rewrite !append_cons. simpl.
    rewrite hasSep_app_sep, orb_true_r. now rewrite IH.
Qed.

Lemma cleanElements_app_names rooted kept ns rest :
  List.Forall (fun n => isName n = true) ns ->
  cleanElements rooted kept (ns ++ rest) = cleanElements rooted (rev ns ++ kept) rest.
Proof.
  intros Hall. revert kept. induction ns as [|n ns IH]; intros kept; [reflexivity|].
  inversion Hall as [|? ? Hn Hns]; subst.
  destruct (isName_inv n Hn) as (H1 & H2 & H3 & _).
  simpl. rewrite H1, H2, H3. simpl. rewrite (IH Hns). now rewrite <- app_assoc.
Qed.

Lemma cleanElements_empty_last rooted kept : cleanElements rooted kept [""] = rev kept.
Proof. reflexivity. Qed.

Lemma dropCommon_app bs ts : dropCommon bs (bs ++ ts) = ([], ts).
Proof.
  induction bs as [|b bs IH]; [now destruct ts|].
  simpl. now rewrite String.eqb_refl.
Qed.

Lemma isRooted_names ns :
  ns <> [] -> List.Forall (fun n => isName n = true) ns ->
  isRooted (fromElements ns) = false.
Proof.
  intros Hne Hall. destruct ns as [|n ns]; [congruence|].
  inversion Hall as [|? ? Hn _]; subst.
  destruct (fromElements_head n ns Hn) as (c & r & -> & Hc).
  now rewrite isRooted_String.
Qed.

(** Suffixes. *)
Lemma TrimSuffix_append a b : TrimSuffix (a +:+ b) b = a.
Proof.
  unfold TrimSuffix, HasSuffix. rewrite length_append.
  replace (String.length a + String.length b - String.length b)%nat
    with (String.length a) by lia.
  rewrite sliceFrom_append, String.eqb_refl, sliceTo_append.
  replace (String.length b <=? String.length a + String.length b)%nat with true
    by (symmetry; apply Nat.leb_le; lia).
  reflexivity.
Qed.

Lemma extOf_suffix f : exists n, f = n +:+ extOf f.
Proof.
  induction f as [|c f [n IH]]; [now exists ""|].
  simpl. destruct (extOf f) as [|d e] eqn:He.
  - destruct (Ascii.eqb c "."); [now exists ""|].
    exists (String c f). now rewrite append_empty_r.
  - exists (String c n). rewrite append_cons. now rewrite <- IH.
Qed.

Lemma stem_extOf f : f = stem f +:+ extOf f.
Proof.
  destruct (extOf_suffix f) as [n Hn]. unfold stem.
  rewrite Hn at 2. rewrite TrimSuffix_append. exact Hn.
Qed.

Lemma stem_name f name ext : f = name +:+ ext -> extOf f = ext -> stem f = name.
Proof. intros -> Hext. unfold stem. rewrite Hext. apply TrimSuffix_append. Qed.

Lemma fromElements_snoc_append xs a b :
  fromElements (xs ++ [a +:+ b]) = fromElements (xs ++ [a]) +:+ b.
Proof.
  induction xs as [|x xs IH]; [reflexivity|].
  destruct xs as [|y xs].
  - simpl app. rewrite !fromElements_cons. change (fromElements [a +:+ b]) with (a +:+ b).
    change (fromElements [a]) with a.
    now rewrite append_assoc, append_cons.
  - change ((x :: y :: xs) ++ [a +:+ b]) with (x :: (y :: xs) ++ [a +:+ b]).
    change ((x :: y :: xs) ++ [a]) with (x :: (y :: xs) ++ [a]).
    simpl app in *. rewrite !fromElements_cons in *. rewrite IH.
    now rewrite append_assoc, append_cons.
Qed.

(** Plain paths, below the root or not: what [Clean], [Join], [Base],
    [Ext], [Dir] and [Rel] give for them. *)
Lemma plainPath_relative ns : plainPath false ns = fromElements ns.
Proof. reflexivity. Qed.

Lemma plainPath_rooted n ns :
  plainPath true (n :: ns) = String "/" (fromElements (n :: ns)).
Proof. reflexivity. Qed.

Lemma plainPath_slash (r : bool) ns :
  ns <> [] ->
  (if r then "/" +:+ fromElements ns else fromElements ns) = plainPath r ns.
Proof. intros Hne. destruct r, ns; try reflexivity. congruence. Qed.

Lemma rootMarker_no_sep r ns :
  List.Forall (fun n => isName n = true) ns ->
  List.Forall (fun n => hasSep n = false) (rootMarker r ++ ns).
Proof.
  intros Hall. apply List.Forall_app. split; [|now apply names_no_sep].
  destruct r; now repeat constructor.
Qed.

Lemma rootMarker_app_not_nil r ns : ns <> [] -> rootMarker r ++ ns <> [].
Proof. intros Hne. destruct r, ns; simpl; congruence. Qed.

Lemma elements_plainPath r ns :
  ns <> [] -> List.Forall (fun n => isName n = true) ns ->
  elements (plainPath r ns) = rootMarker r ++ ns.
Proof.
  intros Hne Hall. unfold plainPath.
  apply elements_fromElements; auto using rootMarker_app_not_nil, rootMarker_no_sep.
Qed.

Lemma isRooted_plainPath r ns :
  ns <> [] -> List.Forall (fun n => isName n = true) ns ->
  isRooted (plainPath r ns) = r.
Proof.
  intros Hne Hall. destruct ns as [|n ns]; [congruence|]. destruct r.
  - rewrite plainPath_rooted. apply isRooted_String.
  - now apply isRooted_names.
Qed.

Lemma plainPath_not_empty r ns :
  ns <> [] -> List.Forall (fun n => isName n = true) ns ->
  String.eqb (plainPath r ns) "" = false.
Proof.
  intros Hne Hall. destruct ns as [|n ns]; [congruence|]. destruct r.
  - reflexivity.
  - inversion Hall; subst. now apply fromElements_not_empty.
Qed.

Lemma cleanElements_rootMarker r ns rest :
  List.Forall (fun n => isName n = true) ns ->
  cleanElements r [] (rootMarker r ++ ns ++ rest) = cleanElements r (rev ns) rest.
Proof.
  intros Hall. destruct r; simpl rootMarker; simpl app.
  - change (cleanElements true [] ("" :: ns ++ rest))
      with (cleanElements true [] (ns ++ rest)).
    rewrite cleanElements_app_names by exact Hall. now rewrite app_nil_r.
  - rewrite cleanElements_app_names by exact Hall. now rewrite app_nil_r.
Qed.

Lemma Clean_plainPath r ns :
  ns <> [] -> List.Forall (fun n => isName n = true) ns ->
  Clean (plainPath r ns) = plainPath r ns.
Proof.
  intros Hne Hall. unfold Clean.
  rewrite elements_plainPath, isRooted_plainPath by assumption.
  assert (Hc : cleanElements r [] (rootMarker r ++ ns) = ns).
  { rewrite <- (app_nil_r ns) at 1. rewrite cleanElements_rootMarker by exact Hall.
    simpl. apply rev_involutive. }
  rewrite Hc.
  destruct r; [now apply (plainPath_slash true)|].
  destruct ns as [|n ns]; [congruence|]. inversion Hall; subst.
  now rewrite fromElements_not_empty.
Qed.

Lemma plainPath_app r xs ys :
  xs <> [] -> ys <> [] ->
  plainPath r (xs ++ ys) = plainPath r xs +:+ String "/" (fromElements ys).
Proof.
  intros Hx Hy. unfold plainPath. rewrite app_assoc.
  apply fromElements_app; [now apply rootMarker_app_not_nil | exact Hy].
Qed.

Lemma Join_plainPath r xs ys :
  xs <> [] -> ys <> [] ->
  List.Forall (fun n => isName n = true) xs -> List.Forall (fun n => isName n = true) ys ->
  Join [plainPath r xs; fromElements ys] = plainPath r (xs ++ ys).
Proof.
  intros Hx Hy Hxs Hys. unfold Join. rewrite plainPath_not_empty by assumption.
  change (JoinWith "/" [plainPath r xs; fromElements ys])
    with (plainPath r xs +:+ String "/" (fromElements ys)).
  rewrite <- plainPath_app by assumption.
  apply Clean_plainPath.
  - destruct xs; [congruence | discriminate].
  - apply List.Forall_app. now split.
Qed.

Lemma Join_plainPath_name r xs n :
  xs <> [] -> List.Forall (fun n => isName n = true) xs -> isName n = true ->
  Join [plainPath r xs; n] = plainPath r (xs ++ [n]).
Proof.
  intros Hx Hxs Hn. change n with (fromElements [n]) at 1.
  apply Join_plainPath; try assumption; [discriminate | now repeat constructor].
Qed.

Lemma Join_plainPath3 r xs n m :
  xs <> [] ->
  List.Forall (fun n => isName n = true) xs -> isName n = true -> isName m = true ->
  Join [plainPath r xs; n; m] = plainPath r (xs ++ [n; m]).
Proof.
  intros Hx Hxs Hn Hm. unfold Join. rewrite plainPath_not_empty by assumption.
  change (JoinWith "/" [plainPath r xs; n; m])
    with (plainPath r xs +:+ String "/" (fromElements [n; m])).
  rewrite <- plainPath_app by (assumption || discriminate).
  apply Clean_plainPath.
  - destruct xs; [congruence | discriminate].
  - apply List.Forall_app. split; [exact Hxs|]. repeat constructor; assumption.
Qed.

Lemma filter_rootMarker r ns :
  List.Forall (fun n => isName n = true) ns ->
  List.filter (fun e => negb (String.eqb e "")) (rootMarker r ++ ns) = ns.
Proof. intros Hall. destruct r; simpl; now apply filter_names. Qed.

Lemma Base_plainPath r ds f :
  List.Forall (fun n => isName n = true) ds -> isName f = true ->
  Base (plainPath r (ds ++ [f])) = f.
Proof.
  intros Hd Hf. unfold Base, lastNonEmpty.
  rewrite plainPath_not_empty by (auto using snoc_not_nil, Forall_names_snoc).
  rewrite elements_plainPath by (auto using snoc_not_nil, Forall_names_snoc).
  rewrite filter_rootMarker by now apply Forall_names_snoc.
  now rewrite last_snoc.
Qed.

Lemma Ext_plainPath r ds f :
  List.Forall (fun n => isName n = true) ds -> isName f = true ->
  Ext (plainPath r (ds ++ [f])) = extOf f.
Proof.
  intros Hd Hf. unfold Ext.
  rewrite elements_plainPath by (auto using snoc_not_nil, Forall_names_snoc).
  now rewrite app_assoc, last_snoc.
Qed.

Lemma isRooted_plainPath_slash r ds :
  ds <> [] -> List.Forall (fun n => isName n = true) ds ->
  isRooted (plainPath r ds +:+ "/") = r.
Proof.
  intros Hne Hd. destruct ds as [|d ds]; [congruence|]. destruct r.
  - rewrite plainPath_rooted, append_cons. now rewrite isRooted_String.
  - inversion Hd as [|? ? Hdn _]; subst.
    destruct (fromElements_head d ds Hdn) as (c & s & Hds & Hcs).
    rewrite plainPath_relative, Hds, append_cons. now rewrite isRooted_String.
Qed.

Lemma Dir_plainPath r ds f :
  ds <> [] -> List.Forall (fun n => isName n = true) ds -> isName f = true ->
  Dir (plainPath r (ds ++ [f])) = plainPath r ds.
Proof.
  intros Hne Hd Hf. destruct (isName_inv f Hf) as (_ & _ & _ & Hsep).
  unfold Dir. rewrite plainPath_app by (assumption || discriminate).
  change (fromElements [f]) with f. rewrite upToLastSep_app_sep by exact Hsep.
  assert (Hp : plainPath r ds +:+ "/" = fromElements (rootMarker r ++ ds ++ [""])).
  { unfold plainPath. rewrite app_assoc.
    rewrite (fromElements_app (rootMarker r ++ ds) [""]);
      [reflexivity | now apply rootMarker_app_not_nil | discriminate]. }
  assert (He : elements (plainPath r ds +:+ "/") = rootMarker r ++ ds ++ [""]).
  { rewrite Hp. apply elements_fromElements.
    - destruct r, ds; simpl; congruence.
    - rewrite app_assoc. apply List.Forall_app.
      split; [now apply rootMarker_no_sep | now repeat constructor]. }
  unfold Clean. rewrite He, isRooted_plainPath_slash by assumption.
  rewrite cleanElements_rootMarker by exact Hd.
  rewrite cleanElements_empty_last, rev_involutive.
  destruct r; [now apply (plainPath_slash true)|].
  destruct ds as [|d ds]; [congruence|]. inversion Hd; subst.
  now rewrite fromElements_not_empty.
Qed.

Lemma relElements_plainPath r ns :
  ns <> [] -> List.Forall (fun n => isName n = true) ns ->
  relElements (plainPath r ns) = rootMarker r ++ ns.
Proof.
  intros Hne Hall. unfold relElements.
  pose proof (elements_plainPath r ns Hne Hall) as He.
  destruct (String.eqb (plainPath r ns) ".") eqn:H1.
  { apply String.eqb_eq in H1. rewrite H1 in He. simpl in He.
    destruct r; simpl in He; [discriminate He|]. subst ns.
    inversion Hall as [|? ? Hn _]; subst. discriminate Hn. }
  destruct (String.eqb (plainPath r ns) "/") eqn:H2.
  { apply String.eqb_eq in H2. rewrite H2 in He. simpl in He.
    destruct r; simpl in He.
    - injection He as He. subst ns. inversion Hall as [|? ? Hn _]; subst. discriminate Hn.
    - subst ns. inversion Hall as [|? ? Hn _]; subst. discriminate Hn. }
  exact He.
Qed.

Lemma Rel_plainPath r bs ts :
  bs <> [] -> ts <> [] ->
  List.Forall (fun n => isName n = true) bs -> List.Forall (fun n => isName n = true) ts ->
  Rel (plainPath r bs) (plainPath r (bs ++ ts)) = Some (fromElements ts).
Proof.
  intros Hb Ht Hbs Hts.
  assert (Hall : List.Forall (fun n => isName n = true) (bs ++ ts))
    by (apply List.Forall_app; now split).
  assert (Hne : bs ++ ts <> []) by (destruct bs; [congruence | discriminate]).
  unfold Rel. rewrite !Clean_plainPath by assumption.
  destruct (String.eqb (plainPath r (bs ++ ts)) (plainPath r bs)) eqn:Heq.
  { apply String.eqb_eq in Heq. apply (f_equal elements) in Heq.
    rewrite !elements_plainPath in Heq by assumption.
    apply app_inv_head in Heq.
    rewrite <- (app_nil_r bs) in Heq at 2. apply app_inv_head in Heq. congruence. }
  rewrite !isRooted_plainPath by assumption.
  replace (negb (Bool.eqb r r)) with false by now destruct r.
  rewrite !relElements_plainPath by assumption.
  rewrite app_assoc, dropCommon_app. reflexivity.
Qed.

Lemma Rel_plainPath_name r bs n :
  bs <> [] -> List.Forall (fun n => isName n = true) bs -> isName n = true ->
  Rel (plainPath r bs) (plainPath r (bs ++ [n])) = Some n.
Proof.
  intros Hb Hbs Hn. change (Some n) with (Some (fromElements [n])).
  apply Rel_plainPath; try assumption; [discriminate | now repeat constructor].
Qed.

Lemma plainPath_snoc_append r xs a b :
  plainPath r (xs ++ [a +:+ b]) = plainPath r (xs ++ [a]) +:+ b.
Proof. unfold plainPath. rewrite !app_assoc. apply fromElements_snoc_append. Qed.

(* ===================================================================== *)
(** ** The clean-URL rule *)
(* ===================================================================== *)

(** The output path [processFn] computes for an entry below the input
    directory mirrors its place. *)
Lemma outputPath_plain config ri ro ind outd ds f :
  InputDir config = plainPath ri ind -> OutputDir config = plainPath ro outd ->
  ind <> [] -> outd <> [] ->
  List.Forall (fun n => isName n = true) ind ->
  List.Forall (fun n => isName n = true) outd ->
  List.Forall (fun n => isName n = true) ds -> isName f = true ->
  Join [OutputDir config;
        default "" (Rel (InputDir config) (plainPath ri (ind ++ ds ++ [f])))]
  = plainPath ro (outd ++ ds ++ [f]).
Proof.
  intros -> -> Hi Ho Hin Hout Hds Hf.
  rewrite Rel_plainPath; auto using snoc_not_nil, Forall_names_snoc.
  simpl default. apply Join_plainPath; auto using snoc_not_nil, Forall_names_snoc.
Qed.

(** C1, as the code has it. For a markdown file at
    [input/d1/.../dk/f], with plain names throughout and the input and
    output directories plain paths, relative or not: if [f] is exactly
    [index.md], its page is [output/d1/.../dk/index.html]; every other
    file [f], also [index.markdown] and [INDEX.md], that is [name] followed
    by its extension (the suffix from its last dot) has the page
    [output/d1/.../dk/name/index.html], for a plain [name]. *)
Theorem pagePath_clean_url config ri ro ind outd ds f :
  InputDir config = plainPath ri ind -> OutputDir config = plainPath ro outd ->
  ind <> [] -> outd <> [] ->
  List.Forall (fun n => isName n = true) ind ->
  List.Forall (fun n => isName n = true) outd ->
  List.Forall (fun n => isName n = true) ds -> isName f = true ->
  (f = "index.md" ->
   pagePath config (plainPath ri (ind ++ ds ++ [f]))
   = plainPath ro (outd ++ ds ++ ["index.html"]))
  /\ (forall name ext,
        f = name +:+ ext -> extOf f = ext -> f <> "index.md" -> isName name = true ->
        pagePath config (plainPath ri (ind ++ ds ++ [f]))
        = plainPath ro (outd ++ ds ++ [name; "index.html"])).
Proof.
  intros HI HO Hi Ho Hin Hout Hds Hf.
  assert (Hinds : List.Forall (fun n => isName n = true) (ind ++ ds))
    by (apply List.Forall_app; now split).
  assert (Houtds : List.Forall (fun n => isName n = true) (outd ++ ds))
    by (apply List.Forall_app; now split).
  assert (Hne : outd ++ ds <> []) by (destruct outd; [congruence | discriminate]).
  unfold pagePath.
  rewrite (outputPath_plain config ri ro ind outd ds f) by assumption.
  unfold outputHTMLPath. rewrite !app_assoc.
  rewrite (Base_plainPath ri (ind ++ ds) f) by assumption.
  split.
  - intros ->. simpl String.eqb. cbv iota.
    rewrite (Ext_plainPath ro (outd ++ ds) "index.md") by assumption.
    change (extOf "index.md") with ".md".
    change "index.md" with ("index" +:+ ".md"). rewrite plainPath_snoc_append.
    rewrite TrimSuffix_append. rewrite <- plainPath_snoc_append. reflexivity.
  - intros name ext Hname Hext Hneq Hstem. apply String.eqb_neq in Hneq. rewrite Hneq.
    rewrite (Ext_plainPath ri (ind ++ ds) f) by assumption. fold (stem f).
    rewrite (stem_name f name ext Hname Hext).
    rewrite (Dir_plainPath ro (outd ++ ds) f) by assumption.
    rewrite Join_plainPath3 by (assumption || reflexivity).
    now rewrite <- app_assoc.
Qed.

Lemma pagePath_clean_url_witness :
  pagePath sampleConfig "input/blog/index.md" = "output/blog/index.html"
  /\ pagePath sampleConfig "input/blog/post.md" = "output/blog/post/index.html"
  /\ pagePath rootedConfig "/srv/site/input/notes/Read.Me.MarkDown"
     = "/var/www/notes/Read.Me/index.html".
Proof.
  split; [|split].
  - apply (pagePath_clean_url sampleConfig false false ["input"] ["output"] ["blog"]
             "index.md");
      try reflexivity; try discriminate; repeat constructor.
  - apply (pagePath_clean_url sampleConfig false false ["input"] ["output"] ["blog"]
             "post.md" eq_refl eq_refl) with (name := "post") (ext := ".md");
      try reflexivity; try discriminate; repeat constructor.
  - apply (pagePath_clean_url rootedConfig true true ["srv"; "site"; "input"]
             ["var"; "www"] ["notes"] "Read.Me.MarkDown" eq_refl eq_refl)
      with (name := "Read.Me") (ext := ".MarkDown");
      try reflexivity; try discriminate; repeat constructor.
Defined.

(** C1 as the claim states it fails: [index.markdown] and [INDEX.md] are
    markdown files named [index] with a markdown extension, and their pages
    go to a directory [index] or [INDEX], not to [index.html] in place. *)
Lemma pagePath_index_markdown_counterexample :
  isMarkdownFile "input/blog/index.markdown" = true
  /\ Base "input/blog/index.markdown" = "index.markdown"
  /\ pagePath sampleConfig "input/blog/index.markdown" = "output/blog/index/index.html"
  /\ pagePath sampleConfig "input/blog/index.markdown" <> "output/blog/index.html"
  /\ isMarkdownFile "input/INDEX.MD" = true
  /\ pagePath sampleConfig "input/INDEX.MD" = "output/INDEX/index.html".
Proof. repeat split; try reflexivity. discriminate. Qed.

(* ===================================================================== *)
(** ** [build]: hidden entries *)
(* ===================================================================== *)

Lemma processStep_hidden_asset E site config p i s :
  isHiddenAsset p i = true -> processStep E site config p i s = s.
Proof.
  unfold isHiddenAsset, processStep, processFn. intros H.
  apply andb_true_iff in H as [H Hh]. apply andb_true_iff in H as [Hd Hm].
  apply negb_true_iff in Hd, Hm. destruct s as [sys count].
  now rewrite Hd, Hm, Hh.
Qed.

Lemma hidden_asset_inert E site config p i s :
  isHiddenAsset p i = true ->
  foldVisits (processStep E site config) (visits noSkip p i) s = s.
Proof.
  intros H. assert (Hd : IsDir i = false).
  { unfold isHiddenAsset in H. destruct (IsDir i); [discriminate | reflexivity]. }
  destruct i as [t data | t entries]; [|discriminate].
  unfold foldVisits. simpl. now apply processStep_hidden_asset.
Qed.

Lemma processStep_entries E site config p t es es' s :
  processStep E site config p (Directory t es) s
  = processStep E site config p (Directory t es') s.
Proof. unfold processStep, processFn. now destruct s. Qed.

(** The traversal of [build] with and without the hidden assets. *)
Lemma Walk_processFn_pruned E site config root tree s :
  Walk (processFn E site config) root (pruneRoot isHiddenAsset root tree) s
  = Walk (processFn E site config) root tree s.
Proof.
  destruct tree as [info|]; [|reflexivity]. simpl pruneRoot.
  rewrite !Walk_processFn. f_equal. apply foldVisits_prune.
  - apply hidden_asset_inert.
  - apply processStep_entries.
  - reflexivity.
Qed.

(** What [build] writes depends on the file system it starts from, not on
    the lines printed so far. *)
Lemma fs_renderMarkdown_congr E site ip info op td sys1 sys2 :
  fs sys1 = fs sys2 ->
  fs (renderMarkdown E site ip info op td sys1)
  = fs (renderMarkdown E site ip info op td sys2).
Proof.
  intros Hfs. unfold renderMarkdown.
  destruct (ReadFile ip info) as [content | err]; [|exact Hfs].
  destruct (parseFrontMatter E content) as [[fm md] printed].
  destruct (Convert E md) as [html | err]; [|exact Hfs].
  destruct (ParseFiles E _) as [tmpl | err].
  - destruct (Execute E tmpl _) as [out | err];
      rewrite !fs_writeHTMLFile; simpl; now rewrite Hfs.
  - rewrite !fs_writeHTMLFile. simpl. now rewrite Hfs.
Qed.

Lemma renderMarkdown_templates E site1 site2 ip info op td sys :
  templatesRoot site1 = templatesRoot site2 ->
  renderMarkdown E site1 ip info op td sys = renderMarkdown E site2 ip info op td sys.
Proof. intros H. unfold renderMarkdown. now rewrite H. Qed.

Lemma processStep_templates E site1 site2 config p i s :
  templatesRoot site1 = templatesRoot site2 ->
  processStep E site1 config p i s = processStep E site2 config p i s.
Proof.
  intros H. unfold processStep, processFn. destruct s as [sys count].
  now rewrite (renderMarkdown_templates E site1 site2) by exact H.
Qed.

Lemma processStep_congr E site config p i sys1 sys2 count :
  fs sys1 = fs sys2 ->
  fs (fst (processStep E site config p i (sys1, count)))
  = fs (fst (processStep E site config p i (sys2, count)))
  /\ snd (processStep E site config p i (sys1, count))
     = snd (processStep E site config p i (sys2, count)).
Proof.
  intros Hfs. unfold processStep, processFn.
  destruct (IsDir i); [simpl; now rewrite Hfs|].
  destruct (isMarkdownFile p).
  - simpl. split; [now apply fs_renderMarkdown_congr | reflexivity].
  - destruct (negb (HasPrefix (Base p) ".")); simpl; [now rewrite Hfs | auto].
Qed.

Lemma foldVisits_processStep_congr E site config vs sys1 sys2 count :
  fs sys1 = fs sys2 ->
  fs (fst (foldVisits (processStep E site config) vs (sys1, count)))
  = fs (fst (foldVisits (processStep E site config) vs (sys2, count)))
  /\ snd (foldVisits (processStep E site config) vs (sys1, count))
     = snd (foldVisits (processStep E site config) vs (sys2, count)).
Proof.
  revert sys1 sys2 count. induction vs as [|[p i] vs IH]; intros sys1 sys2 count Hfs.
  - now split.
  - rewrite !foldVisits_cons.
    destruct (processStep_congr E site config p i sys1 sys2 count Hfs) as [H1 H2].
    destruct (processStep E site config p i (sys1, count)) as [s1 c1].
    destruct (processStep E site config p i (sys2, count)) as [s2 c2].
    simpl in H1, H2. subst c2. now apply IH.
Qed.

Lemma fs_foldVisits_foundStep config vs sys :
  fs (foldVisits (foundStep config) vs sys) = fs sys.
Proof.
  revert sys. induction vs as [|[p i] vs IH]; intros sys; [reflexivity|].
  rewrite foldVisits_cons, IH. unfold foundStep, foundFn.
  now destruct (negb (IsDir i)).
Qed.

Lemma foldVisits_ext {S : Type} (step1 step2 : string -> node -> S -> S) vs s :
  (forall p i s, step1 p i s = step2 p i s) ->
  foldVisits step1 vs s = foldVisits step2 vs s.
Proof.
  intros H. revert s. induction vs as [|[p i] vs IH]; intros s; [reflexivity|].
  unfold foldVisits in *. simpl. rewrite H. apply IH.
Qed.

(** [build] on a site with both directories: the traversal, then
    [handleRobotsTxt], then the last line. *)
Lemma build_traversed E site config sys input templates :
  inputRoot site = Some input ->
  templatesRoot site = Some templates ->
  build E site config sys
  = println (processedLine (snd (traversed E site config sys)))
      (handleRobotsTxt site (InputDir config) (OutputDir config)
         (fst (traversed E site config sys))).
Proof.
  intros Hin Htm. unfold build, traversed. rewrite Hin, Htm.
  rewrite !Walk_foundFn. cbn [fst]. rewrite !Walk_processFn. cbn [fst].
  now destruct (foldVisits (processStep E site config) _ _) as [sys' count].
Qed.

(** The entry [find] gives for a name that is never dropped. *)
Lemma find_pruneEntries drop root e entries :
  (forall child, drop (Join [root; e]) child = false) ->
  List.find (fun ne => String.eqb (fst ne) e) (pruneEntries drop root entries)
  = option_map (fun ne => (fst ne, prune drop (Join [root; e]) (snd ne)))
      (List.find (fun ne => String.eqb (fst ne) e) entries).
Proof.
  intros Hkeep. induction entries as [|[n c] rest IH]; [reflexivity|].
  simpl. destruct (String.eqb n e) eqn:Hn.
  - apply String.eqb_eq in Hn. subst n. rewrite Hkeep. simpl.
    now rewrite String.eqb_refl.
  - destruct (drop (Join [root; n]) c); [exact IH|].
    simpl. now rewrite Hn.
Qed.

Lemma descend_prune_one drop root e info :
  (forall child, drop (Join [root; e]) child = false) ->
  descend (prune drop root info) [e]
  = option_map (prune drop (Join [root; e])) (descend info [e]).
Proof.
  intros Hkeep. destruct info as [t data | t entries]; [reflexivity|].
  rewrite prune_Directory. simpl. rewrite (find_pruneEntries drop root e entries Hkeep).
  now destruct (List.find _ entries) as [[n c]|].
Qed.

Lemma copyFile_prune drop p info dst st :
  copyFile (Some (prune drop p info)) dst st = copyFile (Some info) dst st.
Proof. now destruct info. Qed.

(** [robots.txt] of a plain input directory is found in the tree without
    hidden assets as in the tree itself. *)
Lemma statUnder_robots_pruned r ind tree :
  ind <> [] -> List.Forall (fun n => isName n = true) ind ->
  statUnder (plainPath r ind)
    (pruneRoot isHiddenAsset (plainPath r ind) tree)
    (Join [plainPath r ind; "robots.txt"])
  = option_map (prune isHiddenAsset (Join [plainPath r ind; "robots.txt"]))
      (statUnder (plainPath r ind) tree (Join [plainPath r ind; "robots.txt"])).
Proof.
  intros Hne Hall. destruct tree as [info|]; [|reflexivity].
  unfold statUnder. simpl pruneRoot.
  assert (HJ := Join_plainPath_name r ind "robots.txt" Hne Hall eq_refl).
  rewrite HJ. rewrite (Rel_plainPath_name r ind "robots.txt" Hne Hall eq_refl).
  rewrite <- HJ.
  simpl String.eqb. cbv iota.
  change (elements "robots.txt") with ["robots.txt"].
  apply descend_prune_one.
  intros child. unfold isHiddenAsset. rewrite HJ.
  rewrite Base_plainPath by (assumption || reflexivity).
  apply andb_false_r.
Qed.

Lemma handleRobotsTxt_congr site1 site2 inputDir outputDir sys1 sys2 :
  fs sys1 = fs sys2 ->
  (match statUnder inputDir (inputRoot site1) (Join [inputDir; "robots.txt"]),
         statUnder inputDir (inputRoot site2) (Join [inputDir; "robots.txt"]) with
   | Some i1, Some i2 =>
       forall dst st, copyFile (Some i1) dst st = copyFile (Some i2) dst st
   | None, None => True
   | _, _ => False
   end) ->
  fs (handleRobotsTxt site1 inputDir outputDir sys1)
  = fs (handleRobotsTxt site2 inputDir outputDir sys2).
Proof.
  intros Hfs Hstat. unfold handleRobotsTxt.
  destruct (statUnder inputDir (inputRoot site1) _) as [i1|],
           (statUnder inputDir (inputRoot site2) _) as [i2|]; try now destruct Hstat.
  - rewrite !fs_println, !fs_withFs, Hfs, Hstat. reflexivity.
  - rewrite Hfs.
    destruct (OS.WriteFile _ defaultRobots (fs sys2)) as [st [|]]; reflexivity.
Qed.

Lemma fs_resetOutput_congr config sys1 sys2 :
  fs sys1 = fs sys2 -> fs (resetOutput config sys1) = fs (resetOutput config sys2).
Proof. intros H. unfold resetOutput. rewrite !fs_withFs. now rewrite H. Qed.

Lemma traversed_visits E site config sys input :
  inputRoot site = Some input ->
  traversed E site config sys
  = foldVisits (processStep E site config) (visits noSkip (InputDir config) input)
      (resetOutput config
         (foldVisits (foundStep config) (visits noSkip (InputDir config) input)
            (println (blue (nl +:+ "Files found in input directory:"))
               (printConfiguration config sys))), O).
Proof.
  intros Hin. unfold traversed. rewrite Hin.
  rewrite Walk_foundFn. cbn [fst]. now rewrite Walk_processFn.
Qed.

(** The traversal of [build] gives the same files and the same count with
    and without the hidden assets. *)
Lemma traversed_pruned E site config sys :
  fs (fst (traversed E (withoutHiddenAssets site config) config sys))
  = fs (fst (traversed E site config sys))
  /\ snd (traversed E (withoutHiddenAssets site config) config sys)
     = snd (traversed E site config sys).
Proof.
  destruct (inputRoot site) as [input|] eqn:Hin.
  - rewrite (traversed_visits E site config sys input Hin).
    rewrite (traversed_visits E (withoutHiddenAssets site config) config sys
               (prune isHiddenAsset (InputDir config) input))
      by (unfold withoutHiddenAssets; simpl; now rewrite Hin).
    rewrite (foldVisits_ext (processStep E (withoutHiddenAssets site config) config)
               (processStep E site config))
      by (intros p i s; now apply processStep_templates).
    rewrite (foldVisits_prune (processStep E site config) noSkip isHiddenAsset
               (hidden_asset_inert E site config) (processStep_entries E site config)
               (fun _ _ _ _ => eq_refl)).
    apply foldVisits_processStep_congr. apply fs_resetOutput_congr.
    now rewrite !fs_foldVisits_foundStep.
  - unfold traversed, withoutHiddenAssets. simpl. rewrite Hin. simpl. auto.
Qed.

(** A file of the input tree that is not markdown and whose base name
    starts with a dot is skipped by [build]: the callback leaves the state
    and the count as they are, and the file system and the count of a build
    are what they are for the site without these files (the input directory a
    plain path, relative or not). *)
Lemma build_without_hidden_assets E site config sys rooted ind :
  InputDir config = plainPath rooted ind ->
  ind <> [] ->
  List.Forall (fun n => isName n = true) ind ->
  fs (build E (withoutHiddenAssets site config) config sys) = fs (build E site config sys)
  /\ last (console (build E (withoutHiddenAssets site config) config sys))
     = last (console (build E site config sys)).
Proof.
  intros HI Hne Hall.
  destruct (inputRoot site) as [input|] eqn:Hin.
  - destruct (templatesRoot site) as [templates|] eqn:Htm.
    + rewrite (build_traversed E site config sys input templates Hin Htm).
      rewrite (build_traversed E (withoutHiddenAssets site config) config sys
                 (prune isHiddenAsset (InputDir config) input) templates)
        by (unfold withoutHiddenAssets; simpl; now rewrite ?Hin, ?Htm).
      destruct (traversed_pruned E site config sys) as [Hfs Hcount].
      rewrite Hcount. split.
      * rewrite !fs_println. apply handleRobotsTxt_congr; [exact Hfs|].
        unfold withoutHiddenAssets. simpl inputRoot. rewrite HI.
        rewrite (statUnder_robots_pruned rooted ind (inputRoot site) Hne Hall).
        destruct (statUnder (plainPath rooted ind) (inputRoot site) _) as [info|];
          simpl; [|exact I].
        intros dst st. apply copyFile_prune.
      * unfold println. simpl console. now rewrite !last_snoc.
    + unfold build, withoutHiddenAssets. simpl. rewrite Hin, Htm. simpl. auto.
  - unfold build, withoutHiddenAssets. simpl. rewrite Hin. simpl. auto.
Qed.

(* ===================================================================== *)
(** ** [build]: what the directory checks look at *)
(* ===================================================================== *)



(** C6. The claim fails on the code where a directory does not exist but
    something else stands at its path. In [fileTemplatesSite] a regular file
    stands at the path of the templates directory: there is no templates
    directory, yet the check passes, and the build removes what the output
    directory held and writes it anew. In [fileInputSite] a regular file
    stands at the path of the input directory, with the same result: the old
    page is gone and [robots.txt] is written. No error line about a
    directory is printed. *)
Lemma build_passes_check_on_regular_file :
  option_map IsDir (templatesRoot fileTemplatesSite) = Some false
  /\ fs staleSys !! "output/old.html" = Some (EFile "old")
  /\ fs (build sampleEngine fileTemplatesSite sampleConfig staleSys) !! "output/old.html"
     = None
  /\ fs (build sampleEngine fileTemplatesSite sampleConfig staleSys) !! "output/style.css"
     = Some (EFile "body {}")
  /\ last (console (build sampleEngine fileTemplatesSite sampleConfig staleSys))
     = Some (processedLine 1)
  /\ ~ In "Error: Templates directory does not exist: templates"
        (console (build sampleEngine fileTemplatesSite sampleConfig staleSys))
  /\ fs (build sampleEngine fileTemplatesSite sampleConfig staleSys) <> fs staleSys
  /\ option_map IsDir (inputRoot fileInputSite) = Some false
  /\ fs (build sampleEngine fileInputSite sampleConfig staleSys) !! "output/old.html"
     = None
  /\ fs (build sampleEngine fileInputSite sampleConfig staleSys) !! "output/robots.txt"
     = Some (EFile defaultRobots)
  /\ ~ In "Error: Input directory does not exist: input"
        (console (build sampleEngine fileInputSite sampleConfig staleSys))
  /\ fs (build sampleEngine fileInputSite sampleConfig staleSys) <> fs staleSys.
Proof.
  assert (Hdiff : forall st : store, st !! "output/old.html" = None -> st <> fs staleSys).
  { intros st Hst Heq. rewrite Heq in Hst. discriminate Hst. }
  repeat split; try (vm_compute; reflexivity);
    try (apply Hdiff; vm_compute; reflexivity);
    vm_compute; intros H; repeat (destruct H as [H | H]; [discriminate H|]); exact H.
Qed.
(* ===================================================================== *)
(** ** [handleRobotsTxt] *)
(* ===================================================================== *)

Lemma fs_handleRobotsTxt site inputDir outputDir sys :
  fs (handleRobotsTxt site inputDir outputDir sys)
  = match statUnder inputDir (inputRoot site) (Join [inputDir; "robots.txt"]) with
    | Some info => fst (copyFile (Some info) (Join [outputDir; "robots.txt"]) (fs sys))
    | None => fst (OS.WriteFile (Join [outputDir; "robots.txt"]) defaultRobots (fs sys))
    end.
Proof.
  unfold handleRobotsTxt.
  destruct (statUnder inputDir (inputRoot site) _) as [info|]; [reflexivity|].
  destruct (OS.WriteFile _ defaultRobots (fs sys)) as [st [|]]; reflexivity.
Qed.

(** The lines of [println] and the state of [withFs]. *)
Lemma console_println line sys : console (println line sys) = console sys ++ [line].
Proof. reflexivity. Qed.

Lemma console_withFs f sys : console (withFs f sys) = console sys.
Proof. reflexivity. Qed.

(** C5, as the code has it. After a build that passes the directory
    checks, the input and the templates directory apart from the output
    directory. If a file can be created at [output/robots.txt] when the
    traversal has ended (the output root is a directory and there is no
    directory at [output/robots.txt]): when [input/robots.txt] is a file,
    [output/robots.txt] holds the same bytes; when nothing exists at
    [input/robots.txt], [output/robots.txt] holds the default text. If
    nothing exists at [input/robots.txt] and no file can be created at
    [output/robots.txt], the file system stays as the traversal left it and
    [build] prints the error of the write. In each of these cases the next
    line is the last line of the build. *)
Theorem build_robots_txt E site config ro outd sys input templates :
  OutputDir config = plainPath ro outd -> outd <> [] ->
  List.Forall (fun n => isName n = true) outd ->
  apart (InputDir config) (OutputDir config) = true ->
  apart (TemplatesDir config) (OutputDir config) = true ->
  inputRoot site = Some input ->
  templatesRoot site = Some templates ->
  (OS.canCreate (fs (fst (traversed E site config sys)))
     (Join [OutputDir config; "robots.txt"]) = true ->
   match statUnder (InputDir config) (inputRoot site)
           (Join [InputDir config; "robots.txt"]) with
   | Some (File _ data) =>
       fs (build E site config sys) !! Join [OutputDir config; "robots.txt"]
       = Some (EFile data)
       /\ console (build E site config sys)
          = console (fst (traversed E site config sys))
            ++ ["Copied existing robots.txt";
                processedLine (snd (traversed E site config sys))]
   | Some (Directory _ _) => True
   | None =>
       fs (build E site config sys) !! Join [OutputDir config; "robots.txt"]
       = Some (EFile defaultRobots)
       /\ console (build E site config sys)
          = console (fst (traversed E site config sys))
            ++ ["Generated default robots.txt";
                processedLine (snd (traversed E site config sys))]
   end)
  /\ (OS.canCreate (fs (fst (traversed E site config sys)))
        (Join [OutputDir config; "robots.txt"]) = false ->
      statUnder (InputDir config) (inputRoot site) (Join [InputDir config; "robots.txt"])
      = None ->
      fs (build E site config sys) = fs (fst (traversed E site config sys))
      /\ console (build E site config sys)
         = console (fst (traversed E site config sys))
           ++ [red "Error:" +:+ " Error writing robots.txt: "
               +:+ OS.writeError (Join [OutputDir config; "robots.txt"])
                     (fs (fst (traversed E site config sys)));
               processedLine (snd (traversed E site config sys))])
  /\ defaultRobots
     = "User-agent: *" +:+ nl +:+ "Allow: /" +:+ nl +:+ "Sitemap: sitemap.xml".
Proof.
  intros HO Ho Hout _ _ Hin Htm.
  rewrite (build_traversed E site config sys input templates Hin Htm).
  set (left := fst (traversed E site config sys)).
  set (done := processedLine (snd (traversed E site config sys))).
  assert (Hclean : Clean (Join [OutputDir config; "robots.txt"])
                   = Join [OutputDir config; "robots.txt"]).
  { rewrite HO, (Join_plainPath_name ro outd "robots.txt" Ho Hout eq_refl).
    apply Clean_plainPath; [apply snoc_not_nil | now apply Forall_names_snoc]. }
  split; [|split; [|reflexivity]].
  - intros Hcan. rewrite fs_println, console_println, fs_handleRobotsTxt.
    unfold handleRobotsTxt.
    destruct (statUnder (InputDir config) (inputRoot site) _) as [[t data | t entries]|].
    + split.
      * simpl copyFile. pose proof (WriteFile_lookup _ data _ Hcan) as Hw.
        now rewrite Hclean in Hw.
      * rewrite console_println, console_withFs, <- app_assoc. reflexivity.
    + exact I.
    + split.
      * pose proof (WriteFile_lookup _ defaultRobots _ Hcan) as Hw.
        now rewrite Hclean in Hw.
      * unfold OS.WriteFile. rewrite Hcan.
        rewrite console_println, console_withFs, <- app_assoc. reflexivity.
  - intros Hcan Hnone. rewrite fs_println, console_println, fs_handleRobotsTxt.
    unfold handleRobotsTxt. rewrite Hnone.
    unfold OS.WriteFile. rewrite Hcan. split; [reflexivity|].
    rewrite console_println, <- app_assoc. reflexivity.
Qed.

Lemma build_robots_txt_witness :
  fs (build sampleEngine robotsSite sampleConfig staleSys) !! "output/robots.txt"
  = Some (EFile ownRobots)
  /\ fs (build sampleEngine blogSite sampleConfig staleSys) !! "output/robots.txt"
     = Some (EFile defaultRobots)
  /\ fs (build sampleEngine robotsPageSite sampleConfig emptySys) !! "output/robots.txt"
     = Some EDir.
Proof.
  split; [|split].
  - destruct (build_robots_txt sampleEngine robotsSite sampleConfig false ["output"] staleSys
                (Directory 0 [("index.md", File 0 "home");
                              ("robots.txt", File 0 ownRobots)])
                sampleTemplates eq_refl ltac:(discriminate) ltac:(repeat constructor)
                eq_refl eq_refl eq_refl eq_refl) as [Hcan _].
    exact (proj1 (Hcan eq_refl)).
  - destruct (build_robots_txt sampleEngine blogSite sampleConfig false ["output"] staleSys
                (Directory 0
                   [("blog", Directory 0 [("index.md", File 0 "hello");
                                          ("post.md", File 0 "post")]);
                    ("style.css", File 0 "body {}")])
                sampleTemplates eq_refl ltac:(discriminate) ltac:(repeat constructor)
                eq_refl eq_refl eq_refl eq_refl) as [Hcan _].
    exact (proj1 (Hcan eq_refl)).
  - destruct (build_robots_txt sampleEngine robotsPageSite sampleConfig false ["output"]
                emptySys
                (Directory 0 [("index.md", File 0 "home");
                              ("robots.txt.md", File 0 "about robots")])
                sampleTemplates eq_refl ltac:(discriminate) ltac:(repeat constructor)
                eq_refl eq_refl eq_refl eq_refl) as (_ & Hnot & _).
    rewrite (proj1 (Hnot eq_refl eq_refl)). reflexivity.
Defined.

(** C5 as the claim states it fails. A site without [robots.txt] but with
    a page [robots.txt.md]: the page goes to [output/robots.txt/index.html],
    so [output/robots.txt] is a directory, the default text cannot be
    written and [build] prints the error of the write. And a build that
    stops at the directory checks writes no [robots.txt] at all. *)
Lemma build_robots_txt_counterexample :
  statUnder "input" (inputRoot robotsPageSite) "input/robots.txt" = None
  /\ fs (build sampleEngine robotsPageSite sampleConfig emptySys) !! "output/robots.txt"
     = Some EDir
  /\ fs (build sampleEngine robotsPageSite sampleConfig emptySys)
     !! "output/robots.txt/index.html" = Some (EFile "<main><p>about robots</p></main>")
  /\ In "Error: Error writing robots.txt: open output/robots.txt: is a directory"
       (console (build sampleEngine robotsPageSite sampleConfig emptySys))
  /\ fs (build sampleEngine noTemplatesSite sampleConfig emptySys) !! "output/robots.txt"
     = None.
Proof.
  split; [reflexivity|]. split; [vm_compute; reflexivity|].
  split; [vm_compute; reflexivity|]. split; [vm_compute; tauto|].
  vm_compute; reflexivity.
Qed.
(* ===================================================================== *)
(** ** [parseFrontMatter]: where a text is split *)
(* ===================================================================== *)

(** [indexOf] gives the first occurrence. *)
Lemma indexOf_first s sub n :
  indexOf s sub = Some n ->
  forall a b, s = a +:+ sub +:+ b -> (n <= String.length a)%nat.
Proof.
  revert n. induction s as [|c s IH]; intros n H a b Hs; simpl in H.
  - destruct (HasPrefix "" sub); [|discriminate]. injection H as <-. lia.
  - destruct (HasPrefix (String c s) sub) eqn:Hp; [injection H as <-; lia|].
    destruct (indexOf s sub) as [m|] eqn:Hi; [|discriminate].
    injection H as <-. destruct a as [|x a].
    + rewrite append_empty_l in Hs. rewrite Hs, HasPrefix_append in Hp. discriminate.
    + rewrite append_cons in Hs. injection Hs as _ Hs.
      specialize (IH m eq_refl a b Hs). simpl. lia.
Qed.

(** The text before the first occurrence holds none. *)
Lemma indexOf_Some_first s sub n :
  sub <> "" ->
  indexOf s sub = Some n ->
  exists a b, s = a +:+ sub +:+ b /\ String.length a = n
              /\ forall x y, a <> x +:+ sub +:+ y.
Proof.
  intros Hsub H. destruct (indexOf_Some s sub n H) as (a & b & Hs & Hn).
  exists a, b. split; [exact Hs|]. split; [exact Hn|].
  intros x y Ha.
  pose proof (indexOf_first s sub n H x (y +:+ sub +:+ b)) as Hle.
  rewrite Hs, Ha in Hle. rewrite !append_assoc in Hle. specialize (Hle eq_refl).
  rewrite <- Hn, Ha, !length_append in Hle.
  destruct sub; [congruence|]. simpl in Hle. lia.
Qed.

(** X1. [parseFrontMatter] splits a text in one of two ways. Either the text
    does not begin with the delimiter line or the delimiter bytes occur
    nowhere after it: then the text is the body, the metadata is empty and
    nothing is printed. Or the text is the delimiter, a block in which the
    delimiter bytes do not occur, the delimiter again and the body: then
    exactly the block goes to the decoder, the body is returned as it
    stands, and the only line printed is the error of the decoder. *)
Theorem parseFrontMatter_splits E content :
  (parseFrontMatter E content = (emptyFrontMatter, content, [])
   /\ (HasPrefix content delim = false
       \/ exists rest, content = delim +:+ rest
                       /\ forall a b, rest <> a +:+ delim +:+ b))
  \/ (exists block body,
        content = delim +:+ block +:+ delim +:+ body
        /\ (forall a b, block <> a +:+ delim +:+ b)
        /\ parseFrontMatter E content
           = (fst (Unmarshal E block emptyFrontMatter), body,
              match snd (Unmarshal E block emptyFrontMatter) with
              | Some e => [red "Error:" +:+ " Error parsing front matter: " +:+ e]
              | None => []
              end)).
Proof.
  destruct (HasPrefix content delim) eqn:Hp.
  - destruct (HasPrefix_inv _ _ Hp) as [rest ->].
    destruct (indexOf rest delim) as [n|] eqn:Hi.
    + right. destruct (indexOf_Some_first rest delim n ltac:(discriminate) Hi) as (block & body & -> & _ & Hno).
      exists block, body. split; [reflexivity|]. split; [exact Hno|].
      rewrite (parseFrontMatter_block E block body Hno).
      now destruct (Unmarshal E block emptyFrontMatter).
    + left. assert (Hno := no_occurrence rest delim Hi).
      split; [|right; now exists rest].
      unfold parseFrontMatter. rewrite HasPrefix_delim, sliceFrom_delim. unfold Index.
      now rewrite Hi.
  - left. split; [|now left]. unfold parseFrontMatter. now rewrite Hp.
Qed.

(* ===================================================================== *)
(** ** [renderMarkdown]: the template data and a failed conversion *)
(* ===================================================================== *)

(** X2. The data a template is executed with: a custom field of the front
    matter wins over the field of the same name that [renderMarkdown] sets,
    also over [Content]; where the front matter has no custom field of that
    name, [Title], [Description] and [Date] are those of the front matter
    and [Content] is the converted fragment as trusted HTML; no other name
    is defined: the tags and the template name of the front matter are not
    passed on. *)
Theorem templateData_custom_fields_win frontMatter htmlContent :
  (forall k v, Custom frontMatter !! k = Some v ->
               templateData frontMatter htmlContent !! k = Some v)
  /\ (forall k, Custom frontMatter !! k = None ->
        templateData frontMatter htmlContent !! k
        = if String.eqb k "Title" then Some (AString (Title frontMatter))
          else if String.eqb k "Description" then Some (AString (Description frontMatter))
          else if String.eqb k "Date" then Some (AString (Date frontMatter))
          else if String.eqb k "Content" then Some (AHTML htmlContent)
          else None)
  /\ (Custom frontMatter !! "Tags" = None ->
      templateData frontMatter htmlContent !! "Tags" = None)
  /\ (Custom frontMatter !! "Template" = None ->
      templateData frontMatter htmlContent !! "Template" = None).
Proof.
  assert (Hnone : forall k, Custom frontMatter !! k = None ->
        templateData frontMatter htmlContent !! k
        = if String.eqb k "Title" then Some (AString (Title frontMatter))
          else if String.eqb k "Description" then Some (AString (Description frontMatter))
          else if String.eqb k "Date" then Some (AString (Date frontMatter))
          else if String.eqb k "Content" then Some (AHTML htmlContent)
          else None).
  { intros k Hk. unfold templateData. rewrite lookup_union_r by exact Hk.
    destruct (String.eqb k "Title") eqn:H1;
      [apply String.eqb_eq in H1 as ->; apply lookup_insert_eq|].
    apply String.eqb_neq in H1. rewrite lookup_insert_ne by congruence.
    destruct (String.eqb k "Description") eqn:H2;
      [apply String.eqb_eq in H2 as ->; apply lookup_insert_eq|].
    apply String.eqb_neq in H2. rewrite lookup_insert_ne by congruence.
    destruct (String.eqb k "Date") eqn:H3;
      [apply String.eqb_eq in H3 as ->; apply lookup_insert_eq|].
    apply String.eqb_neq in H3. rewrite lookup_insert_ne by congruence.
    destruct (String.eqb k "Content") eqn:H4;
      [apply String.eqb_eq in H4 as ->; apply lookup_insert_eq|].
    apply String.eqb_neq in H4. rewrite lookup_insert_ne by congruence.
    apply lookup_empty. }
  split; [|split; [exact Hnone|split]].
  - intros k v Hk. unfold templateData. now apply lookup_union_Some_l.
  - intros H. now rewrite (Hnone _ H).
  - intros H. now rewrite (Hnone _ H).
Qed.

(** X3. A markdown file whose conversion fails gets no page, not even the
    fallback page: [build] prints the error after the lines of the
    front-matter splitter, leaves the file system as it is, counts the file
    as processed and goes on. *)
Theorem conversion_failure_writes_nothing E site config path t data sys count
    frontMatter markdownContent printed err :
  isMarkdownFile path = true ->
  parseFrontMatter E data = (frontMatter, markdownContent, printed) ->
  Convert E markdownContent = inr err ->
  processFn E site config path (File t data) (sys, count)
  = (println (red "Error:" +:+ " Error converting markdown: " +:+ err)
       (printAll printed sys), Datatypes.S count, WNil)
  /\ fs (fst (fst (processFn E site config path (File t data) (sys, count)))) = fs sys.
Proof.
  intros Hmd Hparse Hconv.
  assert (H : processFn E site config path (File t data) (sys, count)
              = (println (red "Error:" +:+ " Error converting markdown: " +:+ err)
                   (printAll printed sys), Datatypes.S count, WNil)).
  { unfold processFn. simpl IsDir. cbv iota. rewrite Hmd.
    unfold renderMarkdown. simpl ReadFile. cbv iota. now rewrite Hparse, Hconv. }
  split; [exact H|]. now rewrite H.
Qed.

(* ===================================================================== *)
(** ** [build]: the count *)
(* ===================================================================== *)

Lemma processStep_count E site config p i sys count :
  snd (processStep E site config p i (sys, count))
  = (count + if isCounted p i then 1 else 0)%nat.
Proof.
  unfold processStep, processFn, isCounted.
  destruct (IsDir i); simpl; [lia|].
  destruct (isMarkdownFile p); simpl; [lia|].
  destruct (HasPrefix (Base p) "."); simpl; lia.
Qed.

Lemma foldVisits_processStep_count E site config vs sys count :
  snd (foldVisits (processStep E site config) vs (sys, count))
  = (count + length (List.filter (fun v => isCounted (fst v) (snd v)) vs))%nat.
Proof.
  revert sys count. induction vs as [|[p i] vs IH]; intros sys count; [simpl; lia|].
  rewrite foldVisits_cons.
  pose proof (processStep_count E site config p i sys count) as Hc.
  destruct (processStep E site config p i (sys, count)) as [sys' count'].
  simpl in Hc. subst count'. rewrite IH. simpl List.filter.
  destruct (isCounted p i); simpl; lia.
Qed.

(** X4. The number in the last line of a build that passes the directory
    checks, the input and the templates directory apart from the output
    directory, is the number of markdown files of the input tree, hidden
    ones too, plus the number of its other files whose name does not start
    with a dot, whether or not a page was rendered, written or copied for
    them. *)
Theorem build_counts_files E site config sys input templates :
  apart (InputDir config) (OutputDir config) = true ->
  apart (TemplatesDir config) (OutputDir config) = true ->
  inputRoot site = Some input ->
  templatesRoot site = Some templates ->
  last (console (build E site config sys))
  = Some (processedLine
            (length (List.filter (fun v => isCounted (fst v) (snd v))
                       (visits noSkip (InputDir config) input)))).
Proof.
  intros _ _ Hin Htm.
  rewrite (build_traversed E site config sys input templates Hin Htm).
  unfold println. simpl console. rewrite last_snoc.
  rewrite (traversed_visits E site config sys input Hin).
  now rewrite foldVisits_processStep_count.
Qed.

(** From two file systems that are the same apart from what is in the
    output directory a build leaves the same file system. *)
Lemma fs_build_congr E site config sys1 sys2 input templates :
  inputRoot site = Some input ->
  templatesRoot site = Some templates ->
  OS.RemoveAll (OutputDir config) (fs sys1) = OS.RemoveAll (OutputDir config) (fs sys2) ->
  fs (build E site config sys1) = fs (build E site config sys2).
Proof.
  intros Hin Htm Hfs.
  rewrite !(build_traversed E site config _ input templates Hin Htm).
  rewrite !fs_println.
  assert (Ht : fs (fst (traversed E site config sys1))
               = fs (fst (traversed E site config sys2))).
  { rewrite !(traversed_visits E site config _ input Hin).
    apply foldVisits_processStep_congr.
    unfold resetOutput. rewrite !fs_withFs, !fs_foldVisits_foundStep.
    simpl fs. now rewrite Hfs. }
  apply handleRobotsTxt_congr; [exact Ht|].
  destruct (statUnder _ _ _); auto.
Qed.
(* ===================================================================== *)
(** ** The watcher: when a tick rebuilds and when it does not *)
(* ===================================================================== *)

(** With one entry per path, the entry of a file is determined by its
    path. *)
Lemma files_unique (vs : list (string * node)) p i j :
  NoDup (map fst (List.filter (fun v => negb (IsDir (snd v))) vs)) ->
  In (p, i) vs -> IsDir i = false ->
  In (p, j) vs -> IsDir j = false ->
  i = j.
Proof.
  induction vs as [|[q k] vs IH]; intros Hnd Hi Hdi Hj Hdj; [now destruct Hi|].
  simpl in Hnd. destruct (IsDir k) eqn:Hk; simpl in Hnd.
  - destruct Hi as [Hi | Hi]; [injection Hi as -> ->; congruence|].
    destruct Hj as [Hj | Hj]; [injection Hj as -> ->; congruence|].
    now apply IH.
  - apply NoDup_cons in Hnd as [Hq Hnd].
    assert (Hfile : forall x, In (q, x) vs -> IsDir x = false -> False).
    { intros x Hx Hdx. apply Hq. apply list_elem_of_In. apply in_map_iff.
      exists (q, x). split; [reflexivity|]. apply List.filter_In. split; [exact Hx|].
      simpl. now rewrite Hdx. }
    destruct Hi as [Hi | Hi], Hj as [Hj | Hj].
    + congruence.
    + injection Hi as -> ->. now destruct (Hfile j Hj Hdj).
    + injection Hj as -> ->. now destruct (Hfile i Hi Hdi).
    + now apply IH.
Qed.

(** After [initializeFileMap] for both directories the map covers every
    file of the two trees, if no path stands for two files. *)
Lemma scan_covers config site m p i :
  NoDup (filePaths (InputDir config) (inputRoot site)
         ++ filePaths (TemplatesDir config) (templatesRoot site)) ->
  In (p, i) (visitsOf noSkip (InputDir config) (inputRoot site))
  \/ In (p, i) (visitsOf noSkip (TemplatesDir config) (templatesRoot site)) ->
  IsDir i = false ->
  isNewOrModified
    (initializeFileMap (TemplatesDir config) (templatesRoot site)
       (initializeFileMap (InputDir config) (inputRoot site) m)) p (ModTime i) = false.
Proof.
  intros Hnd Hin Hd. apply NoDup_app in Hnd as (Hni & Hsep & Hnt).
  rewrite !initializeFileMap_visits. unfold isNewOrModified.
  assert (Hfile : forall root tree, In (p, i) (visitsOf noSkip root tree) ->
                                    In p (filePaths root tree)).
  { intros root tree Hv. unfold filePaths. apply in_map_iff. exists (p, i).
    split; [reflexivity|]. apply List.filter_In. split; [exact Hv|].
    simpl. now rewrite Hd. }
  destruct Hin as [Hv | Hv].
  - pose proof (Hfile _ _ Hv) as Hp.
    rewrite foldVisits_initStep_other
      by (intros Ht; apply (Hsep p); now apply list_elem_of_In).
    destruct (foldVisits_initStep_member _ m p Hp) as (j & Hj & Hdj & ->).
    rewrite (files_unique _ p i j Hni Hv Hd Hj Hdj). apply Z.ltb_irrefl.
  - pose proof (Hfile _ _ Hv) as Hp.
    destruct (foldVisits_initStep_member _
                (foldVisits initStep (visitsOf noSkip (InputDir config) (inputRoot site)) m)
                p Hp) as (j & Hj & Hdj & ->).
    rewrite (files_unique _ p i j Hnt Hv Hd Hj Hdj). apply Z.ltb_irrefl.
Qed.

(** So neither walk of a tick finds a change then. *)
Lemma scan_quiet config site m :
  NoDup (filePaths (InputDir config) (inputRoot site)
         ++ filePaths (TemplatesDir config) (templatesRoot site)) ->
  let scanned :=
    initializeFileMap (TemplatesDir config) (templatesRoot site)
      (initializeFileMap (InputDir config) (inputRoot site) m) in
  detectInput site config (noChange scanned) = noChange scanned
  /\ detectTemplates site config (noChange scanned) = noChange scanned.
Proof.
  intros Hnd scanned. split.
  - apply detectInput_clean. intros p i Hv Hw. apply scan_covers; [exact Hnd | | ].
    + left. now apply visitsOf_skipHidden_noSkip.
    + now apply watchedInput_file with p.
  - apply detectTemplates_clean. intros p i Hv Hw. apply scan_covers; [exact Hnd | | ].
    + right. now apply visitsOf_skipHidden_noSkip.
    + now apply watchedTemplate_file with p.
Qed.

(** X6. No rebuild without a change. While the site stays as it is, no
    tick after the start of the watcher rebuilds and none after a rebuild
    does: the state of the watcher and the file system stay what the start,
    or the rebuild, left. (Each path stands for one file.) *)
Theorem no_rebuild_without_change E site config times :
  NoDup (filePaths (InputDir config) (inputRoot site)
         ++ filePaths (TemplatesDir config) (templatesRoot site)) ->
  (forall started sys,
     fst (runTicks E site config times (startWatch E site config started sys))
     = fst (startWatch E site config started sys)
     /\ fs (snd (runTicks E site config times (startWatch E site config started sys)))
        = fs (snd (startWatch E site config started sys)))
  /\ (forall now rebuilt w sys,
        filesChanged (fst (detect site config (lastModified w) sys)) = true ->
        second <= now - lastRebuild w ->
        fst (runTicks E site config times (tick E site config now rebuilt (w, sys)))
        = fst (tick E site config now rebuilt (w, sys))
        /\ fs (snd (runTicks E site config times (tick E site config now rebuilt (w, sys))))
           = fs (snd (tick E site config now rebuilt (w, sys)))).
Proof.
  intros Hnd. split.
  - intros started sys. unfold startWatch.
    destruct (scan_quiet config site ∅ Hnd) as [Hi Ht].
    apply runTicks_quiet; simpl lastModified; [exact Hi | now rewrite Ht].
  - intros now rebuilt w sys Hc Hlate.
    pose proof (tick_rebuild E site config now rebuilt w sys Hc Hlate) as Hw.
    destruct (tick E site config now rebuilt (w, sys)) as [w' sys'].
    simpl in Hw. subst w'. simpl fst. simpl snd.
    destruct (scan_quiet config site
                (seen (fst (detect site config (lastModified w) sys))) Hnd) as [Hi Ht].
    apply runTicks_quiet; simpl lastModified; [exact Hi | now rewrite Ht].
Qed.

(** A walk over a watched file that is new or modified sets the flag, and
    the flag a walk has set names its source. *)
Lemma foldVisits_detects (source : string) (watched : string -> node -> bool)
    (step : string -> node -> Detect -> Detect)
    (step_eq : forall p i d,
        step p i d = if watched p i then checkModified source p i d else d)
    (watched_file : forall p i, watched p i = true -> IsDir i = false)
    vs d p i :
  In (p, i) vs -> watched p i = true ->
  isNewOrModified (seen d) p (ModTime i) = true ->
  filesChanged (foldVisits step vs d) = true.
Proof.
  intros Hin Hw Hn. destruct (filesChanged (foldVisits step vs d)) eqn:Hf; [reflexivity|].
  pose proof (foldVisits_records source watched step step_eq watched_file vs d p i Hin Hw)
    as Hc.
  rewrite (foldVisits_unflagged source watched step step_eq watched_file vs d Hf) in Hc.
  congruence.
Qed.

Lemma foldVisits_source (source : string) (watched : string -> node -> bool)
    (step : string -> node -> Detect -> Detect)
    (step_eq : forall p i d,
        step p i d = if watched p i then checkModified source p i d else d)
    (watched_file : forall p i, watched p i = true -> IsDir i = false)
    vs d :
  filesChanged d = false ->
  filesChanged (foldVisits step vs d) = true ->
  changedSource (foldVisits step vs d) = source.
Proof.
  assert (H : forall vs d,
             (filesChanged d = true -> changedSource d = source) ->
             filesChanged (foldVisits step vs d) = true ->
             changedSource (foldVisits step vs d) = source).
  { clear vs d. induction vs as [|[p i] vs IH]; intros d Hd Hf; [now apply Hd|].
    rewrite foldVisits_cons in *. apply IH; [|exact Hf].
    destruct (step_cases source watched step step_eq watched_file p i d)
      as [[-> _] | (_ & _ & ->)]; [exact Hd | reflexivity]. }
  intros Hd. apply H. congruence.
Qed.

(** X7. A change is found and, when due, rebuilt for. If a watched file of
    the input tree is new or has a later time than the map holds for it, or
    if the input walk finds no change and this is so for a watched template,
    the tick sets the flag and names the source; and if at least a second
    has passed since the last rebuild it prints the two lines, runs [build]
    once, prints the closing line, and sets [lastRebuild]. *)
Theorem change_triggers_rebuild E site config now rebuilt w sys p i :
  (In (p, i) (visitsOf skipHidden (InputDir config) (inputRoot site))
   /\ watchedInput p i = true)
  \/ (filesChanged (detectInput site config (noChange (lastModified w))) = false
      /\ In (p, i) (visitsOf skipHidden (TemplatesDir config) (templatesRoot site))
      /\ watchedTemplate p i = true) ->
  isNewOrModified (lastModified w) p (ModTime i) = true ->
  second <= now - lastRebuild w ->
  filesChanged (fst (detect site config (lastModified w) sys)) = true
  /\ changedSource (fst (detect site config (lastModified w) sys))
     = (if filesChanged (detectInput site config (noChange (lastModified w)))
        then "input files" else "template files")
  /\ lastRebuild (fst (tick E site config now rebuilt (w, sys))) = rebuilt
  /\ snd (tick E site config now rebuilt (w, sys))
     = println (green "Rebuild complete!")
         (build E site config
            (println (cyan "Rebuilding entire site...")
               (println
                  (nl +:+ yellow ("Changes detected in "
                                  +:+ changedSource
                                        (fst (detect site config (lastModified w) sys))
                                  +:+ ":")
                   +:+ " " +:+ changedFile (fst (detect site config (lastModified w) sys)))
                  (snd (detect site config (lastModified w) sys))))).
Proof.
  intros Hchange Hn Hlate.
  assert (Hd : filesChanged (fst (detect site config (lastModified w) sys)) = true
               /\ changedSource (fst (detect site config (lastModified w) sys))
                  = (if filesChanged (detectInput site config (noChange (lastModified w)))
                     then "input files" else "template files")).
  { rewrite detect_walks.
    destruct Hchange as [[Hv Hw] | (Hq & Hv & Hw)].
    - assert (Hf : filesChanged (detectInput site config (noChange (lastModified w))) = true).
      { rewrite detectInput_visits.
        now apply (foldVisits_detects "input files" watchedInput checkInputStep
                     checkInputStep_eq watchedInput_file) with p i. }
      rewrite Hf. cbv iota. split; [exact Hf|].
      rewrite detectInput_visits in *.
      now apply (foldVisits_source "input files" watchedInput checkInputStep
                   checkInputStep_eq watchedInput_file).
    - rewrite Hq. cbv iota. rewrite (detectInput_unflagged _ _ _ Hq).
      assert (Hf : filesChanged (detectTemplates site config (noChange (lastModified w)))
                   = true).
      { rewrite detectTemplates_visits.
        now apply (foldVisits_detects "template files" watchedTemplate checkTemplatesStep
                     checkTemplatesStep_eq watchedTemplate_file) with p i. }
      split; [exact Hf|].
      rewrite detectTemplates_visits in *.
      now apply (foldVisits_source "template files" watchedTemplate checkTemplatesStep
                   checkTemplatesStep_eq watchedTemplate_file). }
  destruct Hd as [Hf Hs]. split; [exact Hf|]. split; [exact Hs|].
  unfold tick. destruct (detect site config (lastModified w) sys) as [d sys'].
  simpl in Hf. simpl fst. simpl snd. rewrite Hf.
  apply Z.leb_le in Hlate. rewrite Hlate. simpl. auto.
Qed.

(** A file the walk of a tick visits in a tree without some entries is
    visited in the tree itself. *)
Lemma visits_prune_files drop info :
  forall path p i,
    In (p, i) (visits skipHidden path (prune drop path info)) -> IsDir i = false ->
    In (p, i) (visits skipHidden path info).
Proof.
  induction info as [t data | t entries IH] using node_nested_ind; intros path p i Hv Hd.
  - exact Hv.
  - rewrite prune_Directory in Hv. rewrite visits_Directory_below in *.
    destruct Hv as [Hv | Hv]; [injection Hv as <- <-; discriminate|]. right.
    unfold skipHidden in *. simpl IsDir in *.
    destruct (HasPrefix (Base path) "." && true); [exact Hv|].
    induction entries as [|[name child] rest IHrest]; [exact Hv|].
    inversion IH as [|? ? Hchild Hrest]; subst. simpl in Hchild.
    simpl pruneEntries in Hv. unfold visitsBelow. simpl flat_map. apply in_or_app.
    destruct (drop (Join [path; name]) child).
    + right. now apply IHrest.
    + unfold visitsBelow in Hv. simpl flat_map in Hv. apply in_app_or in Hv as [Hv | Hv].
      * left. now apply Hchild.
      * right. now apply IHrest.
Qed.

Lemma visitsOf_prune_files drop root tree p i :
  In (p, i) (visitsOf skipHidden root (pruneRoot drop root tree)) -> IsDir i = false ->
  In (p, i) (visitsOf skipHidden root tree).
Proof. destruct tree as [info|]; [apply visits_prune_files | trivial]. Qed.

(** X8. Deleting is not a change. If a tick on a site finds no change, a
    tick on the site after files and directories of its two trees have been
    deleted finds none either: it does not rebuild, and the state of the
    watcher and the file system stay as they are. The pages of deleted
    sources stay in the output until something else changes. *)
Theorem deletion_is_not_detected E site config dropInput dropTemplates
    now rebuilt w sys :
  filesChanged (fst (detect site config (lastModified w) sys)) = false ->
  fst (tick E (withoutEntries dropInput dropTemplates site config) config
         now rebuilt (w, sys)) = w
  /\ fs (snd (tick E (withoutEntries dropInput dropTemplates site config) config
                now rebuilt (w, sys))) = fs sys.
Proof.
  intros Hq. rewrite detect_walks in Hq.
  destruct (filesChanged (detectInput site config (noChange (lastModified w)))) eqn:Hi;
    [congruence|].
  pose proof (detectInput_unflagged _ _ _ Hi) as Hin. rewrite Hin in Hq.
  pose proof (detectTemplates_unflagged _ _ _ Hq) as Htm.
  apply tick_quiet.
  - apply detectInput_clean. intros p i Hv Hw. simpl seen.
    pose proof (foldVisits_records "input files" watchedInput checkInputStep
                  checkInputStep_eq watchedInput_file
                  (visitsOf skipHidden (InputDir config) (inputRoot site))
                  (noChange (lastModified w)) p i) as Hc.
    rewrite <- detectInput_visits, Hin in Hc. apply Hc; [|exact Hw].
    apply (visitsOf_prune_files dropInput); [exact Hv|].
    now apply watchedInput_file with p.
  - rewrite detectTemplates_clean; [reflexivity|]. intros p i Hv Hw. simpl seen.
    pose proof (foldVisits_records "template files" watchedTemplate checkTemplatesStep
                  checkTemplatesStep_eq watchedTemplate_file
                  (visitsOf skipHidden (TemplatesDir config) (templatesRoot site))
                  (noChange (lastModified w)) p i) as Hc.
    rewrite <- detectTemplates_visits, Htm in Hc. apply Hc; [|exact Hw].
    apply (visitsOf_prune_files dropTemplates); [exact Hv|].
    now apply watchedTemplate_file with p.
Qed.

(* ===================================================================== *)
(** ** [isMarkdownFile]: the extension and the end of the path *)
(* ===================================================================== *)

Lemma sliceTo_sliceFrom n s : sliceTo n s +:+ sliceFrom n s = s.
Proof.
  revert s. induction n as [|n IH]; intros s; [reflexivity|].
  destruct s as [|c s]; [reflexivity|]. simpl. rewrite append_cons. now rewrite IH.
Qed.

Lemma HasSuffix_inv t s : HasSuffix t s = true -> exists q, t = q +:+ s.
Proof.
  unfold HasSuffix. intros H. apply andb_true_iff in H as [_ H].
  apply String.eqb_eq in H.
  exists (sliceTo (String.length t - String.length s) t).
  rewrite <- H at 2. symmetry. apply sliceTo_sliceFrom.
Qed.

Lemma HasSuffix_append q s : HasSuffix (q +:+ s) s = true.
Proof.
  unfold HasSuffix. rewrite length_append.
  replace (String.length q + String.length s - String.length s)%nat
    with (String.length q) by lia.
  rewrite sliceFrom_append, String.eqb_refl.
  replace (String.length s <=? String.length q + String.length s)%nat with true
    by (symmetry; apply Nat.leb_le; lia).
  reflexivity.
Qed.

(** Lowering a byte keeps separators and dots, and nothing else becomes
    one. *)
Lemma lowerByte_sep c : isSep (lowerByte c) = isSep c.
Proof. destruct c as [[] [] [] [] [] [] [] []]; reflexivity. Qed.

Lemma lowerByte_dot c : Ascii.eqb (lowerByte c) "." = Ascii.eqb c ".".
Proof. destruct c as [[] [] [] [] [] [] [] []]; reflexivity. Qed.

Lemma lowerByte_idem c : lowerByte (lowerByte c) = lowerByte c.
Proof. destruct c as [[] [] [] [] [] [] [] []]; reflexivity. Qed.

Lemma lowerByte_ascii c :
  (nat_of_ascii (lowerByte c) <? 128)%nat = (nat_of_ascii c <? 128)%nat.
Proof. destruct c as [[] [] [] [] [] [] [] []]; reflexivity. Qed.

Lemma lowerASCII_idem s : lowerASCII (lowerASCII s) = lowerASCII s.
Proof. induction s as [|c s IH]; [reflexivity|]. simpl. now rewrite lowerByte_idem, IH. Qed.

Lemma elements_lowerASCII p : elements (lowerASCII p) = map lowerASCII (elements p).
Proof.
  induction p as [|c p IH]; [reflexivity|].
  simpl. rewrite lowerByte_sep. destruct (isSep c); [now rewrite IH|].
  rewrite IH. now destruct (elements p).
Qed.

Lemma extOf_lowerASCII n : extOf (lowerASCII n) = lowerASCII (extOf n).
Proof.
  induction n as [|c n IH]; [reflexivity|].
  simpl. rewrite IH. destruct (extOf n); [|reflexivity].
  simpl. rewrite lowerByte_dot. now destruct (Ascii.eqb c ".").
Qed.

Lemma last_map {A B} (f : A -> B) (l : list A) : last (map f l) = option_map f (last l).
Proof.
  induction l as [|x l IH]; [reflexivity|].
  destruct l as [|y l]; [reflexivity|]. exact IH.
Qed.

Lemma Ext_lowerASCII p : Ext (lowerASCII p) = lowerASCII (Ext p).
Proof.
  unfold Ext. rewrite elements_lowerASCII, last_map.
  destruct (last (elements p)); [apply extOf_lowerASCII | reflexivity].
Qed.

(** Strings of ASCII bytes: [ToLower] lowers them byte by byte. *)
Lemma isASCII_cons c s :
  isASCII (String c s) = (nat_of_ascii c <? 128)%nat && isASCII s.
Proof. reflexivity. Qed.

Lemma isASCII_append a b : isASCII (a +:+ b) = isASCII a && isASCII b.
Proof.
  induction a as [|c a IH]; [reflexivity|].
  rewrite append_cons, !isASCII_cons, IH. now rewrite andb_assoc.
Qed.

Lemma isASCII_lowerASCII s : isASCII (lowerASCII s) = isASCII s.
Proof.
  induction s as [|c s IH]; [reflexivity|].
  simpl lowerASCII. now rewrite !isASCII_cons, lowerByte_ascii, IH.
Qed.

Lemma ToLower_ASCII s : isASCII s = true -> ToLower s = lowerASCII s.
Proof. intros H. unfold ToLower. now rewrite H. Qed.

(** A path is its elements joined by the separator. *)
Lemma elements_not_nil p : elements p <> [].
Proof.
  destruct p as [|c p]; [discriminate|]. simpl.
  destruct (isSep c); [discriminate|]. now destruct (elements p).
Qed.

Lemma isSep_eq c : isSep c = true -> c = "/"%char.
Proof. unfold isSep, Separator. apply Ascii.eqb_eq. Qed.

Lemma fromElements_elements p : fromElements (elements p) = p.
Proof.
  induction p as [|c p IH]; [reflexivity|].
  simpl. pose proof (elements_not_nil p) as Hne.
  destruct (isSep c) eqn:Hc.
  - apply isSep_eq in Hc as ->.
    destruct (elements p) as [|x xs]; [congruence|].
    rewrite fromElements_cons, IH. reflexivity.
  - destruct (elements p) as [|x [|y ys]]; [congruence| |].
    + change (fromElements [x]) with x in IH. now rewrite <- IH.
    + rewrite fromElements_cons in *. rewrite append_cons. now rewrite IH.
Qed.

Lemma elements_snoc p : exists xs e, elements p = xs ++ [e].
Proof.
  destruct (elements p) as [|x xs] eqn:He using rev_ind.
  - now destruct (elements_not_nil p).
  - now exists xs, x.
Qed.

(** [Ext] of a path ends the path. *)
Lemma Ext_suffix p : exists q, p = q +:+ Ext p.
Proof.
  destruct (elements_snoc p) as (xs & e & He). unfold Ext. rewrite He, last_snoc.
  destruct (extOf_suffix e) as [n Hn].
  exists (fromElements (xs ++ [""]) +:+ n).
  rewrite <- (fromElements_elements p) at 1. rewrite He.
  rewrite <- (append_empty_l e) at 1. rewrite fromElements_snoc_append.
  rewrite Hn at 1. now rewrite append_assoc.
Qed.

(** Text without a separator that is put after a path goes to its last
    element. *)
Lemma elements_app_no_sep q s :
  hasSep s = false ->
  forall xs e, elements q = xs ++ [e] -> elements (q +:+ s) = xs ++ [e +:+ s].
Proof.
  intros Hs. induction q as [|c q IH]; intros xs e He.
  - rewrite append_empty_l, (elements_no_sep s Hs). simpl in He.
    destruct xs as [|x [|y xs]]; try discriminate He. now injection He as <-.
  - rewrite append_cons. simpl in *. destruct (elements_snoc q) as (ys & f & Hq).
    rewrite (IH ys f Hq). rewrite Hq in He. destruct (isSep c).
    + destruct xs as [|x xs]; [destruct ys; discriminate He|].
      injection He as <- He. apply app_inj_tail in He as [<- <-]. reflexivity.
    + destruct ys as [|y ys]; simpl in *.
      * destruct xs as [|x [|z xs]]; try discriminate He. now injection He as <-.
      * destruct xs as [|x xs]; [destruct ys; discriminate He|].
        injection He as <- He. apply app_inj_tail in He as [<- <-]. reflexivity.
Qed.

(** The extension of a name that ends in a dot and text without a dot. *)
Lemma extOf_app_ext e w :
  extOf w = "" -> extOf (e +:+ String "." w) = String "." w.
Proof.
  intros Hw. induction e as [|c e IH].
  - rewrite append_empty_l. simpl. now rewrite Hw.
  - rewrite append_cons. simpl. now rewrite IH.
Qed.

Lemma Ext_app_ext q w :
  extOf w = "" -> hasSep w = false -> Ext (q +:+ String "." w) = String "." w.
Proof.
  intros Hw Hs. destruct (elements_snoc q) as (xs & e & He). unfold Ext.
  rewrite (elements_app_no_sep q (String "." w) Hs xs e He), last_snoc.
  now apply extOf_app_ext.
Qed.

(** So a path has the extension [.w], for [w] without dot and separator,
    exactly when it ends in [.w]. *)
Lemma Ext_eqb_HasSuffix p w :
  extOf w = "" -> hasSep w = false ->
  String.eqb (Ext p) (String "." w) = HasSuffix p (String "." w).
Proof.
  intros Hw Hs. destruct (HasSuffix p (String "." w)) eqn:Hsuf.
  - destruct (HasSuffix_inv _ _ Hsuf) as [q ->].
    rewrite Ext_app_ext by assumption. apply String.eqb_refl.
  - apply String.eqb_neq. intros He. destruct (Ext_suffix p) as [q Hq].
    rewrite He in Hq. rewrite Hq, HasSuffix_append in Hsuf. discriminate.
Qed.

Lemma isASCII_Ext p : isASCII p = true -> isASCII (Ext p) = true.
Proof.
  intros H. destruct (Ext_suffix p) as [q Hq]. rewrite Hq, isASCII_append in H.
  now apply andb_true_iff in H as [_ H].
Qed.

(** The Kelvin sign lowers to [k]: a file with the extension [.mKd] written
    with it is a markdown file. *)
Example isMarkdownFile_kelvin :
  isASCII ("notes.m" +:+ kelvinSign +:+ "d") = false
  /\ ToLower (".m" +:+ kelvinSign +:+ "D") = ".mkd"
  /\ isMarkdownFile ("notes.m" +:+ kelvinSign +:+ "d") = true.
Proof. repeat split; reflexivity. Qed.

(** X9. A path of ASCII bytes is a markdown file exactly when it ends,
    whatever the case of its letters, in [.md], [.markdown], [.mkd] or
    [.mdown]; so the case of the letters of such a path does not matter, and
    with a separator at its end it is none. *)
Theorem isMarkdownFile_by_suffix path :
  isASCII path = true ->
  isMarkdownFile path
  = (HasSuffix (ToLower path) ".md" || HasSuffix (ToLower path) ".markdown"
     || HasSuffix (ToLower path) ".mkd" || HasSuffix (ToLower path) ".mdown")
  /\ isMarkdownFile (ToLower path) = isMarkdownFile path
  /\ isMarkdownFile (path +:+ "/") = false.
Proof.
  intros Hascii.
  assert (H : forall p,
             isASCII p = true ->
             isMarkdownFile p
             = (HasSuffix (lowerASCII p) ".md" || HasSuffix (lowerASCII p) ".markdown"
                || HasSuffix (lowerASCII p) ".mkd" || HasSuffix (lowerASCII p) ".mdown")).
  { intros p Hp. unfold isMarkdownFile.
    rewrite (ToLower_ASCII (Ext p) (isASCII_Ext p Hp)), <- Ext_lowerASCII.
    now rewrite !Ext_eqb_HasSuffix by reflexivity. }
  rewrite (ToLower_ASCII path Hascii).
  split; [now apply H|]. split.
  - rewrite (H (lowerASCII path)) by now rewrite isASCII_lowerASCII.
    now rewrite lowerASCII_idem, <- H.
  - unfold isMarkdownFile. destruct (elements_snoc path) as (xs & e & He).
    unfold Ext.
    assert (Hel : elements (path +:+ "/") = (xs ++ [e]) ++ [""]).
    { rewrite <- He. clear. induction path as [|c p IH]; [reflexivity|].
      rewrite append_cons. simpl. rewrite IH.
      destruct (isSep c); [reflexivity|].
      pose proof (elements_not_nil p). now destruct (elements p). }
    rewrite Hel, last_snoc. reflexivity.
Qed.
(* ===================================================================== *)
(** ** The page path: sources that share a page *)
(* ===================================================================== *)

Lemma isRooted_plainPath_app r ns s :
  ns <> [] -> List.Forall (fun n => isName n = true) ns ->
  isRooted (plainPath r ns +:+ s) = r.
Proof.
  intros Hne Hd. destruct ns as [|d ds]; [congruence|]. destruct r.
  - rewrite plainPath_rooted, append_cons. now rewrite isRooted_String.
  - inversion Hd as [|? ? Hdn _]; subst.
    destruct (fromElements_head d ds Hdn) as (c & t & Hds & Hcs).
    rewrite plainPath_relative, Hds, append_cons. now rewrite isRooted_String.
Qed.

(** [Join] leaves out an empty element. *)
Lemma Join_plainPath_empty r xs m :
  xs <> [] -> List.Forall (fun n => isName n = true) xs -> isName m = true ->
  Join [plainPath r xs; ""; m] = plainPath r (xs ++ [m]).
Proof.
  intros Hne Hxs Hm. unfold Join. rewrite plainPath_not_empty by assumption.
  assert (Hp : JoinWith "/" [plainPath r xs; ""; m]
               = fromElements ((rootMarker r ++ xs) ++ [""; m])).
  { rewrite fromElements_app; [reflexivity | now apply rootMarker_app_not_nil | discriminate]. }
  assert (He : elements (JoinWith "/" [plainPath r xs; ""; m])
               = rootMarker r ++ xs ++ [""; m]).
  { rewrite Hp, <- app_assoc. apply elements_fromElements.
    - destruct r; discriminate || (destruct xs; [congruence | discriminate]).
    - rewrite app_assoc. apply List.Forall_app. split; [now apply rootMarker_no_sep|].
      destruct (isName_inv m Hm) as (_ & _ & _ & Hs). now repeat constructor. }
  unfold Clean. rewrite He.
  change (JoinWith "/" [plainPath r xs; ""; m])
    with (plainPath r xs +:+ String "/" (fromElements [""; m])).
  rewrite isRooted_plainPath_app by assumption.
  rewrite cleanElements_rootMarker by exact Hxs.
  change (cleanElements r (rev xs) [""; m]) with (cleanElements r (rev xs) [m]).
  rewrite <- (app_nil_r [m]).
  rewrite (cleanElements_app_names r (rev xs) [m] []) by now repeat constructor.
  simpl cleanElements. rewrite rev_involutive.
  assert (Hne' : xs ++ [m] <> []) by apply snoc_not_nil.
  destruct r; [now apply (plainPath_slash true)|].
  destruct xs as [|x xs]; [congruence|]. inversion Hxs; subst.
  simpl app. now rewrite fromElements_not_empty.
Qed.

(** The page path of a file that is not named [index.md], before [Join]
    puts the three parts together. *)
Lemma pagePath_other config ri ro ind outd ds f :
  InputDir config = plainPath ri ind -> OutputDir config = plainPath ro outd ->
  ind <> [] -> outd <> [] ->
  List.Forall (fun n => isName n = true) ind ->
  List.Forall (fun n => isName n = true) outd ->
  List.Forall (fun n => isName n = true) ds -> isName f = true ->
  f <> "index.md" ->
  pagePath config (plainPath ri (ind ++ ds ++ [f]))
  = Join [plainPath ro (outd ++ ds); stem f; "index.html"].
Proof.
  intros HI HO Hi Ho Hin Hout Hds Hf Hneq.
  assert (Hinds : List.Forall (fun n => isName n = true) (ind ++ ds))
    by (apply List.Forall_app; now split).
  assert (Houtds : List.Forall (fun n => isName n = true) (outd ++ ds))
    by (apply List.Forall_app; now split).
  assert (Hne : outd ++ ds <> []) by (destruct outd; [congruence | discriminate]).
  unfold pagePath.
  rewrite (outputPath_plain config ri ro ind outd ds f) by assumption.
  unfold outputHTMLPath. rewrite !app_assoc.
  rewrite (Base_plainPath ri (ind ++ ds) f) by assumption.
  apply String.eqb_neq in Hneq. rewrite Hneq.
  rewrite (Ext_plainPath ri (ind ++ ds) f) by assumption. fold (stem f).
  now rewrite (Dir_plainPath ro (outd ++ ds) f) by assumption.
Qed.

Lemma pagePath_index config ri ro ind outd ds :
  InputDir config = plainPath ri ind -> OutputDir config = plainPath ro outd ->
  ind <> [] -> outd <> [] ->
  List.Forall (fun n => isName n = true) ind ->
  List.Forall (fun n => isName n = true) outd ->
  List.Forall (fun n => isName n = true) ds ->
  pagePath config (plainPath ri (ind ++ ds ++ ["index.md"]))
  = plainPath ro (outd ++ ds ++ ["index.html"]).
Proof.
  intros HI HO Hi Ho Hin Hout Hds.
  assert (Hinds : List.Forall (fun n => isName n = true) (ind ++ ds))
    by (apply List.Forall_app; now split).
  assert (Houtds : List.Forall (fun n => isName n = true) (outd ++ ds))
    by (apply List.Forall_app; now split).
  unfold pagePath.
  rewrite (outputPath_plain config ri ro ind outd ds "index.md") by (assumption || reflexivity).
  unfold outputHTMLPath. rewrite !app_assoc.
  rewrite (Base_plainPath ri (ind ++ ds) "index.md") by (assumption || reflexivity).
  simpl String.eqb. cbv iota.
  rewrite (Ext_plainPath ro (outd ++ ds) "index.md") by (assumption || reflexivity).
  change (extOf "index.md") with ".md".
  change "index.md" with ("index" +:+ ".md"). rewrite plainPath_snoc_append.
  rewrite TrimSuffix_append. rewrite <- plainPath_snoc_append. reflexivity.
Qed.

Lemma pagePath_named config ri ro ind outd ds name ext :
  InputDir config = plainPath ri ind -> OutputDir config = plainPath ro outd ->
  ind <> [] -> outd <> [] ->
  List.Forall (fun n => isName n = true) ind ->
  List.Forall (fun n => isName n = true) outd ->
  List.Forall (fun n => isName n = true) ds ->
  isName name = true -> isName (name +:+ ext) = true ->
  extOf (name +:+ ext) = ext -> name +:+ ext <> "index.md" ->
  pagePath config (plainPath ri (ind ++ ds ++ [name +:+ ext]))
  = plainPath ro (outd ++ ds ++ [name; "index.html"]).
Proof.
  intros HI HO Hi Ho Hin Hout Hds Hname Hf Hext Hneq.
  rewrite (pagePath_other config ri ro ind outd ds (name +:+ ext)) by assumption.
  rewrite (stem_name (name +:+ ext) name ext eq_refl Hext).
  rewrite Join_plainPath3; try assumption; try reflexivity.
  - now rewrite <- app_assoc.
  - destruct outd; [congruence | discriminate].
  - apply List.Forall_app; now split.
Qed.

(** X10. Sources that share a page. In one directory the files [name.md],
    [name.markdown] (the name with any extension) and [name/index.md] all
    have the page [name/index.html]: the page path does not tell them apart,
    and a build writes them to the same place one after the other. *)
Theorem pages_share_a_path config ri ro ind outd ds name ext :
  InputDir config = plainPath ri ind -> OutputDir config = plainPath ro outd ->
  ind <> [] -> outd <> [] ->
  List.Forall (fun n => isName n = true) ind ->
  List.Forall (fun n => isName n = true) outd ->
  List.Forall (fun n => isName n = true) ds ->
  isName name = true -> isName (name +:+ ext) = true ->
  extOf (name +:+ ext) = ext -> name +:+ ext <> "index.md" ->
  pagePath config (plainPath ri (ind ++ ds ++ [name +:+ ext]))
  = pagePath config (plainPath ri (ind ++ (ds ++ [name]) ++ ["index.md"]))
  /\ (forall ext',
        isName (name +:+ ext') = true -> extOf (name +:+ ext') = ext' ->
        name +:+ ext' <> "index.md" ->
        pagePath config (plainPath ri (ind ++ ds ++ [name +:+ ext]))
        = pagePath config (plainPath ri (ind ++ ds ++ [name +:+ ext']))).
Proof.
  intros HI HO Hi Ho Hin Hout Hds Hname Hf Hext Hneq.
  rewrite (pagePath_named config ri ro ind outd ds name ext) by assumption.
  split.
  - rewrite (pagePath_index config ri ro ind outd (ds ++ [name]))
      by (assumption || now apply Forall_names_snoc).
    now rewrite <- !app_assoc.
  - intros ext' Hf' Hext' Hneq'.
    now rewrite (pagePath_named config ri ro ind outd ds name ext') by assumption.
Qed.

(** X11. A markdown file whose name is nothing but an extension, as
    [.md], has an empty base name: its page is [index.html] of its own
    directory, the page of [index.md]. *)
Theorem extension_only_page_path config ri ro ind outd ds f :
  InputDir config = plainPath ri ind -> OutputDir config = plainPath ro outd ->
  ind <> [] -> outd <> [] ->
  List.Forall (fun n => isName n = true) ind ->
  List.Forall (fun n => isName n = true) outd ->
  List.Forall (fun n => isName n = true) ds ->
  isName f = true -> extOf f = f ->
  pagePath config (plainPath ri (ind ++ ds ++ [f]))
  = plainPath ro (outd ++ ds ++ ["index.html"])
  /\ pagePath config (plainPath ri (ind ++ ds ++ [f]))
     = pagePath config (plainPath ri (ind ++ ds ++ ["index.md"])).
Proof.
  intros HI HO Hi Ho Hin Hout Hds Hf Hext.
  assert (Hneq : f <> "index.md") by (intros ->; discriminate Hext).
  assert (Hpage : pagePath config (plainPath ri (ind ++ ds ++ [f]))
                  = plainPath ro (outd ++ ds ++ ["index.html"])).
  { rewrite (pagePath_other config ri ro ind outd ds f) by assumption.
    assert (Hstem : stem f = "").
    { unfold stem. rewrite Hext. rewrite <- (append_empty_l f) at 1.
      apply TrimSuffix_append. }
    rewrite Hstem. rewrite Join_plainPath_empty; try reflexivity.
    - now rewrite <- app_assoc.
    - destruct outd; [congruence | discriminate].
    - apply List.Forall_app; now split. }
  split; [exact Hpage|].
  now rewrite Hpage, (pagePath_index config ri ro ind outd ds) by assumption.
Qed.

(* ===================================================================== *)
(** ** [os.MkdirAll] and [os.WriteFile] on plain paths *)
(* ===================================================================== *)

Lemma plainPath_not_dot r ns :
  ns <> [] -> List.Forall (fun n => isName n = true) ns ->
  String.eqb (plainPath r ns) "." = false /\ String.eqb (plainPath r ns) "/" = false.
Proof.
  intros Hne Hall. pose proof (relElements_plainPath r ns Hne Hall) as Hr.
  pose proof (elements_plainPath r ns Hne Hall) as He.
  unfold relElements in Hr.
  destruct (String.eqb (plainPath r ns) ".") eqn:H1.
  { destruct r, ns; simpl in Hr; congruence. }
  destruct (String.eqb (plainPath r ns) "/") eqn:H2; [|now split].
  apply String.eqb_eq in H2. rewrite H2 in He. simpl in He.
  destruct r; simpl in He.
  - injection He as He. subst ns. inversion Hall as [|? ? Hn _]; subst. discriminate Hn.
  - subst ns. inversion Hall as [|? ? Hn _]; subst. discriminate Hn.
Qed.

Lemma Stat_plainPath st r ns :
  ns <> [] -> List.Forall (fun n => isName n = true) ns ->
  OS.Stat st (plainPath r ns) = st !! plainPath r ns.
Proof.
  intros Hne Hall. unfold OS.Stat. rewrite Clean_plainPath by assumption.
  destruct (plainPath_not_dot r ns Hne Hall) as [-> ->]. reflexivity.
Qed.

(** A plain path determines its names. *)
Lemma plainPath_inj r xs ys :
  xs <> [] -> ys <> [] ->
  List.Forall (fun n => isName n = true) xs -> List.Forall (fun n => isName n = true) ys ->
  plainPath r xs = plainPath r ys -> xs = ys.
Proof.
  intros Hx Hy Hxs Hys H. apply (f_equal elements) in H.
  rewrite !elements_plainPath in H by assumption. now apply app_inv_head in H.
Qed.

Lemma Join_dirAt r done e :
  List.Forall (fun n => isName n = true) done -> isName e = true ->
  Join [dirAt r done; e] = plainPath r (done ++ [e]).
Proof.
  intros Hd He. destruct done as [|d done].
  - destruct (isName_inv e He) as (H1 & H2 & H3 & H4).
    assert (Hel : elements e = [e]) by now apply elements_no_sep.
    destruct r; simpl dirAt; unfold Join; simpl String.eqb; cbv iota.
    + change (JoinWith "/" ["/"; e]) with (String "/" (String "/" e)).
      unfold Clean. rewrite isRooted_String. simpl isSep. cbv iota.
      simpl elements. rewrite Hel. simpl. rewrite H1, H2, H3. reflexivity.
    + change (JoinWith "/" ["."; e]) with (String "." (String "/" e)).
      unfold Clean. rewrite isRooted_String. simpl isSep. cbv iota.
      simpl elements. rewrite Hel. simpl. rewrite H1, H2, H3. simpl.
      change (fromElements [e]) with e. now rewrite H1.
  - apply Join_plainPath_name; [discriminate | exact Hd | exact He].
Qed.

(** [mkdirDown] on names: it changes the file system only by making
    directories of the path that did not exist, and when it succeeds every
    directory of the path exists. *)
Lemma mkdirDown_plain r rest :
  forall done st,
    List.Forall (fun n => isName n = true) done ->
    List.Forall (fun n => isName n = true) rest ->
    (forall k,
       fst (OS.mkdirDown (dirAt r done) rest st) !! k = st !! k
       \/ (st !! k = None
           /\ fst (OS.mkdirDown (dirAt r done) rest st) !! k = Some EDir
           /\ exists j, (0 < j <= length rest)%nat
                        /\ k = plainPath r (done ++ take j rest)))
    /\ (snd (OS.mkdirDown (dirAt r done) rest st) = true ->
        forall j, (0 < j <= length rest)%nat ->
                  fst (OS.mkdirDown (dirAt r done) rest st)
                  !! plainPath r (done ++ take j rest) = Some EDir).
Proof.
  induction rest as [|e rest IH]; intros done st Hd Hr.
  - simpl. split; [now left | intros _ j Hj; lia].
  - inversion Hr as [|? ? He Hrest]; subst.
    assert (Hde : List.Forall (fun n => isName n = true) (done ++ [e]))
      by now apply Forall_names_snoc.
    assert (Hdir : dirAt r (done ++ [e]) = plainPath r (done ++ [e])).
    { unfold dirAt. now destruct done. }
    assert (Htake : forall j, done ++ take (S j) (e :: rest) = (done ++ [e]) ++ take j rest).
    { intros j. simpl. now rewrite <- app_assoc. }
    simpl OS.mkdirDown. rewrite (Join_dirAt r done e Hd He).
    rewrite Stat_plainPath by (exact Hde || apply snoc_not_nil).
    destruct (st !! plainPath r (done ++ [e])) as [[|data]|] eqn:Hp.
    + destruct (IH (done ++ [e]) st Hde Hrest) as [Ha Hb]. rewrite Hdir in Ha, Hb. split.
      * intros k. destruct (Ha k) as [Hk | (Hn & Hk & j & Hj & ->)]; [now left|].
        right. split; [exact Hn|]. split; [exact Hk|].
        exists (S j). split; [simpl; lia | now rewrite Htake].
      * intros Hok j Hj. destruct j as [|j]; [lia|]. rewrite Htake.
        destruct j as [|j].
        -- simpl take. rewrite app_nil_r.
           destruct (Ha (plainPath r (done ++ [e]))) as [Hk | (Hn & _)]; congruence.
        -- apply (Hb Hok). simpl in Hj. lia.
    + simpl. split; [now left | discriminate].
    + destruct (IH (done ++ [e]) (<[plainPath r (done ++ [e]) := EDir]> st) Hde Hrest)
        as [Ha Hb].
      rewrite Hdir in Ha, Hb.
      assert (Hfirst : fst (OS.mkdirDown (plainPath r (done ++ [e])) rest
                               (<[plainPath r (done ++ [e]) := EDir]> st))
                       !! plainPath r (done ++ [e]) = Some EDir).
      { destruct (Ha (plainPath r (done ++ [e]))) as [Hk | (Hn & _)].
        - now rewrite Hk, lookup_insert_eq.
        - now rewrite lookup_insert_eq in Hn. }
      split.
      * intros k. destruct (decide (k = plainPath r (done ++ [e]))) as [-> | Hne].
        -- right. split; [exact Hp|]. split; [exact Hfirst|].
           exists 1%nat. split; [simpl; lia|]. simpl take. reflexivity.
        -- destruct (Ha k) as [Hk | (Hn & Hk & j & Hj & ->)].
           ++ left. now rewrite Hk, lookup_insert_ne.
           ++ right. rewrite lookup_insert_ne in Hn by congruence.
              split; [exact Hn|]. split; [exact Hk|].
              exists (S j). split; [simpl; lia | now rewrite Htake].
      * intros Hok j Hj. destruct j as [|j]; [lia|]. rewrite Htake.
        destruct j as [|j].
        -- simpl take. now rewrite app_nil_r.
        -- apply (Hb Hok). simpl in Hj. lia.
Qed.

Lemma MkdirAll_plain r ns st :
  ns <> [] -> List.Forall (fun n => isName n = true) ns ->
  OS.MkdirAll (plainPath r ns) st = OS.mkdirDown (dirAt r []) ns st.
Proof.
  intros Hne Hall. unfold OS.MkdirAll, OS.startDir, OS.below.
  rewrite Clean_plainPath, isRooted_plainPath, elements_plainPath by assumption.
  now destruct r.
Qed.

(** [os.MkdirAll] of a plain path: what it changes, and what holds when it
    succeeds. *)
Lemma MkdirAll_changes r ns st k :
  ns <> [] -> List.Forall (fun n => isName n = true) ns ->
  fst (OS.MkdirAll (plainPath r ns) st) !! k = st !! k
  \/ (st !! k = None
      /\ fst (OS.MkdirAll (plainPath r ns) st) !! k = Some EDir
      /\ exists j, (0 < j <= length ns)%nat /\ k = plainPath r (take j ns)).
Proof.
  intros Hne Hall. rewrite MkdirAll_plain by assumption.
  destruct (mkdirDown_plain r ns [] st (List.Forall_nil _) Hall) as [Ha _].
  exact (Ha k).
Qed.

Lemma MkdirAll_made r ns st :
  ns <> [] -> List.Forall (fun n => isName n = true) ns ->
  snd (OS.MkdirAll (plainPath r ns) st) = true ->
  fst (OS.MkdirAll (plainPath r ns) st) !! plainPath r ns = Some EDir.
Proof.
  intros Hne Hall Hok. rewrite MkdirAll_plain in * by assumption.
  destruct (mkdirDown_plain r ns [] st (List.Forall_nil _) Hall) as [_ Hb].
  specialize (Hb Hok (length ns)). rewrite firstn_all in Hb. apply Hb.
  destruct ns; [congruence | simpl; lia].
Qed.

(** After the directory of a plain path has been made, a file can be
    written at the path unless a directory stands there. *)
Lemma WriteFile_after_MkdirAll r ds f data st :
  ds <> [] -> List.Forall (fun n => isName n = true) ds -> isName f = true ->
  snd (OS.MkdirAll (plainPath r ds) st) = true ->
  st !! plainPath r (ds ++ [f]) <> Some EDir ->
  fst (OS.WriteFile (plainPath r (ds ++ [f])) data
         (fst (OS.MkdirAll (plainPath r ds) st)))
  !! plainPath r (ds ++ [f]) = Some (EFile data).
Proof.
  intros Hne Hd Hf Hok Hfree.
  assert (Hall : List.Forall (fun n => isName n = true) (ds ++ [f]))
    by now apply Forall_names_snoc.
  pose proof (WriteFile_lookup (plainPath r (ds ++ [f])) data
                (fst (OS.MkdirAll (plainPath r ds) st))) as Hw.
  rewrite Clean_plainPath in Hw by (apply snoc_not_nil || exact Hall).
  apply Hw. unfold OS.canCreate.
  rewrite Dir_plainPath by assumption.
  rewrite !Stat_plainPath by (assumption || apply snoc_not_nil).
  rewrite (MkdirAll_made r ds st Hne Hd Hok).
  destruct (MkdirAll_changes r ds st (plainPath r (ds ++ [f])) Hne Hd)
    as [Hk | (_ & _ & j & Hj & Hk)].
  - rewrite Hk. destruct (st !! plainPath r (ds ++ [f])) as [[|]|]; congruence.
  - exfalso. apply plainPath_inj in Hk; try assumption.
    + apply (f_equal (@length string)) in Hk. rewrite length_app, length_take in Hk.
      simpl in Hk. lia.
    + apply snoc_not_nil.
    + destruct ds; [congruence|]. destruct j; [lia | discriminate].
    + now apply Forall_take.
Qed.

(* ===================================================================== *)
(** ** [build]: what the traversal writes for a file *)
(* ===================================================================== *)

(** X12. A file of the input tree that is not markdown and whose name does
    not start with a dot is copied: if the directories of its place in the
    output tree can be made and no directory stands at that place, the
    traversal leaves a file with the same bytes at [output/d1/.../dk/f] for
    the file [input/d1/.../dk/f], and counts it. *)
Theorem asset_is_copied E site config ri ro ind outd ds f t data sys count :
  InputDir config = plainPath ri ind -> OutputDir config = plainPath ro outd ->
  ind <> [] -> outd <> [] ->
  List.Forall (fun n => isName n = true) ind ->
  List.Forall (fun n => isName n = true) outd ->
  List.Forall (fun n => isName n = true) ds -> isName f = true ->
  isMarkdownFile (plainPath ri (ind ++ ds ++ [f])) = false ->
  HasPrefix f "." = false ->
  snd (OS.MkdirAll (plainPath ro (outd ++ ds)) (fs sys)) = true ->
  fs sys !! plainPath ro (outd ++ ds ++ [f]) <> Some EDir ->
  fs (fst (fst (processFn E site config (plainPath ri (ind ++ ds ++ [f]))
                  (File t data) (sys, count))))
  !! plainPath ro (outd ++ ds ++ [f]) = Some (EFile data)
  /\ snd (fst (processFn E site config (plainPath ri (ind ++ ds ++ [f]))
                 (File t data) (sys, count))) = Datatypes.S count.
Proof.
  intros HI HO Hi Ho Hin Hout Hds Hf Hmd Hdot Hok Hfree.
  assert (Hinds : List.Forall (fun n => isName n = true) (ind ++ ds))
    by (apply List.Forall_app; now split).
  assert (Houtds : List.Forall (fun n => isName n = true) (outd ++ ds))
    by (apply List.Forall_app; now split).
  assert (Hne : outd ++ ds <> []) by (destruct outd; [congruence | discriminate]).
  unfold processFn. simpl IsDir. cbv iota. rewrite Hmd.
  rewrite (outputPath_plain config ri ro ind outd ds f) by assumption.
  rewrite (app_assoc ind ds [f]), (Base_plainPath ri (ind ++ ds) f) by assumption.
  rewrite Hdot. simpl negb. cbv iota. simpl. split; [|reflexivity].
  rewrite (app_assoc outd ds [f]) in *.
  rewrite (Dir_plainPath ro (outd ++ ds) f) by assumption.
  now apply WriteFile_after_MkdirAll.
Qed.

(** What [renderMarkdown] leaves in the file system when the conversion
    and the template succeed. *)
Lemma fs_renderMarkdown_page E site inputPath t data outputPath templatesDir sys
    frontMatter markdownContent printed htmlContent tmpl out :
  parseFrontMatter E data = (frontMatter, markdownContent, printed) ->
  Convert E markdownContent = inl htmlContent ->
  ParseFiles E (Join [templatesDir;
                      if String.eqb (Template frontMatter) "" then "default.html"
                      else Template frontMatter]) = inl tmpl ->
  Execute E tmpl (templateData frontMatter htmlContent) = inl out ->
  fs (renderMarkdown E site inputPath (File t data) outputPath templatesDir sys)
  = fst (OS.WriteFile (outputHTMLPath outputPath inputPath) out
           (fst (OS.MkdirAll (Dir (outputHTMLPath outputPath inputPath)) (fs sys)))).
Proof.
  intros Hparse Hconv Hload Hexec. unfold renderMarkdown. simpl ReadFile. cbv iota.
  rewrite Hparse, Hconv, Hload, Hexec. now rewrite fs_writeHTMLFile.
Qed.

(** X13. A markdown file is rendered to its page. For the file
    [input/d1/.../dk/f], named [index.md] or with a plain base name: if the
    conversion succeeds, the template named in the front matter
    ([default.html] if it names none) loads and its execution with the
    template data gives [out], then, if the directories of the page path
    can be made and no directory stands at the page path, the traversal
    leaves [out] at the page path and counts the file. *)
Theorem page_is_rendered E site config ri ro ind outd ds f t data sys count
    frontMatter markdownContent printed htmlContent tmpl out :
  InputDir config = plainPath ri ind -> OutputDir config = plainPath ro outd ->
  ind <> [] -> outd <> [] ->
  List.Forall (fun n => isName n = true) ind ->
  List.Forall (fun n => isName n = true) outd ->
  List.Forall (fun n => isName n = true) ds -> isName f = true ->
  f = "index.md" \/ isName (stem f) = true ->
  isMarkdownFile (plainPath ri (ind ++ ds ++ [f])) = true ->
  parseFrontMatter E data = (frontMatter, markdownContent, printed) ->
  Convert E markdownContent = inl htmlContent ->
  ParseFiles E (Join [TemplatesDir config;
                      if String.eqb (Template frontMatter) "" then "default.html"
                      else Template frontMatter]) = inl tmpl ->
  Execute E tmpl (templateData frontMatter htmlContent) = inl out ->
  snd (OS.MkdirAll (Dir (pagePath config (plainPath ri (ind ++ ds ++ [f])))) (fs sys))
  = true ->
  fs sys !! pagePath config (plainPath ri (ind ++ ds ++ [f])) <> Some EDir ->
  fs (fst (fst (processFn E site config (plainPath ri (ind ++ ds ++ [f]))
                  (File t data) (sys, count))))
  !! pagePath config (plainPath ri (ind ++ ds ++ [f])) = Some (EFile out)
  /\ snd (fst (processFn E site config (plainPath ri (ind ++ ds ++ [f]))
                 (File t data) (sys, count))) = Datatypes.S count.
Proof.
  intros HI HO Hi Ho Hin Hout Hds Hf Hstem Hmd Hparse Hconv Hload Hexec Hok Hfree.
  assert (Houtds : List.Forall (fun n => isName n = true) (outd ++ ds))
    by (apply List.Forall_app; now split).
  assert (Hne : outd ++ ds <> []) by (destruct outd; [congruence | discriminate]).
  unfold processFn. simpl IsDir. cbv iota. rewrite Hmd. simpl. split; [|reflexivity].
  rewrite (fs_renderMarkdown_page E site _ t data _ _ sys frontMatter markdownContent
             printed htmlContent tmpl out Hparse Hconv Hload Hexec).
  fold (pagePath config (plainPath ri (ind ++ ds ++ [f]))).
  assert (Hpage : exists ys,
             pagePath config (plainPath ri (ind ++ ds ++ [f]))
             = plainPath ro (ys ++ ["index.html"])
             /\ ys <> [] /\ List.Forall (fun n => isName n = true) ys).
  { destruct (string_dec f "index.md") as [-> | Hneq].
    - exists (outd ++ ds). rewrite (pagePath_index config ri ro ind outd ds) by assumption.
      now rewrite app_assoc.
    - destruct Hstem as [-> | Hstem]; [congruence|].
      exists ((outd ++ ds) ++ [stem f]).
      rewrite (pagePath_other config ri ro ind outd ds f) by assumption.
      rewrite Join_plainPath3 by (assumption || reflexivity).
      split; [now rewrite <- !app_assoc|]. split; [apply snoc_not_nil|].
      now apply Forall_names_snoc. }
  destruct Hpage as (ys & Hpage & Hys & Hall). rewrite Hpage in *.
  rewrite (Dir_plainPath ro ys "index.html") in * by (assumption || reflexivity).
  now apply WriteFile_after_MkdirAll.
Qed.

(* ===================================================================== *)
(** ** [build] writes below the output directory *)
(* ===================================================================== *)

Lemma confinedTo_refl r outd st : confinedTo r outd st st.
Proof. intros k _. now left. Qed.

Lemma confinedTo_trans r outd st1 st2 st3 :
  confinedTo r outd st1 st2 -> confinedTo r outd st2 st3 -> confinedTo r outd st1 st3.
Proof.
  intros H12 H23 k Hk.
  destruct (H12 k Hk) as [H1 | (Hn1 & Hd1 & Hj1)], (H23 k Hk) as [H2 | (Hn2 & Hd2 & Hj2)].
  - left. congruence.
  - right. split; [congruence|]. now split.
  - right. split; [exact Hn1|]. split; [congruence | exact Hj1].
  - congruence.
Qed.

Lemma within_plainPath r outd ys :
  outd <> [] ->
  List.Forall (fun n => isName n = true) outd ->
  OS.within (plainPath r outd) (plainPath r (outd ++ ys)) = true.
Proof.
  intros Hne Hall. unfold OS.within. rewrite Clean_plainPath by assumption.
  destruct ys as [|y ys].
  - rewrite app_nil_r, String.eqb_refl. reflexivity.
  - destruct (plainPath_not_dot r outd Hne Hall) as [_ ->].
    rewrite plainPath_app by (assumption || discriminate).
    change (plainPath r outd +:+ String "/" (fromElements (y :: ys)))
      with (plainPath r outd +:+ "/" +:+ fromElements (y :: ys)).
    rewrite <- append_assoc, HasPrefix_append. apply orb_true_r.
Qed.

Lemma elements_app_slash a t : elements (a +:+ String "/" t) = elements a ++ elements t.
Proof.
  induction a as [|c a IH]; [reflexivity|].
  rewrite append_cons. simpl. rewrite IH. destruct (isSep c); [reflexivity|].
  pose proof (elements_not_nil a). now destruct (elements a).
Qed.

(** A plain path does not end in a [.] element: [os.RemoveAll] takes it. *)
Lemma endsWithDot_plainPath r ns :
  ns <> [] -> List.Forall (fun n => isName n = true) ns ->
  OS.endsWithDot (plainPath r ns) = false.
Proof.
  intros Hne Hall. unfold OS.endsWithDot.
  rewrite (proj1 (plainPath_not_dot r ns Hne Hall)). simpl.
  destruct (HasSuffix (plainPath r ns) "/.") eqn:Hs; [|reflexivity].
  exfalso. destruct (HasSuffix_inv _ _ Hs) as [q Hq].
  pose proof (elements_plainPath r ns Hne Hall) as He.
  rewrite Hq in He. change (q +:+ "/.") with (q +:+ String "/" ".") in He.
  rewrite elements_app_slash in He. change (elements ".") with ["."] in He.
  destruct ns as [|n ns _] using rev_ind; [congruence|].
  rewrite app_assoc in He. apply app_inj_tail in He as [_ <-].
  apply List.Forall_app in Hall as [_ Hn]. inversion Hn as [|? ? Hd _]. discriminate Hd.
Qed.

Lemma RemoveAll_plain r ns st :
  ns <> [] -> List.Forall (fun n => isName n = true) ns ->
  OS.RemoveAll (plainPath r ns) st
  = filter (fun kv : string * entry => negb (OS.within (plainPath r ns) kv.1)) st.
Proof. intros Hne Hall. unfold OS.RemoveAll. now rewrite endsWithDot_plainPath. Qed.

Lemma RemoveAll_outside path st k :
  OS.within path k = false -> OS.RemoveAll path st !! k = st !! k.
Proof.
  intros Hk. unfold OS.RemoveAll. destruct (OS.endsWithDot path); [reflexivity|].
  destruct (st !! k) as [x|] eqn:Hx.
  - apply map_lookup_filter_Some. split; [exact Hx|]. simpl. now rewrite Hk.
  - apply map_lookup_filter_None. now left.
Qed.

Lemma MkdirAll_confined r outd ys st :
  outd <> [] ->
  List.Forall (fun n => isName n = true) outd ->
  List.Forall (fun n => isName n = true) ys ->
  confinedTo r outd st (fst (OS.MkdirAll (plainPath r (outd ++ ys)) st)).
Proof.
  intros Hne Hout Hys k Hk.
  assert (Hall : List.Forall (fun n => isName n = true) (outd ++ ys))
    by (apply List.Forall_app; now split).
  assert (Hne' : outd ++ ys <> []) by (destruct outd; [congruence | discriminate]).
  destruct (MkdirAll_changes r (outd ++ ys) st k Hne' Hall)
    as [Heq | (Hn & Hd & j & Hj & ->)]; [now left|].
  right. split; [exact Hn|]. split; [exact Hd|].
  destruct (le_lt_dec (length outd) j) as [Hge | Hlt].
  - rewrite take_app_ge in Hk by exact Hge.
    rewrite within_plainPath in Hk by assumption. discriminate.
  - exists j. split; [lia|]. rewrite take_app_le by lia. reflexivity.
Qed.

Lemma WriteFile_confined r outd ys data st :
  outd <> [] ->
  List.Forall (fun n => isName n = true) outd ->
  List.Forall (fun n => isName n = true) ys ->
  confinedTo r outd st (fst (OS.WriteFile (plainPath r (outd ++ ys)) data st)).
Proof.
  intros Hne Hout Hys k Hk. left.
  assert (Hall : List.Forall (fun n => isName n = true) (outd ++ ys))
    by (apply List.Forall_app; now split).
  assert (Hne' : outd ++ ys <> []) by (destruct outd; [congruence | discriminate]).
  unfold OS.WriteFile. destruct (OS.canCreate st _); [|reflexivity].
  simpl. rewrite Clean_plainPath by assumption.
  apply lookup_insert_ne. intros <-.
  rewrite within_plainPath in Hk by assumption. discriminate.
Qed.

Lemma copyFile_confined r outd ys info st :
  outd <> [] ->
  List.Forall (fun n => isName n = true) outd ->
  List.Forall (fun n => isName n = true) ys ->
  confinedTo r outd st (fst (copyFile info (plainPath r (outd ++ ys)) st)).
Proof.
  intros Hne Hout Hys. destruct info as [[t data | t entries]|]; simpl.
  - now apply WriteFile_confined.
  - now apply WriteFile_confined.
  - apply confinedTo_refl.
Qed.

(** [Clean] of a plain path followed by further elements. *)
Lemma Clean_plainPath_then r xs tl :
  xs <> [] -> List.Forall (fun n => isName n = true) xs ->
  tl <> [] -> List.Forall (fun n => hasSep n = false) tl ->
  Clean (plainPath r xs +:+ String "/" (fromElements tl))
  = (if r then "/" +:+ fromElements (cleanElements r (rev xs) tl)
     else if String.eqb (fromElements (cleanElements r (rev xs) tl)) "" then "."
          else fromElements (cleanElements r (rev xs) tl)).
Proof.
  intros Hne Hxs Htl Hsep.
  assert (Hp : plainPath r xs +:+ String "/" (fromElements tl)
               = fromElements ((rootMarker r ++ xs) ++ tl)).
  { rewrite fromElements_app; [reflexivity | now apply rootMarker_app_not_nil | exact Htl]. }
  assert (He : elements (plainPath r xs +:+ String "/" (fromElements tl))
               = rootMarker r ++ xs ++ tl).
  { rewrite Hp, <- app_assoc. apply elements_fromElements.
    - destruct r; discriminate || (destruct xs; [congruence | discriminate]).
    - rewrite app_assoc. apply List.Forall_app. split; [now apply rootMarker_no_sep|].
      exact Hsep. }
  unfold Clean. rewrite He, isRooted_plainPath_app by assumption.
  now rewrite cleanElements_rootMarker by exact Hxs.
Qed.

Lemma Join_plainPath_then r xs tl :
  xs <> [] -> List.Forall (fun n => isName n = true) xs ->
  tl <> [] -> List.Forall (fun n => hasSep n = false) tl ->
  Join (plainPath r xs :: tl)
  = (if r then "/" +:+ fromElements (cleanElements r (rev xs) tl)
     else if String.eqb (fromElements (cleanElements r (rev xs) tl)) "" then "."
          else fromElements (cleanElements r (rev xs) tl)).
Proof.
  intros Hne Hxs Htl Hsep. unfold Join. rewrite plainPath_not_empty by assumption.
  destruct tl as [|t tl]; [congruence|].
  change (JoinWith "/" (plainPath r xs :: t :: tl))
    with (plainPath r xs +:+ String "/" (fromElements (t :: tl))).
  now apply Clean_plainPath_then.
Qed.

Lemma plainPath_of_names (r : bool) ns :
  ns <> [] -> List.Forall (fun n => isName n = true) ns ->
  (if r then "/" +:+ fromElements ns
   else if String.eqb (fromElements ns) "" then "." else fromElements ns)
  = plainPath r ns.
Proof.
  intros Hne Hall. destruct r; [now apply (plainPath_slash true)|].
  destruct ns as [|n ns]; [congruence|]. inversion Hall; subst.
  now rewrite fromElements_not_empty.
Qed.

(** [Join] with [.] gives the path itself; an element [.] or an empty
    element before a name is left out; an element [..] before a name takes
    the last name of the path away. *)
Lemma Join_plainPath_dot r xs :
  xs <> [] -> List.Forall (fun n => isName n = true) xs ->
  Join [plainPath r xs; "."] = plainPath r xs.
Proof.
  intros Hne Hxs. rewrite Join_plainPath_then; try assumption;
    [|discriminate | now repeat constructor].
  change (cleanElements r (rev xs) ["."]) with (rev (rev xs)).
  rewrite rev_involutive. now apply plainPath_of_names.
Qed.

Lemma Join_plainPath_skip r xs s m :
  xs <> [] -> List.Forall (fun n => isName n = true) xs -> isName m = true ->
  s = "" \/ s = "." ->
  Join [plainPath r xs; s; m] = plainPath r (xs ++ [m]).
Proof.
  intros Hne Hxs Hm Hs. destruct (isName_inv m Hm) as (_ & _ & _ & Hsep).
  rewrite Join_plainPath_then; try assumption;
    [|discriminate | destruct Hs as [-> | ->]; now repeat constructor].
  assert (Hc : cleanElements r (rev xs) [s; m] = xs ++ [m]).
  { replace (cleanElements r (rev xs) [s; m]) with (cleanElements r (rev xs) [m])
      by (destruct Hs as [-> | ->]; reflexivity).
    rewrite <- (app_nil_r [m]).
    rewrite (cleanElements_app_names r (rev xs) [m] []) by now repeat constructor.
    simpl cleanElements. now rewrite rev_involutive. }
  rewrite Hc. apply plainPath_of_names; [apply snoc_not_nil | now apply Forall_names_snoc].
Qed.

Lemma Join_plainPath_dotdot r xs x m :
  List.Forall (fun n => isName n = true) xs -> isName x = true -> isName m = true ->
  Join [plainPath r (xs ++ [x]); ".."; m] = plainPath r (xs ++ [m]).
Proof.
  intros Hxs Hx Hm. destruct (isName_inv m Hm) as (_ & _ & _ & Hsep).
  destruct (isName_inv x Hx) as (_ & _ & Hx3 & _).
  rewrite Join_plainPath_then;
    [| apply snoc_not_nil | now apply Forall_names_snoc | discriminate
     | now repeat constructor].
  assert (Hc : cleanElements r (rev (xs ++ [x])) [".."; m] = xs ++ [m]).
  { rewrite rev_app_distr. simpl rev. simpl app.
    change (cleanElements r (x :: rev xs) [".."; m])
      with (if String.eqb x ".." then cleanElements r (".." :: x :: rev xs) [m]
            else cleanElements r (rev xs) [m]).
    rewrite Hx3, cleanElements_names by now repeat constructor.
    now rewrite rev_involutive. }
  rewrite Hc. apply plainPath_of_names; [apply snoc_not_nil | now apply Forall_names_snoc].
Qed.

(** The base name [writeHTMLFile] takes from a name. *)
Lemma hasSep_append a b : hasSep (a +:+ b) = hasSep a || hasSep b.
Proof.
  induction a as [|c a IH]; [reflexivity|].
  rewrite append_cons. simpl. rewrite IH. apply orb_assoc.
Qed.

Lemma stem_cases f :
  isName f = true ->
  stem f = "" \/ stem f = "." \/ stem f = ".." \/ isName (stem f) = true.
Proof.
  intros Hf. destruct (isName_inv f Hf) as (_ & _ & _ & Hsep).
  rewrite (stem_extOf f), hasSep_append in Hsep. apply orb_false_iff in Hsep as [Hs _].
  unfold isName. rewrite Hs.
  destruct (String.eqb (stem f) "") eqn:H1; [apply String.eqb_eq in H1; auto|].
  destruct (String.eqb (stem f) ".") eqn:H2; [apply String.eqb_eq in H2; auto|].
  destruct (String.eqb (stem f) "..") eqn:H3; [apply String.eqb_eq in H3; auto|].
  now right; right; right.
Qed.

Lemma stem_dotdot f : stem f = ".." -> HasPrefix f ".." = true.
Proof. intros H. rewrite (stem_extOf f), H. apply HasPrefix_append. Qed.

Lemma isSafeName_inv n :
  isSafeName n = true -> isName n = true /\ HasPrefix n ".." = false.
Proof.
  unfold isSafeName. intros H. apply andb_true_iff in H as [H1 H2].
  split; [exact H1 | now apply negb_true_iff].
Qed.

Lemma safe_names ns :
  List.Forall (fun n => isSafeName n = true) ns -> List.Forall (fun n => isName n = true) ns.
Proof. apply List.Forall_impl. intros n Hn. now apply isSafeName_inv in Hn. Qed.

(** The page of a markdown file with a safe name lies in the output tree,
    in the directory of the file or in a directory below it. *)
Lemma pagePath_in_output config ri ro ind outd ds f :
  InputDir config = plainPath ri ind -> OutputDir config = plainPath ro outd ->
  ind <> [] -> outd <> [] ->
  List.Forall (fun n => isName n = true) ind ->
  List.Forall (fun n => isName n = true) outd ->
  List.Forall (fun n => isName n = true) ds -> isSafeName f = true ->
  exists zs,
    List.Forall (fun n => isName n = true) zs
    /\ pagePath config (plainPath ri (ind ++ ds ++ [f]))
       = plainPath ro (outd ++ zs ++ ["index.html"]).
Proof.
  intros HI HO Hi Ho Hin Hout Hds Hsafe.
  destruct (isSafeName_inv f Hsafe) as [Hf Hdd].
  assert (Houtds : List.Forall (fun n => isName n = true) (outd ++ ds))
    by (apply List.Forall_app; now split).
  assert (Hne : outd ++ ds <> []) by (destruct outd; [congruence | discriminate]).
  destruct (string_dec f "index.md") as [-> | Hneq].
  - exists ds. split; [exact Hds|]. now apply pagePath_index.
  - rewrite (pagePath_other config ri ro ind outd ds f) by assumption.
    destruct (stem_cases f Hf) as [Hs | [Hs | [Hs | Hs]]].
    + exists ds. split; [exact Hds|]. rewrite Hs.
      rewrite Join_plainPath_skip by (assumption || reflexivity || now left).
      now rewrite <- app_assoc.
    + exists ds. split; [exact Hds|]. rewrite Hs.
      rewrite Join_plainPath_skip by (assumption || reflexivity || now right).
      now rewrite <- app_assoc.
    + apply stem_dotdot in Hs. congruence.
    + exists (ds ++ [stem f]). split; [now apply Forall_names_snoc|].
      rewrite Join_plainPath3 by (assumption || reflexivity).
      now rewrite <- !app_assoc.
Qed.

(** The output path [processFn] computes for any entry at or below the
    input directory. *)
Lemma outputPath_any config ri ro ind outd ds :
  InputDir config = plainPath ri ind -> OutputDir config = plainPath ro outd ->
  ind <> [] -> outd <> [] ->
  List.Forall (fun n => isName n = true) ind ->
  List.Forall (fun n => isName n = true) outd ->
  List.Forall (fun n => isName n = true) ds ->
  Join [OutputDir config; default "" (Rel (InputDir config) (plainPath ri (ind ++ ds)))]
  = plainPath ro (outd ++ ds).
Proof.
  intros -> -> Hi Ho Hin Hout Hds. destruct ds as [|d ds].
  - rewrite !app_nil_r. unfold Rel. rewrite String.eqb_refl. simpl default.
    now apply Join_plainPath_dot.
  - rewrite Rel_plainPath by (assumption || discriminate). simpl default.
    apply Join_plainPath; assumption || discriminate.
Qed.

(** The entries of a tree with safe names. *)
Lemma wellNamed_entries t entries :
  wellNamed (Directory t entries) = true ->
  List.Forall (fun ne => isSafeName (fst ne) = true /\ wellNamed (snd ne) = true) entries.
Proof.
  simpl. induction entries as [|[name child] rest IH]; intros H; [constructor|].
  apply andb_true_iff in H as [H Hrest]. apply andb_true_iff in H as [Hn Hc].
  constructor; [now split | now apply IH].
Qed.

(** Every entry the traversal visits in such a tree stands at a plain path
    of safe names below the root of the tree, and only the root stands at
    the path of the root. *)
Lemma visits_wellNamed ri info :
  forall base v,
    base <> [] -> List.Forall (fun n => isName n = true) base ->
    wellNamed info = true ->
    In v (visits noSkip (plainPath ri base) info) ->
    exists ds, fst v = plainPath ri (base ++ ds)
               /\ List.Forall (fun n => isSafeName n = true) ds
               /\ (ds = [] -> snd v = info).
Proof.
  induction info as [t data | t entries IH] using node_nested_ind;
    intros base v Hne Hbase Hwell Hv.
  - destruct Hv as [<- | []]. exists []. rewrite app_nil_r. auto.
  - rewrite visits_Directory_below in Hv. destruct Hv as [<- | Hv].
    { exists []. rewrite app_nil_r. auto. }
    unfold noSkip in Hv. unfold visitsBelow in Hv.
    apply in_flat_map in Hv as ([name child] & Hin & Hv). simpl in Hv.
    pose proof (wellNamed_entries t entries Hwell) as Hentries.
    rewrite List.Forall_forall in IH, Hentries.
    destruct (Hentries _ Hin) as [Hname Hchild]. simpl in Hname, Hchild.
    destruct (isSafeName_inv name Hname) as [Hn _].
    rewrite (Join_plainPath_name ri base name Hne Hbase Hn) in Hv.
    destruct (IH _ Hin (base ++ [name]) v (snoc_not_nil _ _)
                (Forall_names_snoc _ _ Hbase Hn) Hchild Hv) as (ds & Hp & Hds & _).
    exists (name :: ds). rewrite Hp, <- app_assoc. split; [reflexivity|].
    split; [now constructor | discriminate].
Qed.

(** What [renderMarkdown] leaves in the file system: nothing new, or a page
    written by [writeHTMLFile]. *)
Lemma fs_renderMarkdown_cases E site ip info op td sys :
  fs (renderMarkdown E site ip info op td sys) = fs sys
  \/ exists content,
       fs (renderMarkdown E site ip info op td sys)
       = fst (OS.WriteFile (outputHTMLPath op ip) content
                (fst (OS.MkdirAll (Dir (outputHTMLPath op ip)) (fs sys)))).
Proof.
  unfold renderMarkdown.
  destruct (ReadFile ip info) as [content | err]; [|now left].
  destruct (parseFrontMatter E content) as [[fm md] printed].
  destruct (Convert E md) as [html | err]; [|now left].
  right. destruct (ParseFiles E _) as [tmpl | err].
  - destruct (Execute E tmpl _) as [out | err]; eexists; now rewrite fs_writeHTMLFile.
  - eexists. now rewrite fs_writeHTMLFile.
Qed.

Section Confined.

Variables (E : Engine) (site : Site) (config : Configuration).
Variables (ri ro : bool) (ind outd : list string).

Hypothesis HI : InputDir config = plainPath ri ind.
Hypothesis HO : OutputDir config = plainPath ro outd.
Hypothesis Hi : ind <> [].
Hypothesis Ho : outd <> [].
Hypothesis Hin : List.Forall (fun n => isName n = true) ind.
Hypothesis Hout : List.Forall (fun n => isName n = true) outd.

(** A file is written below the output directory after its directory has
    been made. *)
Lemma write_confined zs f data st :
  List.Forall (fun n => isName n = true) zs -> isName f = true ->
  confinedTo ro outd st
    (fst (OS.WriteFile (plainPath ro (outd ++ zs ++ [f])) data
            (fst (OS.MkdirAll (Dir (plainPath ro (outd ++ zs ++ [f]))) st)))).
Proof.
  intros Hzs Hf.
  assert (Houtzs : List.Forall (fun n => isName n = true) (outd ++ zs))
    by (apply List.Forall_app; now split).
  assert (Hne : outd ++ zs <> []) by (destruct outd; [congruence | discriminate]).
  rewrite (app_assoc outd zs [f]), (Dir_plainPath ro (outd ++ zs) f) by assumption.
  rewrite <- (app_assoc outd zs [f]).
  apply (confinedTo_trans ro outd st (fst (OS.MkdirAll (plainPath ro (outd ++ zs)) st))).
  - now apply MkdirAll_confined.
  - apply WriteFile_confined; try assumption. now apply Forall_names_snoc.
Qed.

Lemma processStep_confined ds i sys count :
  List.Forall (fun n => isSafeName n = true) ds ->
  (IsDir i = false -> ds <> []) ->
  confinedTo ro outd (fs sys)
    (fs (fst (processStep E site config (plainPath ri (ind ++ ds)) i (sys, count)))).
Proof.
  intros Hsafe Hfile. pose proof (safe_names ds Hsafe) as Hds.
  unfold processStep, processFn.
  rewrite (outputPath_any config ri ro ind outd ds) by assumption.
  destruct (IsDir i) eqn:Hd.
  - simpl. now apply MkdirAll_confined.
  - specialize (Hfile eq_refl).
    destruct ds as [|d ds] using rev_ind; [congruence|]. clear IHds.
    apply List.Forall_app in Hsafe as [Hsafe Hd1]. inversion Hd1 as [|? ? Hsd _]; subst.
    apply List.Forall_app in Hds as [Hds Hd2]. inversion Hd2 as [|? ? Hnd _]; subst.
    destruct (isMarkdownFile (plainPath ri (ind ++ ds ++ [d]))).
    + simpl.
      destruct (fs_renderMarkdown_cases E site (plainPath ri (ind ++ ds ++ [d])) i
                  (plainPath ro (outd ++ ds ++ [d])) (TemplatesDir config) sys)
        as [-> | [content ->]]; [apply confinedTo_refl|].
      rewrite <- (outputPath_any config ri ro ind outd (ds ++ [d])) at 1 2
        by (assumption || now apply Forall_names_snoc).
      fold (pagePath config (plainPath ri (ind ++ ds ++ [d]))).
      destruct (pagePath_in_output config ri ro ind outd ds d HI HO Hi Ho Hin Hout Hds Hsd)
        as (zs & Hzs & ->).
      now apply write_confined.
    + destruct (negb (HasPrefix (Base (plainPath ri (ind ++ ds ++ [d]))) ".")).
      * simpl. destruct i as [t data | t entries]; [|discriminate]. simpl copyFile.
        now apply write_confined.
      * apply confinedTo_refl.
Qed.

Lemma foldVisits_processStep_confined vs sys count :
  List.Forall (fun v => exists ds, fst v = plainPath ri (ind ++ ds)
                                   /\ List.Forall (fun n => isSafeName n = true) ds
                                   /\ (IsDir (snd v) = false -> ds <> [])) vs ->
  confinedTo ro outd (fs sys)
    (fs (fst (foldVisits (processStep E site config) vs (sys, count)))).
Proof.
  revert sys count. induction vs as [|[p i] vs IH]; intros sys count Hvs.
  - apply confinedTo_refl.
  - inversion Hvs as [|? ? (ds & Hp & Hds & Hf) Hrest]; subst. simpl in Hp, Hf. subst p.
    rewrite foldVisits_cons.
    pose proof (processStep_confined ds i sys count Hds Hf) as Hstep.
    destruct (processStep E site config (plainPath ri (ind ++ ds)) i (sys, count))
      as [sys' count'].
    eapply confinedTo_trans; [exact Hstep|]. now apply IH.
Qed.

Lemma resetOutput_confined sys :
  confinedTo ro outd (fs sys) (fs (resetOutput config sys)).
Proof.
  unfold resetOutput. rewrite !fs_withFs, HO.
  apply (confinedTo_trans ro outd (fs sys) (OS.RemoveAll (plainPath ro outd) (fs sys))).
  - intros k Hk. left. now apply RemoveAll_outside.
  - pose proof (MkdirAll_confined ro outd [] (OS.RemoveAll (plainPath ro outd) (fs sys))
                  Ho Hout (List.Forall_nil _)) as H.
    now rewrite app_nil_r in H.
Qed.

Lemma handleRobotsTxt_confined sys :
  confinedTo ro outd (fs sys)
    (fs (handleRobotsTxt site (InputDir config) (OutputDir config) sys)).
Proof.
  rewrite fs_handleRobotsTxt, HO.
  rewrite (Join_plainPath_name ro outd "robots.txt" Ho Hout eq_refl).
  destruct (statUnder _ _ _) as [info|].
  - apply copyFile_confined; try assumption. now repeat constructor.
  - apply WriteFile_confined; try assumption. now repeat constructor.
Qed.

Lemma build_confined sys :
  (forall input, inputRoot site = Some input ->
                 IsDir input = true /\ wellNamed input = true) ->
  confinedTo ro outd (fs sys) (fs (build E site config sys)).
Proof.
  intros Hsite.
  destruct (inputRoot site) as [input|] eqn:Hinput;
    [|unfold build; rewrite Hinput; apply confinedTo_refl].
  destruct (templatesRoot site) as [templates|] eqn:Htm;
    [|unfold build; rewrite Hinput, Htm; apply confinedTo_refl].
  destruct (Hsite input eq_refl) as [Hdir Hwell].
  rewrite (build_traversed E site config sys input templates Hinput Htm).
  rewrite fs_println.
  eapply confinedTo_trans; [|apply handleRobotsTxt_confined].
  rewrite (traversed_visits E site config sys input Hinput).
  eapply confinedTo_trans; [|apply foldVisits_processStep_confined].
  - eapply confinedTo_trans; [|apply resetOutput_confined].
    rewrite fs_foldVisits_foundStep. apply confinedTo_refl.
  - apply List.Forall_forall. intros v Hv. rewrite HI in Hv.
    destruct (visits_wellNamed ri input ind v Hi Hin Hwell Hv) as (ds & Hp & Hds & Hroot).
    exists ds. split; [exact Hp|]. split; [exact Hds|].
    intros Hf ->. rewrite (Hroot eq_refl) in Hf. congruence.
Qed.

End Confined.

(** X14. A build changes nothing outside the output directory. For an
    input tree that is a directory in which no name begins with two dots
    (and plain input and output paths): every path that is not the output
    directory and not below it holds after the build what it held before,
    except that a directory on the way to the output directory that did not
    exist may have been made. *)
Theorem build_writes_below_output E site config ri ro ind outd sys k :
  InputDir config = plainPath ri ind -> OutputDir config = plainPath ro outd ->
  ind <> [] -> outd <> [] ->
  List.Forall (fun n => isName n = true) ind ->
  List.Forall (fun n => isName n = true) outd ->
  (forall input, inputRoot site = Some input ->
                 IsDir input = true /\ wellNamed input = true) ->
  OS.within (OutputDir config) k = false ->
  fs (build E site config sys) !! k = fs sys !! k
  \/ (fs sys !! k = None /\ fs (build E site config sys) !! k = Some EDir
      /\ exists j, (0 < j < length outd)%nat /\ k = plainPath ro (take j outd)).
Proof.
  intros HI HO Hi Ho Hin Hout Hsite Hk.
  apply (build_confined E site config ri ro ind outd HI HO Hi Ho Hin Hout sys Hsite).
  now rewrite <- HO.
Qed.

(** X15. Building twice is building once: when the directories on the way
    to the output directory exist, a second build of the same site leaves
    the file system of the first. *)
Theorem build_twice E site config ri ro ind outd sys :
  InputDir config = plainPath ri ind -> OutputDir config = plainPath ro outd ->
  ind <> [] -> outd <> [] ->
  List.Forall (fun n => isName n = true) ind ->
  List.Forall (fun n => isName n = true) outd ->
  (forall input, inputRoot site = Some input ->
                 IsDir input = true /\ wellNamed input = true) ->
  (forall j, (0 < j < length outd)%nat ->
             fs sys !! plainPath ro (take j outd) = Some EDir) ->
  fs (build E site config (build E site config sys)) = fs (build E site config sys).
Proof.
  intros HI HO Hi Ho Hin Hout Hsite Hanc.
  destruct (inputRoot site) as [input|] eqn:Hinput;
    [|unfold build; now rewrite Hinput].
  destruct (templatesRoot site) as [templates|] eqn:Htm;
    [|unfold build; now rewrite Hinput, Htm].
  apply (fs_build_congr E site config _ _ input templates Hinput Htm).
  apply map_eq. intros k. destruct (OS.within (OutputDir config) k) eqn:Hk.
  - rewrite HO in *. rewrite !RemoveAll_plain by assumption.
    transitivity (@None entry); [|symmetry];
      apply map_lookup_filter_None; right; intros x _; simpl; now rewrite Hk.
  - rewrite !RemoveAll_outside by exact Hk.
    assert (Hsite' : forall i, inputRoot site = Some i ->
                               IsDir i = true /\ wellNamed i = true)
      by (intros i Heq; apply Hsite; congruence).
    rewrite HO in Hk.
    destruct (build_confined E site config ri ro ind outd HI HO Hi Ho Hin Hout sys
                Hsite' k Hk) as [Heq | (Hn & _ & j & Hj & ->)];
      [exact Heq|].
    rewrite (Hanc j Hj) in Hn. discriminate.
Qed.

(* ===================================================================== *)
(** ** A page that leaves the output directory *)
(* ===================================================================== *)

(** A path beside a directory is not within it. *)
Lemma within_sibling r xs o m :
  List.Forall (fun n => isName n = true) xs -> isName o = true -> isName m = true ->
  m <> o ->
  OS.within (plainPath r (xs ++ [o])) (plainPath r (xs ++ [m])) = false.
Proof.
  intros Hxs Ho Hm Hneq.
  assert (Hxo : List.Forall (fun n => isName n = true) (xs ++ [o]))
    by now apply Forall_names_snoc.
  assert (Hxm : List.Forall (fun n => isName n = true) (xs ++ [m]))
    by now apply Forall_names_snoc.
  unfold OS.within. rewrite Clean_plainPath by (apply snoc_not_nil || assumption).
  destruct (plainPath_not_dot r (xs ++ [o]) (snoc_not_nil _ _) Hxo) as [_ ->].
  apply orb_false_iff. split.
  - apply String.eqb_neq. intros Heq.
    apply plainPath_inj in Heq; try assumption; try apply snoc_not_nil.
    apply app_inj_tail in Heq as [_ Heq]. congruence.
  - destruct (HasPrefix (plainPath r (xs ++ [m])) (plainPath r (xs ++ [o]) +:+ "/"))
      eqn:Hp; [|reflexivity].
    exfalso. destruct (HasPrefix_inv _ _ Hp) as [t Ht].
    apply (f_equal elements) in Ht. rewrite append_assoc in Ht.
    change ("/" +:+ t) with (String "/" t) in Ht.
    rewrite elements_app_slash, !elements_plainPath in Ht
      by (apply snoc_not_nil || assumption).
    apply (f_equal (@length string)) in Ht. rewrite !length_app in Ht. simpl in Ht.
    pose proof (elements_not_nil t). destruct (elements t); [congruence|].
    simpl in Ht. lia.
Qed.

(** X16. A page that leaves the output directory. A file whose base name
    is [..], as the markdown file [...md], has its page one directory up:
    for such a file in a directory of the input tree the page is
    [index.html] of the parent of the mirrored directory, and for such a
    file in the input directory itself the page is [index.html] beside the
    output directory, outside of it. *)
Theorem dotdot_page_leaves_output config ri ro ind outd o f :
  InputDir config = plainPath ri ind ->
  OutputDir config = plainPath ro (outd ++ [o]) ->
  ind <> [] ->
  List.Forall (fun n => isName n = true) ind ->
  List.Forall (fun n => isName n = true) outd -> isName o = true ->
  isName f = true -> stem f = ".." -> o <> "index.html" ->
  pagePath config (plainPath ri (ind ++ [f])) = plainPath ro (outd ++ ["index.html"])
  /\ OS.within (OutputDir config) (pagePath config (plainPath ri (ind ++ [f]))) = false
  /\ (forall ds d,
        List.Forall (fun n => isName n = true) ds -> isName d = true ->
        pagePath config (plainPath ri (ind ++ (ds ++ [d]) ++ [f]))
        = plainPath ro ((outd ++ [o]) ++ ds ++ ["index.html"])).
Proof.
  intros HI HO Hi Hin Hout Ho Hf Hstem Hneq.
  assert (Houto : List.Forall (fun n => isName n = true) (outd ++ [o]))
    by now apply Forall_names_snoc.
  assert (Hnot : f <> "index.md") by (intros ->; discriminate Hstem).
  assert (Hpage : pagePath config (plainPath ri (ind ++ [f]))
                  = plainPath ro (outd ++ ["index.html"])).
  { pose proof (pagePath_other config ri ro ind (outd ++ [o]) [] f HI HO Hi
                  (snoc_not_nil _ _) Hin Houto (List.Forall_nil _) Hf Hnot) as Hp.
    simpl app in Hp. rewrite Hp, Hstem, app_nil_r.
    now apply Join_plainPath_dotdot. }
  split; [exact Hpage|]. split.
  - rewrite Hpage, HO. apply within_sibling; try assumption; [reflexivity | congruence].
  - intros ds d Hds Hd.
    rewrite (pagePath_other config ri ro ind (outd ++ [o]) (ds ++ [d]) f HI HO Hi
               (snoc_not_nil _ _) Hin Houto (Forall_names_snoc _ _ Hds Hd) Hf Hnot).
    rewrite Hstem, (app_assoc (outd ++ [o]) ds [d]).
    rewrite Join_plainPath_dotdot; try assumption; try reflexivity.
    + now rewrite <- app_assoc.
    + apply List.Forall_app; now split.
Qed.

(** Whether a file is watched depends on its path alone. *)
Lemma watchedInput_path p i j :
  watchedInput p i = true -> IsDir j = false -> watchedInput p j = true.
Proof.
  unfold watchedInput, isHiddenOrTmp. intros Hw Hj.
  destruct (HasPrefix (Base p) "."); [discriminate|]. rewrite Hj.
  destruct (IsDir i); [rewrite andb_false_r in Hw; discriminate|]. exact Hw.
Qed.

Lemma watchedTemplate_path p i j :
  watchedTemplate p i = true -> IsDir j = false -> watchedTemplate p j = true.
Proof.
  unfold watchedTemplate, isHidden. intros Hw Hj.
  destruct (HasPrefix (Base p) "."); [discriminate|]. now rewrite Hj.
Qed.

Lemma covered_earlier m p t t' :
  isNewOrModified m p t = false -> t' <= t -> isNewOrModified m p t' = false.
Proof.
  unfold isNewOrModified. destruct (m !! p) as [t0|]; [|discriminate].
  intros H Hle. apply Z.ltb_ge in H. apply Z.ltb_ge. lia.
Qed.

(** X20. Only a later time is a change. If a tick on a site finds no
    change, a tick on another state of the site in which every watched file
    stands at the path of a file of the first state and has the same or an
    earlier time finds none either, whatever the bytes of the files are: it
    does not rebuild, and the state of the watcher and the file system stay
    as they are. *)
Theorem unadvanced_change_is_not_detected E site site' config now rebuilt w sys :
  filesChanged (fst (detect site config (lastModified w) sys)) = false ->
  (forall p i',
     In (p, i') (visitsOf skipHidden (InputDir config) (inputRoot site')) ->
     watchedInput p i' = true ->
     exists i, In (p, i) (visitsOf skipHidden (InputDir config) (inputRoot site))
               /\ IsDir i = false /\ ModTime i' <= ModTime i) ->
  (forall p i',
     In (p, i') (visitsOf skipHidden (TemplatesDir config) (templatesRoot site')) ->
     watchedTemplate p i' = true ->
     exists i, In (p, i) (visitsOf skipHidden (TemplatesDir config) (templatesRoot site))
               /\ IsDir i = false /\ ModTime i' <= ModTime i) ->
  fst (tick E site' config now rebuilt (w, sys)) = w
  /\ fs (snd (tick E site' config now rebuilt (w, sys))) = fs sys.
Proof.
  intros Hq Hinput Htemplates. rewrite detect_walks in Hq.
  destruct (filesChanged (detectInput site config (noChange (lastModified w)))) eqn:Hi;
    [congruence|].
  pose proof (detectInput_unflagged _ _ _ Hi) as Hin. rewrite Hin in Hq.
  pose proof (detectTemplates_unflagged _ _ _ Hq) as Htm.
  apply tick_quiet.
  - apply detectInput_clean. intros p i' Hv Hw. simpl seen.
    destruct (Hinput p i' Hv Hw) as (i & Hvi & Hdi & Hle).
    apply covered_earlier with (ModTime i); [|exact Hle].
    pose proof (foldVisits_records "input files" watchedInput checkInputStep
                  checkInputStep_eq watchedInput_file
                  (visitsOf skipHidden (InputDir config) (inputRoot site))
                  (noChange (lastModified w)) p i) as Hc.
    rewrite <- detectInput_visits, Hin in Hc. apply Hc; [exact Hvi|].
    now apply watchedInput_path with i'.
  - rewrite detectTemplates_clean; [reflexivity|]. intros p i' Hv Hw. simpl seen.
    destruct (Htemplates p i' Hv Hw) as (i & Hvi & Hdi & Hle).
    apply covered_earlier with (ModTime i); [|exact Hle].
    pose proof (foldVisits_records "template files" watchedTemplate checkTemplatesStep
                  checkTemplatesStep_eq watchedTemplate_file
                  (visitsOf skipHidden (TemplatesDir config) (templatesRoot site))
                  (noChange (lastModified w)) p i) as Hc.
    rewrite <- detectTemplates_visits, Htm in Hc. apply Hc; [exact Hvi|].
    now apply watchedTemplate_path with i'.
Qed.

(* ===================================================================== *)
(** ** What the traversal writes stays *)
(* ===================================================================== *)

(** X17. A directory of the input tree is mirrored, whatever its name: the
    traversal makes [output/d1/.../dk] for the directory [input/d1/.../dk]
    if nothing stands in the way, does not count it, and goes on into it. *)
Theorem directory_is_mirrored E site config ri ro ind outd ds t entries sys count :
  InputDir config = plainPath ri ind -> OutputDir config = plainPath ro outd ->
  ind <> [] -> outd <> [] ->
  List.Forall (fun n => isName n = true) ind ->
  List.Forall (fun n => isName n = true) outd ->
  List.Forall (fun n => isName n = true) ds ->
  snd (OS.MkdirAll (plainPath ro (outd ++ ds)) (fs sys)) = true ->
  fs (fst (fst (processFn E site config (plainPath ri (ind ++ ds))
                  (Directory t entries) (sys, count))))
  !! plainPath ro (outd ++ ds) = Some EDir
  /\ processFn E site config (plainPath ri (ind ++ ds)) (Directory t entries) (sys, count)
     = (withFs (fun st => fst (OS.MkdirAll (plainPath ro (outd ++ ds)) st)) sys,
        count, WNil).
Proof.
  intros HI HO Hi Ho Hin Hout Hds Hok.
  assert (Houtds : List.Forall (fun n => isName n = true) (outd ++ ds))
    by (apply List.Forall_app; now split).
  assert (Hne : outd ++ ds <> []) by (destruct outd; [congruence | discriminate]).
  unfold processFn. rewrite (outputPath_any config ri ro ind outd ds) by assumption.
  simpl. split; [|reflexivity]. now apply MkdirAll_made.
Qed.

Section Keeps.

Variables (E : Engine) (site : Site) (config : Configuration).
Variables (ri ro : bool) (ind outd : list string).

Hypothesis HI : InputDir config = plainPath ri ind.
Hypothesis HO : OutputDir config = plainPath ro outd.
Hypothesis Hi : ind <> [].
Hypothesis Ho : outd <> [].
Hypothesis Hin : List.Forall (fun n => isName n = true) ind.
Hypothesis Hout : List.Forall (fun n => isName n = true) outd.

Lemma MkdirAll_keeps ys st K x :
  List.Forall (fun n => isName n = true) ys ->
  st !! K = Some x ->
  fst (OS.MkdirAll (plainPath ro (outd ++ ys)) st) !! K = Some x.
Proof.
  intros Hys HK.
  assert (Hall : List.Forall (fun n => isName n = true) (outd ++ ys))
    by (apply List.Forall_app; now split).
  assert (Hne : outd ++ ys <> []) by (destruct outd; [congruence | discriminate]).
  destruct (MkdirAll_changes ro (outd ++ ys) st K Hne Hall) as [-> | (Hn & _)];
    [exact HK | congruence].
Qed.

Lemma WriteFile_keeps ys data st K x :
  List.Forall (fun n => isName n = true) ys ->
  K <> plainPath ro (outd ++ ys) ->
  st !! K = Some x ->
  fst (OS.WriteFile (plainPath ro (outd ++ ys)) data st) !! K = Some x.
Proof.
  intros Hys Hneq HK.
  assert (Hall : List.Forall (fun n => isName n = true) (outd ++ ys))
    by (apply List.Forall_app; now split).
  assert (Hne : outd ++ ys <> []) by (destruct outd; [congruence | discriminate]).
  unfold OS.WriteFile. destruct (OS.canCreate st _); [|exact HK].
  simpl. rewrite Clean_plainPath by assumption. now rewrite lookup_insert_ne by congruence.
Qed.

Lemma write_keeps zs f data st K x :
  List.Forall (fun n => isName n = true) zs -> isName f = true ->
  K <> plainPath ro (outd ++ zs ++ [f]) ->
  st !! K = Some x ->
  fst (OS.WriteFile (plainPath ro (outd ++ zs ++ [f])) data
         (fst (OS.MkdirAll (Dir (plainPath ro (outd ++ zs ++ [f]))) st)))
  !! K = Some x.
Proof.
  intros Hzs Hf Hneq HK.
  assert (Houtzs : List.Forall (fun n => isName n = true) (outd ++ zs))
    by (apply List.Forall_app; now split).
  assert (Hne : outd ++ zs <> []) by (destruct outd; [congruence | discriminate]).
  apply WriteFile_keeps; [now apply Forall_names_snoc | exact Hneq |].
  rewrite (app_assoc outd zs [f]), (Dir_plainPath ro (outd ++ zs) f) by assumption.
  now apply MkdirAll_keeps.
Qed.

(** The callback of the traversal keeps what is in the file system, apart
    from the path it writes its file to. *)
Lemma processStep_keeps ds i sys count K x :
  List.Forall (fun n => isSafeName n = true) ds ->
  (IsDir i = false -> ds <> []) ->
  writeTarget config (plainPath ri (ind ++ ds)) i <> Some K ->
  fs sys !! K = Some x ->
  fs (fst (processStep E site config (plainPath ri (ind ++ ds)) i (sys, count))) !! K
  = Some x.
Proof.
  intros Hsafe Hfile Htarget HK. pose proof (safe_names ds Hsafe) as Hds.
  unfold processStep, processFn. unfold writeTarget in Htarget.
  rewrite (outputPath_any config ri ro ind outd ds) in * by assumption.
  destruct (IsDir i) eqn:Hd.
  - simpl. now apply MkdirAll_keeps.
  - specialize (Hfile eq_refl).
    destruct ds as [|d ds] using rev_ind; [congruence|]. clear IHds.
    apply List.Forall_app in Hsafe as [Hsafe Hd1]. inversion Hd1 as [|? ? Hsd _]; subst.
    apply List.Forall_app in Hds as [Hds Hd2]. inversion Hd2 as [|? ? Hnd _]; subst.
    destruct (isMarkdownFile (plainPath ri (ind ++ ds ++ [d]))).
    + simpl.
      destruct (fs_renderMarkdown_cases E site (plainPath ri (ind ++ ds ++ [d])) i
                  (plainPath ro (outd ++ ds ++ [d])) (TemplatesDir config) sys)
        as [-> | [content ->]]; [exact HK|].
      rewrite <- (outputPath_any config ri ro ind outd (ds ++ [d])) at 1 2
        by (assumption || now apply Forall_names_snoc).
      fold (pagePath config (plainPath ri (ind ++ ds ++ [d]))).
      destruct (pagePath_in_output config ri ro ind outd ds d HI HO Hi Ho Hin Hout Hds Hsd)
        as (zs & Hzs & Hpage).
      rewrite Hpage in *. apply write_keeps; try assumption; [reflexivity | congruence].
    + destruct (negb (HasPrefix (Base (plainPath ri (ind ++ ds ++ [d]))) ".")).
      * simpl. destruct i as [t data | t entries]; [|discriminate]. simpl copyFile.
        apply write_keeps; try assumption. congruence.
      * exact HK.
Qed.

Lemma foldVisits_processStep_keeps vs sys count K x :
  List.Forall (fun v => exists ds, fst v = plainPath ri (ind ++ ds)
                                   /\ List.Forall (fun n => isSafeName n = true) ds
                                   /\ (IsDir (snd v) = false -> ds <> [])) vs ->
  (forall v, In v vs -> writeTarget config (fst v) (snd v) <> Some K) ->
  fs sys !! K = Some x ->
  fs (fst (foldVisits (processStep E site config) vs (sys, count))) !! K = Some x.
Proof.
  revert sys count. induction vs as [|[p i] vs IH]; intros sys count Hvs Htarget HK.
  - exact HK.
  - inversion Hvs as [|? ? (ds & Hp & Hds & Hf) Hrest]; subst. simpl in Hp, Hf. subst p.
    rewrite foldVisits_cons.
    pose proof (processStep_keeps ds i sys count K x Hds Hf
                  (Htarget _ (or_introl eq_refl)) HK) as Hstep.
    destruct (processStep E site config (plainPath ri (ind ++ ds)) i (sys, count))
      as [sys' count'].
    apply IH; [exact Hrest | | exact Hstep].
    intros v Hv. apply Htarget. now right.
Qed.

Lemma handleRobotsTxt_keeps sys K x :
  K <> Join [OutputDir config; "robots.txt"] ->
  fs sys !! K = Some x ->
  fs (handleRobotsTxt site (InputDir config) (OutputDir config) sys) !! K = Some x.
Proof.
  intros Hneq HK. rewrite fs_handleRobotsTxt. rewrite HO in *.
  rewrite (Join_plainPath_name ro outd "robots.txt" Ho Hout eq_refl) in *.
  assert (Hr : List.Forall (fun n => isName n = true) ["robots.txt"])
    by now repeat constructor.
  destruct (statUnder _ _ _) as [[t data | t entries]|]; simpl;
    now apply WriteFile_keeps.
Qed.

Lemma visits_structure input v :
  IsDir input = true -> wellNamed input = true ->
  In v (visits noSkip (InputDir config) input) ->
  exists ds, fst v = plainPath ri (ind ++ ds)
             /\ List.Forall (fun n => isSafeName n = true) ds
             /\ (IsDir (snd v) = false -> ds <> []).
Proof.
  intros Hdir Hwell Hv. rewrite HI in Hv.
  destruct (visits_wellNamed ri input ind v Hi Hin Hwell Hv) as (ds & Hp & Hds & Hroot).
  exists ds. split; [exact Hp|]. split; [exact Hds|].
  intros Hf ->. rewrite (Hroot eq_refl) in Hf. congruence.
Qed.

Lemma build_keeps sys input templates vs1 vs2 K x :
  inputRoot site = Some input -> templatesRoot site = Some templates ->
  IsDir input = true -> wellNamed input = true ->
  visits noSkip (InputDir config) input = vs1 ++ vs2 ->
  fs (fst (traversedUpTo E site config sys vs1)) !! K = Some x ->
  (forall v, In v vs2 -> writeTarget config (fst v) (snd v) <> Some K) ->
  K <> Join [OutputDir config; "robots.txt"] ->
  fs (build E site config sys) !! K = Some x.
Proof.
  intros Hinput Htm Hdir Hwell Hvs HK Htarget Hrobots.
  rewrite (build_traversed E site config sys input templates Hinput Htm).
  rewrite fs_println. apply handleRobotsTxt_keeps; [exact Hrobots|].
  rewrite (traversed_visits E site config sys input Hinput), Hvs.
  rewrite foldVisits_app.
  unfold traversedUpTo in HK. rewrite Hinput, Walk_foundFn in HK. cbn [fst] in HK.
  rewrite Hvs in HK.
  destruct (foldVisits (processStep E site config) vs1 _) as [sys1 count1].
  apply foldVisits_processStep_keeps; [| exact Htarget | exact HK].
  apply List.Forall_forall. intros v Hv. apply (visits_structure input v Hdir Hwell).
  rewrite Hvs. apply in_or_app. now right.
Qed.

End Keeps.

(** X18. What the traversal has written stays. For an input tree that is
    a directory in which no name begins with two dots, the input and the
    templates directory apart from the output directory: whatever stands at
    a path when the traversal of [build] has handled some of the entries
    stands there after the build, unless one of the entries still to come is
    a file written to that path, or the path is that of [robots.txt] in the
    output directory. Later entries overwrite earlier ones only at their own
    path. *)
Theorem written_file_stays E site config ri ro ind outd sys input templates
    vs1 vs2 K x :
  InputDir config = plainPath ri ind -> OutputDir config = plainPath ro outd ->
  ind <> [] -> outd <> [] ->
  List.Forall (fun n => isName n = true) ind ->
  List.Forall (fun n => isName n = true) outd ->
  apart (InputDir config) (OutputDir config) = true ->
  apart (TemplatesDir config) (OutputDir config) = true ->
  inputRoot site = Some input -> templatesRoot site = Some templates ->
  IsDir input = true -> wellNamed input = true ->
  visits noSkip (InputDir config) input = vs1 ++ vs2 ->
  fs (fst (traversedUpTo E site config sys vs1)) !! K = Some x ->
  (forall v, In v vs2 -> writeTarget config (fst v) (snd v) <> Some K) ->
  K <> Join [OutputDir config; "robots.txt"] ->
  fs (build E site config sys) !! K = Some x.
Proof.
  intros HI HO Hi Ho Hin Hout _ _.
  apply (build_keeps E site config ri ro ind outd HI HO Hi Ho Hin Hout).
Qed.

(* ===================================================================== *)
(** ** [build]: the listing *)
(* ===================================================================== *)

Lemma console_foldVisits_foundStep config vs sys :
  console (foldVisits (foundStep config) vs sys)
  = console sys
    ++ map (fun v => foundLine config (fst v))
         (List.filter (fun v => negb (IsDir (snd v))) vs).
Proof.
  revert sys. induction vs as [|[p i] vs IH]; intros sys.
  - simpl. now rewrite app_nil_r.
  - rewrite foldVisits_cons, IH. unfold foundStep, foundFn. simpl List.filter.
    destruct (negb (IsDir i)); simpl; [|reflexivity].
    now rewrite <- app_assoc.
Qed.

(** The later steps of [build] only add lines. *)
Lemma console_writeHTMLFile op ip content sys :
  exists l, console (writeHTMLFile op ip content sys) = console sys ++ l.
Proof.
  unfold writeHTMLFile. destruct (OS.WriteFile _ content _) as [st [|]];
    eexists; simpl; rewrite <- ?app_assoc; reflexivity.
Qed.

Lemma console_renderMarkdown E site ip info op td sys :
  exists l, console (renderMarkdown E site ip info op td sys) = console sys ++ l.
Proof.
  unfold renderMarkdown.
  destruct (ReadFile ip info) as [content | err]; [|eexists; reflexivity].
  destruct (parseFrontMatter E content) as [[fm md] printed].
  destruct (Convert E md) as [html | err];
    [|eexists; simpl; rewrite <- ?app_assoc; reflexivity].
  destruct (ParseFiles E _) as [tmpl | err]; [destruct (Execute E tmpl _) as [out | err]|].
  all: match goal with
       | |- exists l, console (writeHTMLFile ?a ?b ?c ?s) = _ =>
           destruct (console_writeHTMLFile a b c s) as [l ->]
       end; eexists; simpl; rewrite <- ?app_assoc; reflexivity.
Qed.

Lemma console_processStep E site config p i sys count :
  exists l, console (fst (processStep E site config p i (sys, count))) = console sys ++ l.
Proof.
  unfold processStep, processFn. destruct (IsDir i); [exists []; simpl; now rewrite app_nil_r|].
  destruct (isMarkdownFile p); [apply console_renderMarkdown|].
  destruct (negb (HasPrefix (Base p) ".")); exists []; simpl; now rewrite app_nil_r.
Qed.

Lemma console_foldVisits_processStep E site config vs sys count :
  exists l,
    console (fst (foldVisits (processStep E site config) vs (sys, count)))
    = console sys ++ l.
Proof.
  revert sys count. induction vs as [|[p i] vs IH]; intros sys count.
  - exists []. simpl. now rewrite app_nil_r.
  - rewrite foldVisits_cons.
    destruct (console_processStep E site config p i sys count) as [l1 H1].
    destruct (processStep E site config p i (sys, count)) as [sys' count'].
    destruct (IH sys' count') as [l2 H2]. simpl in H1.
    exists (l1 ++ l2). now rewrite H2, H1, <- app_assoc.
Qed.

Lemma console_handleRobotsTxt site inputDir outputDir sys :
  exists l, console (handleRobotsTxt site inputDir outputDir sys) = console sys ++ l.
Proof.
  unfold handleRobotsTxt. destruct (statUnder _ _ _) as [info|].
  - eexists. reflexivity.
  - destruct (OS.WriteFile _ defaultRobots (fs sys)) as [st [|]]; eexists; reflexivity.
Qed.

(** X21. The listing. A build that passes the directory checks prints,
    after the four lines of the configuration and the heading, one line for
    every file of the input tree in the order of the traversal, hidden files
    and files in hidden directories too, each with its path relative to the
    input directory; the lines of the traversal follow. *)
Theorem build_lists_every_file E site config sys input templates :
  inputRoot site = Some input ->
  templatesRoot site = Some templates ->
  exists rest,
    console (build E site config sys)
    = console (printConfiguration config sys)
      ++ [blue (nl +:+ "Files found in input directory:")]
      ++ map (fun v => foundLine config (fst v))
           (List.filter (fun v => negb (IsDir (snd v)))
              (visits noSkip (InputDir config) input))
      ++ rest.
Proof.
  intros Hin Htm. rewrite (build_traversed E site config sys input templates Hin Htm).
  rewrite (traversed_visits E site config sys input Hin).
  destruct (console_foldVisits_processStep E site config
              (visits noSkip (InputDir config) input)
              (resetOutput config
                 (foldVisits (foundStep config) (visits noSkip (InputDir config) input)
                    (println (blue (nl +:+ "Files found in input directory:"))
                       (printConfiguration config sys)))) 0%nat) as [l1 H1].
  destruct (foldVisits (processStep E site config) _ _) as [sys' count].
  simpl fst in *. simpl snd.
  destruct (console_handleRobotsTxt site (InputDir config) (OutputDir config) sys')
    as [l2 H2].
  exists (l1 ++ l2 ++ [processedLine count]).
  unfold println at 1. cbn [console]. rewrite H2, H1.
  unfold resetOutput, withFs. cbn [console].
  rewrite console_foldVisits_foundStep. unfold println. cbn [console].
  now rewrite <- !app_assoc.
Qed.

(* ===================================================================== *)
(** ** The watcher without its directories *)
(* ===================================================================== *)

Lemma fs_tick_missing E site config now rebuilt w sys :
  inputRoot site = None \/ templatesRoot site = None ->
  fs (snd (tick E site config now rebuilt (w, sys))) = fs sys.
Proof.
  intros Hmissing. unfold tick.
  pose proof (fs_detect site config (lastModified w) sys) as Hd.
  destruct (detect site config (lastModified w) sys) as [d sys']. simpl in Hd.
  destruct (filesChanged d && (second <=? now - lastRebuild w)); [|exact Hd].
  simpl. now rewrite fs_build_missing.
Qed.

(** X19. While nothing exists at the path of the input directory or at
    the path of the templates directory ([os.Stat] reports that the path
    does not exist), the watcher leaves the file system alone: no tick
    changes it, also not a tick that rebuilds, and the output of the last
    good build stays. When it is the input path at which nothing exists,
    every tick prints the error of its walk. *)
Theorem watcher_keeps_output_without_directories E site config times w sys :
  inputRoot site = None \/ templatesRoot site = None ->
  fs (snd (runTicks E site config times (w, sys))) = fs sys
  /\ (inputRoot site = None ->
      forall now rebuilt,
      exists rest,
        console (snd (tick E site config now rebuilt (w, sys)))
        = console sys
          ++ [red "Error:" +:+ " Error checking for file changes: "
              +:+ "lstat " +:+ InputDir config +:+ ": no such file or directory"]
          ++ rest).
Proof.
  intros Hmissing. split.
  - revert w sys. induction times as [|[now rebuilt] times IH]; intros w sys;
      [reflexivity|].
    rewrite runTicks_cons.
    pose proof (fs_tick_missing E site config now rebuilt w sys Hmissing) as Ht.
    destruct (tick E site config now rebuilt (w, sys)) as [w' sys'].
    simpl in Ht. rewrite <- Ht. apply IH.
  - intros Hnone now rebuilt. unfold tick, detect. rewrite Hnone. simpl Walk.
    cbv iota. simpl negb. cbv iota.
    destruct (Walk checkTemplatesFn _ _ _) as [d err].
    assert (Hreport : exists l, forall s, console (reportWalk err s) = console s ++ l).
    { destruct err; [exists [] | exists [] | eexists [_]]; intros s; simpl;
        rewrite ?app_nil_r; reflexivity. }
    destruct Hreport as [l Hl].
    destruct (filesChanged d && (second <=? now - lastRebuild w)).
    + eexists. cbn [snd]. unfold build. rewrite Hnone.
      unfold printConfiguration, println. cbn [console]. rewrite Hl. simpl.
      rewrite <- !app_assoc. reflexivity.
    + eexists. simpl. rewrite Hl. simpl. rewrite <- app_assoc. reflexivity.
Qed.

(* ===================================================================== *)
(** ** The properties on the sample sites *)
(* ===================================================================== *)

Lemma conversion_failure_writes_nothing_witness :
  processFn failingEngine blogSite sampleConfig "input/blog/post.md" (File 0 "post")
    (freshSys, 0%nat)
  = (println "Error: Error converting markdown: render: write failed" freshSys,
     1%nat, WNil).
Proof.
  apply (conversion_failure_writes_nothing failingEngine blogSite sampleConfig
           "input/blog/post.md" 0 "post" freshSys 0%nat emptyFrontMatter "post" []
           "render: write failed" eq_refl eq_refl eq_refl).
Defined.

Lemma build_counts_files_witness :
  last (console (build sampleEngine hiddenEntriesSite sampleConfig emptySys))
  = Some (processedLine 2).
Proof.
  exact (build_counts_files sampleEngine hiddenEntriesSite sampleConfig emptySys _ _
           eq_refl eq_refl eq_refl eq_refl).
Defined.

Lemma no_rebuild_without_change_witness :
  fst (runTicks sampleEngine blogSite sampleConfig
         [(1 * second, 2 * second); (2 * second, 3 * second)]
         (startWatch sampleEngine blogSite sampleConfig 0 emptySys))
  = fst (startWatch sampleEngine blogSite sampleConfig 0 emptySys).
Proof.
  assert (Hnd : NoDup (filePaths (InputDir sampleConfig) (inputRoot blogSite)
                       ++ filePaths (TemplatesDir sampleConfig) (templatesRoot blogSite))).
  { apply (bool_decide_unpack _). vm_compute. exact I. }
  destruct (no_rebuild_without_change sampleEngine blogSite sampleConfig
              [(1 * second, 2 * second); (2 * second, 3 * second)] Hnd) as [Hstart _].
  apply Hstart.
Defined.

Lemma change_triggers_rebuild_witness :
  changedSource (fst (detect bothChangedSite sampleConfig (lastModified seenWatch) emptySys))
  = "input files"
  /\ lastRebuild (fst (tick sampleEngine bothChangedSite sampleConfig
                         (10 * second) (11 * second) (seenWatch, emptySys)))
     = 11 * second.
Proof.
  assert (Hlate : second <= 10 * second - lastRebuild seenWatch)
    by (vm_compute; discriminate).
  destruct (change_triggers_rebuild sampleEngine bothChangedSite sampleConfig
              (10 * second) (11 * second) seenWatch emptySys
              "input/page.md" (File 7 "page2")
              (or_introl (conj (or_intror (or_introl eq_refl)) eq_refl)) eq_refl Hlate)
    as (_ & Hsource & Hrebuilt & _).
  split; [exact Hsource | exact Hrebuilt].
Defined.

Lemma deletion_is_not_detected_witness :
  fst (tick sampleEngine (withoutEntries isThePage keepAll watchedSite sampleConfig)
         sampleConfig (10 * second) (11 * second) (seenWatch, freshSys))
  = seenWatch
  /\ fs (snd (tick sampleEngine (withoutEntries isThePage keepAll watchedSite sampleConfig)
                sampleConfig (10 * second) (11 * second) (seenWatch, freshSys)))
     = fs freshSys.
Proof.
  apply (deletion_is_not_detected sampleEngine watchedSite sampleConfig isThePage keepAll
           (10 * second) (11 * second) seenWatch freshSys).
  reflexivity.
Defined.

Lemma pages_share_a_path_witness :
  pagePath sampleConfig "input/blog/post.md"
  = pagePath sampleConfig "input/blog/post/index.md".
Proof.
  destruct (pages_share_a_path sampleConfig false false ["input"] ["output"] ["blog"]
              "post" ".md" eq_refl eq_refl ltac:(discriminate) ltac:(discriminate)
              ltac:(repeat constructor) ltac:(repeat constructor)
              ltac:(repeat constructor) eq_refl eq_refl eq_refl ltac:(discriminate))
    as [Hshared _].
  exact Hshared.
Defined.

Lemma extension_only_page_path_witness :
  pagePath sampleConfig "input/blog/.md" = "output/blog/index.html".
Proof.
  destruct (extension_only_page_path sampleConfig false false ["input"] ["output"]
              ["blog"] ".md" eq_refl eq_refl ltac:(discriminate) ltac:(discriminate)
              ltac:(repeat constructor) ltac:(repeat constructor)
              ltac:(repeat constructor) eq_refl eq_refl) as [Hpage _].
  exact Hpage.
Defined.

Lemma asset_is_copied_witness :
  fs (fst (fst (processFn sampleEngine blogSite sampleConfig "input/style.css"
                  (File 0 "body {}") (freshSys, 0%nat))))
  !! "output/style.css" = Some (EFile "body {}").
Proof.
  destruct (asset_is_copied sampleEngine blogSite sampleConfig false false
              ["input"] ["output"] [] "style.css" 0 "body {}" freshSys 0%nat
              eq_refl eq_refl ltac:(discriminate) ltac:(discriminate)
              ltac:(repeat constructor) ltac:(repeat constructor)
              ltac:(repeat constructor) eq_refl eq_refl eq_refl eq_refl
              ltac:(discriminate)) as [Hcopy _].
  exact Hcopy.
Defined.

Lemma page_is_rendered_witness :
  fs (fst (fst (processFn sampleEngine blogSite sampleConfig "input/blog/post.md"
                  (File 0 "post") (freshSys, 0%nat))))
  !! "output/blog/post/index.html" = Some (EFile "<main><p>post</p></main>").
Proof.
  destruct (page_is_rendered sampleEngine blogSite sampleConfig false false
              ["input"] ["output"] ["blog"] "post.md" 0 "post" freshSys 0%nat
              emptyFrontMatter "post" [] "<p>post</p>" "templates/default.html"
              "<main><p>post</p></main>"
              eq_refl eq_refl ltac:(discriminate) ltac:(discriminate)
              ltac:(repeat constructor) ltac:(repeat constructor)
              ltac:(repeat constructor) eq_refl (or_intror eq_refl) eq_refl eq_refl
              eq_refl eq_refl eq_refl eq_refl ltac:(discriminate)) as [Hpage _].
  exact Hpage.
Defined.

Lemma build_writes_below_output_witness :
  fs (build sampleEngine blogSite sampleConfig notesSys) !! "notes.txt"
  = Some (EFile "keep").
Proof.
  assert (Hsite : forall input, inputRoot blogSite = Some input ->
                                IsDir input = true /\ wellNamed input = true).
  { intros input H. injection H as <-. split; reflexivity. }
  destruct (build_writes_below_output sampleEngine blogSite sampleConfig false false
              ["input"] ["output"] notesSys "notes.txt" eq_refl eq_refl
              ltac:(discriminate) ltac:(discriminate)
              ltac:(repeat constructor) ltac:(repeat constructor) Hsite eq_refl)
    as [H | (_ & _ & j & Hj & _)].
  - exact H.
  - simpl in Hj. lia.
Defined.

Lemma build_twice_witness :
  fs (build sampleEngine blogSite sampleConfig
        (build sampleEngine blogSite sampleConfig staleSys))
  = fs (build sampleEngine blogSite sampleConfig staleSys).
Proof.
  assert (Hsite : forall input, inputRoot blogSite = Some input ->
                                IsDir input = true /\ wellNamed input = true).
  { intros input H. injection H as <-. split; reflexivity. }
  apply (build_twice sampleEngine blogSite sampleConfig false false ["input"] ["output"]
           staleSys eq_refl eq_refl ltac:(discriminate) ltac:(discriminate)
           ltac:(repeat constructor) ltac:(repeat constructor) Hsite).
  intros j Hj. simpl in Hj. lia.
Defined.

Lemma dotdot_page_leaves_output_witness :
  pagePath sampleConfig "input/...md" = "index.html"
  /\ OS.within "output" (pagePath sampleConfig "input/...md") = false.
Proof.
  destruct (dotdot_page_leaves_output sampleConfig false false ["input"] [] "output"
              "...md" eq_refl eq_refl ltac:(discriminate)
              ltac:(repeat constructor) ltac:(repeat constructor)
              eq_refl eq_refl eq_refl ltac:(discriminate)) as (Hpage & Hout & _).
  split; [exact Hpage | exact Hout].
Defined.

(** The file [...md] on a whole build: it is a markdown file, and its page
    is written beside the output directory. *)
Example build_dotdotSite :
  isMarkdownFile "input/...md" = true
  /\ fs (build sampleEngine dotdotSite sampleConfig emptySys) !! "index.html"
     = Some (EFile "<main><p>up</p></main>")
  /\ fs (build sampleEngine dotdotSite sampleConfig emptySys) !! "output/index.html"
     = None.
Proof. repeat split; vm_compute; reflexivity. Qed.

Lemma directory_is_mirrored_witness :
  fs (fst (fst (processFn sampleEngine hiddenEntriesSite sampleConfig "input/.git"
                  (Directory 0 [("config", File 0 "[core]")]) (freshSys, 0%nat))))
  !! "output/.git" = Some EDir.
Proof.
  destruct (directory_is_mirrored sampleEngine hiddenEntriesSite sampleConfig false false
              ["input"] ["output"] [".git"] 0 [("config", File 0 "[core]")] freshSys 0%nat
              eq_refl eq_refl ltac:(discriminate) ltac:(discriminate)
              ltac:(repeat constructor) ltac:(repeat constructor)
              ltac:(repeat constructor) eq_refl) as [Hdir _].
  exact Hdir.
Defined.

Lemma written_file_stays_witness :
  fs (build sampleEngine blogSite sampleConfig emptySys) !! "output/blog/index.html"
  = Some (EFile "<main><p>hello</p></main>").
Proof.
  apply (written_file_stays sampleEngine blogSite sampleConfig false false
           ["input"] ["output"] emptySys
           (Directory 0
              [("blog", Directory 0 [("index.md", File 0 "hello");
                                     ("post.md", File 0 "post")]);
               ("style.css", File 0 "body {}")])
           sampleTemplates
           [("input", Directory 0
                [("blog", Directory 0 [("index.md", File 0 "hello");
                                       ("post.md", File 0 "post")]);
                 ("style.css", File 0 "body {}")]);
            ("input/blog", Directory 0 [("index.md", File 0 "hello");
                                        ("post.md", File 0 "post")]);
            ("input/blog/index.md", File 0 "hello")]
           [("input/blog/post.md", File 0 "post");
            ("input/style.css", File 0 "body {}")]
           "output/blog/index.html" (EFile "<main><p>hello</p></main>")
           eq_refl eq_refl ltac:(discriminate) ltac:(discriminate)
           ltac:(repeat constructor) ltac:(repeat constructor)
           eq_refl eq_refl eq_refl eq_refl eq_refl eq_refl eq_refl).
  - vm_compute. reflexivity.
  - intros v [<- | [<- | []]]; vm_compute; discriminate.
  - vm_compute. discriminate.
Defined.

Lemma watcher_keeps_output_without_directories_witness :
  fs (snd (runTicks sampleEngine noInputSite sampleConfig
             [(10 * second, 11 * second); (11 * second, 12 * second)]
             (seenWatch, staleSys)))
  = fs staleSys.
Proof.
  destruct (watcher_keeps_output_without_directories sampleEngine noInputSite sampleConfig
              [(10 * second, 11 * second); (11 * second, 12 * second)]
              seenWatch staleSys (or_introl eq_refl)) as [Hfs _].
  exact Hfs.
Defined.

Lemma unadvanced_change_is_not_detected_witness :
  fst (tick sampleEngine restoredSite sampleConfig (10 * second) (11 * second)
         (seenWatch, freshSys))
  = seenWatch
  /\ fs (snd (tick sampleEngine restoredSite sampleConfig (10 * second) (11 * second)
                (seenWatch, freshSys)))
     = fs freshSys.
Proof.
  apply (unadvanced_change_is_not_detected sampleEngine watchedSite restoredSite
           sampleConfig (10 * second) (11 * second) seenWatch freshSys eq_refl).
  - intros p i' [H | [H | []]] Hw; injection H as <- <-; [discriminate Hw|].
    exists (File 1 "page"). split; [vm_compute; tauto|]. split; [reflexivity|].
    vm_compute. discriminate.
  - intros p i' [H | [H | []]] Hw; injection H as <- <-; [discriminate Hw|].
    exists (File 1 "t"). split; [vm_compute; tauto|]. split; [reflexivity|].
    vm_compute. discriminate.
Defined.

Lemma build_lists_every_file_witness :
  exists rest,
    console (build sampleEngine hiddenEntriesSite sampleConfig emptySys)
    = ["Build Configuration:"; "Input directory: input"; "Output directory: output";
       "Templates directory: templates"; nl +:+ "Files found in input directory:";
       "Found: .env"; "Found: .git/config"; "Found: index.md"]
      ++ rest.
Proof.
  destruct (build_lists_every_file sampleEngine hiddenEntriesSite sampleConfig emptySys
              _ _ eq_refl eq_refl) as [rest Hrest].
  exists rest. exact Hrest.
Defined.

(* ===================================================================== *)
(** ** [build]: a file that is in nobody's way reaches the output *)
(* ===================================================================== *)

(** [mkdirDown] succeeds when no file stands at a directory of the path. *)
Lemma mkdirDown_succeeds r rest :
  forall done st,
    List.Forall (fun n => isName n = true) done ->
    List.Forall (fun n => isName n = true) rest ->
    (forall j c, (0 < j <= length rest)%nat ->
                 st !! plainPath r (done ++ take j rest) <> Some (EFile c)) ->
    snd (OS.mkdirDown (dirAt r done) rest st) = true.
Proof.
  induction rest as [|e rest IH]; intros done st Hd Hr Hfree; [reflexivity|].
  inversion Hr as [|? ? He Hrest]; subst.
  assert (Hde : List.Forall (fun n => isName n = true) (done ++ [e]))
    by now apply Forall_names_snoc.
  assert (Hdir : dirAt r (done ++ [e]) = plainPath r (done ++ [e])).
  { unfold dirAt. now destruct done. }
  assert (Htake : forall j, done ++ take (S j) (e :: rest) = (done ++ [e]) ++ take j rest).
  { intros j. simpl. now rewrite <- app_assoc. }
  simpl OS.mkdirDown. rewrite (Join_dirAt r done e Hd He).
  rewrite Stat_plainPath by (exact Hde || apply snoc_not_nil).
  destruct (st !! plainPath r (done ++ [e])) as [[|data]|] eqn:Hp.
  - rewrite <- Hdir. apply IH; try assumption.
    intros j c Hj. rewrite <- Htake. apply Hfree. simpl. lia.
  - exfalso. apply (Hfree 1%nat data); [simpl; lia|]. simpl take. exact Hp.
  - rewrite <- Hdir. apply IH; try assumption.
    intros j c Hj. rewrite Hdir.
    destruct (decide (plainPath r ((done ++ [e]) ++ take j rest) = plainPath r (done ++ [e])))
      as [-> | Hne].
    + now rewrite lookup_insert_eq.
    + rewrite lookup_insert_ne by congruence. rewrite <- Htake. apply Hfree. simpl. lia.
Qed.

Lemma MkdirAll_succeeds r ns st :
  ns <> [] -> List.Forall (fun n => isName n = true) ns ->
  (forall j c, (0 < j <= length ns)%nat ->
               st !! plainPath r (take j ns) <> Some (EFile c)) ->
  snd (OS.MkdirAll (plainPath r ns) st) = true.
Proof.
  intros Hne Hall Hfree. rewrite MkdirAll_plain by assumption.
  now apply (mkdirDown_succeeds r ns [] st (List.Forall_nil _) Hall).
Qed.

Lemma MkdirAll_prefixes r ns st j :
  ns <> [] -> List.Forall (fun n => isName n = true) ns ->
  snd (OS.MkdirAll (plainPath r ns) st) = true ->
  (0 < j <= length ns)%nat ->
  fst (OS.MkdirAll (plainPath r ns) st) !! plainPath r (take j ns) = Some EDir.
Proof.
  intros Hne Hall Hok Hj. rewrite MkdirAll_plain in * by assumption.
  destruct (mkdirDown_plain r ns [] st (List.Forall_nil _) Hall) as [_ Hb].
  exact (Hb Hok j Hj).
Qed.

(** A directory of a plain path is on the way to the path. *)
Lemma within_prefix r ns j :
  List.Forall (fun n => isName n = true) ns -> (0 < j <= length ns)%nat ->
  OS.within (plainPath r (take j ns)) (plainPath r ns) = true.
Proof.
  intros Hall Hj. rewrite <- (take_drop j ns) at 2.
  apply within_plainPath.
  - destruct ns; [simpl in Hj; lia|]. destruct j; [lia | discriminate].
  - now apply Forall_take.
Qed.

Section Reach.

Variables (E : Engine) (site : Site) (config : Configuration).
Variables (ri ro : bool) (ind outd : list string).

Hypothesis HI : InputDir config = plainPath ri ind.
Hypothesis HO : OutputDir config = plainPath ro outd.
Hypothesis Hi : ind <> [].
Hypothesis Ho : outd <> [].
Hypothesis Hin : List.Forall (fun n => isName n = true) ind.
Hypothesis Hout : List.Forall (fun n => isName n = true) outd.

(** What a file write with its directories touches. *)
Lemma write_touches zs f data st k :
  List.Forall (fun n => isName n = true) zs -> isName f = true ->
  fst (OS.WriteFile (plainPath ro (outd ++ zs ++ [f])) data
         (fst (OS.MkdirAll (Dir (plainPath ro (outd ++ zs ++ [f]))) st))) !! k
  = st !! k
  \/ k = plainPath ro (outd ++ zs ++ [f])
  \/ (fst (OS.WriteFile (plainPath ro (outd ++ zs ++ [f])) data
             (fst (OS.MkdirAll (Dir (plainPath ro (outd ++ zs ++ [f]))) st))) !! k
      = Some EDir
      /\ OS.within k (plainPath ro (outd ++ zs ++ [f])) = true).
Proof.
  intros Hzs Hf.
  assert (Houtzs : List.Forall (fun n => isName n = true) (outd ++ zs))
    by (apply List.Forall_app; now split).
  assert (Hne : outd ++ zs <> []) by (destruct outd; [congruence | discriminate]).
  assert (Hall : List.Forall (fun n => isName n = true) ((outd ++ zs) ++ [f]))
    by now apply Forall_names_snoc.
  rewrite (app_assoc outd zs [f]), (Dir_plainPath ro (outd ++ zs) f) by assumption.
  destruct (decide (k = plainPath ro ((outd ++ zs) ++ [f]))) as [-> | Hneq]; [auto|].
  assert (Hw : fst (OS.WriteFile (plainPath ro ((outd ++ zs) ++ [f])) data
                      (fst (OS.MkdirAll (plainPath ro (outd ++ zs)) st))) !! k
               = fst (OS.MkdirAll (plainPath ro (outd ++ zs)) st) !! k).
  { unfold OS.WriteFile. destruct (OS.canCreate _ _); [|reflexivity].
    simpl. rewrite Clean_plainPath by (apply snoc_not_nil || assumption).
    now rewrite lookup_insert_ne by congruence. }
  rewrite Hw.
  destruct (MkdirAll_changes ro (outd ++ zs) st k Hne Houtzs)
    as [Heq | (_ & Hd & j & Hj & ->)]; [now left|].
  right. right. split; [exact Hd|].
  replace (take j (outd ++ zs)) with (take j ((outd ++ zs) ++ [f]))
    by (apply take_app_le; lia).
  apply within_prefix; [exact Hall|]. rewrite length_app. simpl. lia.
Qed.

(** What the callback of the traversal touches: the path its file is
    written to, and directories on the way to the place of the entry. *)
Lemma processStep_touches ds i sys count k :
  List.Forall (fun n => isSafeName n = true) ds ->
  (IsDir i = false -> ds <> []) ->
  fs (fst (processStep E site config (plainPath ri (ind ++ ds)) i (sys, count))) !! k
  = fs sys !! k
  \/ writeTarget config (plainPath ri (ind ++ ds)) i = Some k
  \/ (fs (fst (processStep E site config (plainPath ri (ind ++ ds)) i (sys, count))) !! k
      = Some EDir
      /\ exists P, placeOf config (plainPath ri (ind ++ ds)) i = Some P
                   /\ OS.within k P = true).
Proof.
  intros Hsafe Hfile. pose proof (safe_names ds Hsafe) as Hds.
  unfold processStep, processFn, placeOf, writeTarget.
  rewrite (outputPath_any config ri ro ind outd ds) by assumption.
  destruct (IsDir i) eqn:Hd.
  - simpl.
    assert (Hall : List.Forall (fun n => isName n = true) (outd ++ ds))
      by (apply List.Forall_app; now split).
    assert (Hne : outd ++ ds <> []) by (destruct outd; [congruence | discriminate]).
    destruct (MkdirAll_changes ro (outd ++ ds) (fs sys) k Hne Hall)
      as [Heq | (_ & Hdir & j & Hj & ->)]; [now left|].
    right. right. split; [exact Hdir|]. eexists. split; [reflexivity|].
    now apply within_prefix.
  - specialize (Hfile eq_refl).
    destruct ds as [|d ds] using rev_ind; [congruence|]. clear IHds.
    apply List.Forall_app in Hsafe as [Hsafe Hd1]. inversion Hd1 as [|? ? Hsd _]; subst.
    apply List.Forall_app in Hds as [Hds Hd2]. inversion Hd2 as [|? ? Hnd _]; subst.
    destruct (isMarkdownFile (plainPath ri (ind ++ ds ++ [d]))).
    + simpl.
      destruct (fs_renderMarkdown_cases E site (plainPath ri (ind ++ ds ++ [d])) i
                  (plainPath ro (outd ++ ds ++ [d])) (TemplatesDir config) sys)
        as [-> | [content ->]]; [now left|].
      rewrite <- (outputPath_any config ri ro ind outd (ds ++ [d])) at 1 2 3 4
        by (assumption || now apply Forall_names_snoc).
      fold (pagePath config (plainPath ri (ind ++ ds ++ [d]))).
      destruct (pagePath_in_output config ri ro ind outd ds d HI HO Hi Ho Hin Hout Hds Hsd)
        as (zs & Hzs & Hpage).
      rewrite Hpage.
      destruct (write_touches zs "index.html" content (fs sys) k Hzs eq_refl)
        as [Heq | [-> | [Hdir Hw]]]; [now left | now right; left |].
      right. right. split; [exact Hdir|]. eexists. split; [reflexivity | exact Hw].
    + destruct (negb (HasPrefix (Base (plainPath ri (ind ++ ds ++ [d]))) ".")).
      * simpl. destruct i as [t data | t entries]; [|discriminate]. simpl copyFile.
        destruct (write_touches ds d data (fs sys) k Hds Hnd)
          as [Heq | [-> | [Hdir Hw]]]; [now left | now right; left |].
        right. right. split; [exact Hdir|]. eexists. split; [reflexivity | exact Hw].
      * now left.
Qed.

Lemma foldVisits_processStep_touches vs sys count k :
  List.Forall (fun v => exists ds, fst v = plainPath ri (ind ++ ds)
                                   /\ List.Forall (fun n => isSafeName n = true) ds
                                   /\ (IsDir (snd v) = false -> ds <> [])) vs ->
  fs (fst (foldVisits (processStep E site config) vs (sys, count))) !! k = fs sys !! k
  \/ (exists v, In v vs /\ writeTarget config (fst v) (snd v) = Some k)
  \/ (fs (fst (foldVisits (processStep E site config) vs (sys, count))) !! k = Some EDir
      /\ exists v P, In v vs /\ placeOf config (fst v) (snd v) = Some P
                     /\ OS.within k P = true).
Proof.
  revert sys count. induction vs as [|[p i] vs IH]; intros sys count Hvs; [now left|].
  inversion Hvs as [|? ? (ds & Hp & Hds & Hf) Hrest]; subst. simpl in Hp, Hf. subst p.
  rewrite foldVisits_cons.
  pose proof (processStep_touches ds i sys count k Hds Hf) as Hstep.
  destruct (processStep E site config (plainPath ri (ind ++ ds)) i (sys, count))
    as [sys' count'].
  destruct (IH sys' count' Hrest) as [Heq | [(v & Hv & Ht) | (Hd & v & P & Hv & HP & Hw)]].
  - rewrite Heq. simpl in Hstep.
    destruct Hstep as [Hs | [Ht | (Hd & P & HP & Hw)]].
    + now left.
    + right. left. eexists. split; [now left | exact Ht].
    + right. right. split; [exact Hd|]. eexists _, P. split; [now left|]. now split.
  - right. left. exists v. split; [now right | exact Ht].
  - right. right. split; [exact Hd|]. exists v, P. split; [now right|]. now split.
Qed.

(** After the output directory has been made anew, the directories on the
    way to it and the output directory itself exist, and nothing stands
    below it. *)
Lemma resetOutput_state sys :
  snd (OS.MkdirAll (OutputDir config) (OS.RemoveAll (OutputDir config) (fs sys))) = true ->
  (forall j, (0 < j <= length outd)%nat ->
             fs (resetOutput config sys) !! plainPath ro (take j outd) = Some EDir)
  /\ (forall ys, ys <> [] -> List.Forall (fun n => isName n = true) ys ->
                 fs (resetOutput config sys) !! plainPath ro (outd ++ ys) = None).
Proof.
  intros Hok. unfold resetOutput. rewrite !fs_withFs. rewrite HO in *. split.
  - intros j Hj. now apply MkdirAll_prefixes.
  - intros ys Hne Hys.
    assert (Hall : List.Forall (fun n => isName n = true) (outd ++ ys))
      by (apply List.Forall_app; now split).
    assert (Hne' : outd ++ ys <> []) by (destruct outd; [congruence | discriminate]).
    destruct (MkdirAll_changes ro outd (OS.RemoveAll (plainPath ro outd) (fs sys))
                (plainPath ro (outd ++ ys)) Ho Hout) as [-> | (_ & _ & j & Hj & Heq)].
    + rewrite RemoveAll_plain by assumption. apply map_lookup_filter_None. right. intros x _. simpl.
      now rewrite within_plainPath.
    + exfalso. apply plainPath_inj in Heq; try assumption.
      * apply (f_equal (@length string)) in Heq.
        rewrite length_app, length_take in Heq.
        destruct ys; [congruence|]. simpl in Heq. lia.
      * destruct outd; [congruence|]. destruct j; [lia | discriminate].
      * now apply Forall_take.
Qed.

(** A file whose place is free: when the traversal comes to it, the
    directories of its path can be made and no directory stands at its
    path. *)
Lemma place_is_free vs sys count ys g :
  List.Forall (fun v => exists ds, fst v = plainPath ri (ind ++ ds)
                                   /\ List.Forall (fun n => isSafeName n = true) ds
                                   /\ (IsDir (snd v) = false -> ds <> [])) vs ->
  List.Forall (fun n => isName n = true) ys -> isName g = true ->
  (forall j, (0 < j <= length outd)%nat ->
             fs sys !! plainPath ro (take j outd) = Some EDir) ->
  (forall zs, zs <> [] -> List.Forall (fun n => isName n = true) zs ->
              fs sys !! plainPath ro (outd ++ zs) = None) ->
  (forall v T, In v vs -> writeTarget config (fst v) (snd v) = Some T ->
               OS.within T (plainPath ro (outd ++ ys ++ [g])) = false) ->
  (forall v P, In v vs -> placeOf config (fst v) (snd v) = Some P ->
               OS.within (plainPath ro (outd ++ ys ++ [g])) P = false) ->
  snd (OS.MkdirAll (plainPath ro (outd ++ ys))
         (fs (fst (foldVisits (processStep E site config) vs (sys, count))))) = true
  /\ fs (fst (foldVisits (processStep E site config) vs (sys, count)))
     !! plainPath ro (outd ++ ys ++ [g]) <> Some EDir.
Proof.
  intros Hvs Hys Hg Hanc Hbelow Htargets Hplaces.
  assert (Hall : List.Forall (fun n => isName n = true) (outd ++ ys))
    by (apply List.Forall_app; now split).
  assert (Hne : outd ++ ys <> []) by (destruct outd; [congruence | discriminate]).
  assert (HallK : List.Forall (fun n => isName n = true) (outd ++ ys ++ [g])).
  { rewrite app_assoc. now apply Forall_names_snoc. }
  split.
  - apply MkdirAll_succeeds; try assumption. intros j c Hj Hfile.
    assert (Hway : OS.within (plainPath ro (take j (outd ++ ys)))
                     (plainPath ro (outd ++ ys ++ [g])) = true).
    { replace (take j (outd ++ ys)) with (take j (outd ++ ys ++ [g]))
        by (rewrite app_assoc; apply take_app_le; lia).
      apply within_prefix; [exact HallK|]. rewrite !length_app in *. simpl. lia. }
    destruct (foldVisits_processStep_touches vs sys count
                (plainPath ro (take j (outd ++ ys))) Hvs)
      as [Heq | [(v & Hv & Ht) | (Hd & _)]].
    + rewrite Heq in Hfile.
      destruct (le_lt_dec j (length outd)) as [Hle | Hgt].
      * rewrite take_app_le in Hfile by exact Hle.
        rewrite Hanc in Hfile by lia. discriminate.
      * rewrite take_app_ge in Hfile by lia.
        rewrite Hbelow in Hfile; [discriminate | | now apply Forall_take].
        rewrite length_app in Hj.
        destruct ys as [|y ys']; [simpl in Hj; lia|].
        destruct (j - length outd)%nat eqn:Hjo; [lia | discriminate].
    + rewrite (Htargets v _ Hv Ht) in Hway. discriminate.
    + congruence.
  - intros Hdir.
    destruct (foldVisits_processStep_touches vs sys count
                (plainPath ro (outd ++ ys ++ [g])) Hvs)
      as [Heq | [(v & Hv & Ht) | (_ & v & P & Hv & HP & Hw)]].
    + rewrite Heq, Hbelow in Hdir; [discriminate | apply snoc_not_nil |].
      now apply Forall_names_snoc.
    + pose proof (Htargets v _ Hv Ht) as Hw.
      rewrite <- (app_nil_r (outd ++ ys ++ [g])) in Hw at 2.
      rewrite within_plainPath in Hw; [discriminate | | exact HallK].
      destruct outd; [congruence | discriminate].
    + rewrite (Hplaces v P Hv HP) in Hw. discriminate.
Qed.

End Reach.

Lemma within_self r ns :
  ns <> [] -> List.Forall (fun n => isName n = true) ns ->
  OS.within (plainPath r ns) (plainPath r ns) = true.
Proof.
  intros Hne Hall. rewrite <- (app_nil_r ns) at 2. now apply within_plainPath.
Qed.

(** The file system in which the traversal of [build] comes to an entry
    whose place is free. *)
Lemma traversal_reaches E site config ri ro ind outd sys input vs1 v0 vs2 ys g :
  InputDir config = plainPath ri ind -> OutputDir config = plainPath ro outd ->
  ind <> [] -> outd <> [] ->
  List.Forall (fun n => isName n = true) ind ->
  List.Forall (fun n => isName n = true) outd ->
  inputRoot site = Some input -> IsDir input = true -> wellNamed input = true ->
  visits noSkip (InputDir config) input = vs1 ++ v0 :: vs2 ->
  List.Forall (fun n => isName n = true) ys -> isName g = true ->
  snd (OS.MkdirAll (OutputDir config) (OS.RemoveAll (OutputDir config) (fs sys))) = true ->
  (forall v T, In v (vs1 ++ vs2) -> writeTarget config (fst v) (snd v) = Some T ->
               OS.within T (plainPath ro (outd ++ ys ++ [g])) = false) ->
  (forall v P, In v (vs1 ++ vs2) -> placeOf config (fst v) (snd v) = Some P ->
               OS.within (plainPath ro (outd ++ ys ++ [g])) P = false) ->
  snd (OS.MkdirAll (plainPath ro (outd ++ ys))
         (fs (fst (traversedUpTo E site config sys vs1)))) = true
  /\ fs (fst (traversedUpTo E site config sys vs1)) !! plainPath ro (outd ++ ys ++ [g])
     <> Some EDir.
Proof.
  intros HI HO Hi Ho Hin Hout Hinput Hdir Hwell Hvs Hys Hg Hreset Htargets Hplaces.
  unfold traversedUpTo. rewrite Hinput, Walk_foundFn. cbn [fst].
  set (listed := foldVisits (foundStep config) (visits noSkip (InputDir config) input)
                   (println (blue (nl +:+ "Files found in input directory:"))
                      (printConfiguration config sys))).
  assert (Hfs : fs listed = fs sys) by (unfold listed; now rewrite fs_foldVisits_foundStep).
  rewrite <- Hfs in Hreset.
  destruct (resetOutput_state config ro outd HO Ho Hout listed Hreset) as [Hanc Hbelow].
  apply (place_is_free E site config ri ro ind outd HI HO Hi Ho Hin Hout); try assumption.
  - apply List.Forall_forall. intros v Hv.
    apply (visits_structure config ri ind HI Hi Hin input v Hdir Hwell).
    rewrite Hvs. apply in_or_app. now left.
  - intros v T Hv. apply Htargets. apply in_or_app. now left.
  - intros v P Hv. apply Hplaces. apply in_or_app. now left.
Qed.

(** A file that is not markdown and whose name does not start with a dot
    stands with its bytes at its mirrored path after the build, if its place
    is free. *)
Lemma asset_reaches E site config ri ro ind outd sys input templates
    vs1 vs2 ds f t data :
  InputDir config = plainPath ri ind -> OutputDir config = plainPath ro outd ->
  ind <> [] -> outd <> [] ->
  List.Forall (fun n => isName n = true) ind ->
  List.Forall (fun n => isName n = true) outd ->
  inputRoot site = Some input -> templatesRoot site = Some templates ->
  IsDir input = true -> wellNamed input = true ->
  visits noSkip (InputDir config) input
  = vs1 ++ (plainPath ri (ind ++ ds ++ [f]), File t data) :: vs2 ->
  List.Forall (fun n => isName n = true) ds -> isName f = true ->
  isMarkdownFile (plainPath ri (ind ++ ds ++ [f])) = false ->
  HasPrefix f "." = false ->
  snd (OS.MkdirAll (OutputDir config) (OS.RemoveAll (OutputDir config) (fs sys))) = true ->
  (forall v T, In v (vs1 ++ vs2) -> writeTarget config (fst v) (snd v) = Some T ->
               OS.within T (plainPath ro (outd ++ ds ++ [f])) = false) ->
  (forall v P, In v (vs1 ++ vs2) -> placeOf config (fst v) (snd v) = Some P ->
               OS.within (plainPath ro (outd ++ ds ++ [f])) P = false) ->
  plainPath ro (outd ++ ds ++ [f]) <> Join [OutputDir config; "robots.txt"] ->
  fs (build E site config sys) !! plainPath ro (outd ++ ds ++ [f]) = Some (EFile data).
Proof.
  intros HI HO Hi Ho Hin Hout Hinput Htm Hdir Hwell Hvs Hds Hf Hmd Hdot Hreset
    Htargets Hplaces Hrobots.
  assert (Houtds : List.Forall (fun n => isName n = true) (outd ++ ds))
    by (apply List.Forall_app; now split).
  assert (Hne : outd ++ ds <> []) by (destruct outd; [congruence | discriminate]).
  assert (HallK : List.Forall (fun n => isName n = true) (outd ++ ds ++ [f])).
  { rewrite app_assoc. now apply Forall_names_snoc. }
  assert (HneK : outd ++ ds ++ [f] <> []) by (destruct outd; [congruence | discriminate]).
  destruct (traversal_reaches E site config ri ro ind outd sys input vs1 _ vs2 ds f
              HI HO Hi Ho Hin Hout Hinput Hdir Hwell Hvs Hds Hf Hreset Htargets Hplaces)
    as [Hok Hfree].
  apply (build_keeps E site config ri ro ind outd HI HO Hi Ho Hin Hout sys input templates
           (vs1 ++ [(plainPath ri (ind ++ ds ++ [f]), File t data)]) vs2);
    try assumption.
  - now rewrite <- app_assoc.
  - unfold traversedUpTo in *. rewrite foldVisits_app.
    destruct (foldVisits (processStep E site config) vs1 _) as [sys1 count1].
    simpl fst in Hok, Hfree. unfold foldVisits. simpl fold_left.
    unfold processStep, processFn. simpl IsDir. cbv iota. rewrite Hmd.
    rewrite (outputPath_plain config ri ro ind outd ds f) by assumption.
    rewrite (app_assoc ind ds [f]), (Base_plainPath ri (ind ++ ds) f)
      by (assumption || (apply List.Forall_app; now split)).
    rewrite Hdot. simpl.
    rewrite (app_assoc outd ds [f]) in *.
    rewrite (Dir_plainPath ro (outd ++ ds) f) by assumption.
    now apply WriteFile_after_MkdirAll.
  - intros v Hv Ht.
    pose proof (Htargets v _ (in_or_app _ _ _ (or_intror Hv)) Ht) as Hw.
    rewrite within_self in Hw by assumption. discriminate.
Qed.

(** A markdown file, named [index.md] or with a plain base name, for which
    [renderMarkdown] writes [content], stands with [content] at its page path
    after the build, if its place is free. *)
Lemma page_reaches E site config ri ro ind outd sys input templates
    vs1 vs2 ds f t data content :
  InputDir config = plainPath ri ind -> OutputDir config = plainPath ro outd ->
  ind <> [] -> outd <> [] ->
  List.Forall (fun n => isName n = true) ind ->
  List.Forall (fun n => isName n = true) outd ->
  inputRoot site = Some input -> templatesRoot site = Some templates ->
  IsDir input = true -> wellNamed input = true ->
  visits noSkip (InputDir config) input
  = vs1 ++ (plainPath ri (ind ++ ds ++ [f]), File t data) :: vs2 ->
  List.Forall (fun n => isName n = true) ds -> isName f = true ->
  f = "index.md" \/ isName (stem f) = true ->
  isMarkdownFile (plainPath ri (ind ++ ds ++ [f])) = true ->
  (forall outputPath sys1,
     fs (renderMarkdown E site (plainPath ri (ind ++ ds ++ [f])) (File t data)
           outputPath (TemplatesDir config) sys1)
     = fst (OS.WriteFile (outputHTMLPath outputPath (plainPath ri (ind ++ ds ++ [f])))
              content
              (fst (OS.MkdirAll
                      (Dir (outputHTMLPath outputPath (plainPath ri (ind ++ ds ++ [f]))))
                      (fs sys1))))) ->
  snd (OS.MkdirAll (OutputDir config) (OS.RemoveAll (OutputDir config) (fs sys))) = true ->
  (forall v T, In v (vs1 ++ vs2) -> writeTarget config (fst v) (snd v) = Some T ->
               OS.within T (pagePath config (plainPath ri (ind ++ ds ++ [f]))) = false) ->
  (forall v P, In v (vs1 ++ vs2) -> placeOf config (fst v) (snd v) = Some P ->
               OS.within (pagePath config (plainPath ri (ind ++ ds ++ [f]))) P = false) ->
  pagePath config (plainPath ri (ind ++ ds ++ [f]))
  <> Join [OutputDir config; "robots.txt"] ->
  fs (build E site config sys) !! pagePath config (plainPath ri (ind ++ ds ++ [f]))
  = Some (EFile content).
Proof.
  intros HI HO Hi Ho Hin Hout Hinput Htm Hdir Hwell Hvs Hds Hf Hstem Hmd Hrender
    Hreset Htargets Hplaces Hrobots.
  assert (Houtds : List.Forall (fun n => isName n = true) (outd ++ ds))
    by (apply List.Forall_app; now split).
  assert (Hne : outd ++ ds <> []) by (destruct outd; [congruence | discriminate]).
  assert (Hpage : exists zs,
             pagePath config (plainPath ri (ind ++ ds ++ [f]))
             = plainPath ro (outd ++ zs ++ ["index.html"])
             /\ List.Forall (fun n => isName n = true) zs).
  { destruct (string_dec f "index.md") as [-> | Hneq].
    - exists ds. now rewrite (pagePath_index config ri ro ind outd ds) by assumption.
    - destruct Hstem as [-> | Hstem]; [congruence|].
      exists (ds ++ [stem f]).
      rewrite (pagePath_other config ri ro ind outd ds f) by assumption.
      rewrite Join_plainPath3 by (assumption || reflexivity).
      split; [now rewrite <- !app_assoc | now apply Forall_names_snoc]. }
  destruct Hpage as (zs & Hpage & Hzs).
  assert (Houtzs : List.Forall (fun n => isName n = true) (outd ++ zs))
    by (apply List.Forall_app; now split).
  assert (Hnez : outd ++ zs <> []) by (destruct outd; [congruence | discriminate]).
  assert (HallK : List.Forall (fun n => isName n = true) (outd ++ zs ++ ["index.html"])).
  { rewrite app_assoc. now apply Forall_names_snoc. }
  assert (HneK : outd ++ zs ++ ["index.html"] <> [])
    by (destruct outd; [congruence | discriminate]).
  pose proof Hpage as Hfold. unfold pagePath in Hfold.
  rewrite Hpage in *.
  destruct (traversal_reaches E site config ri ro ind outd sys input vs1 _ vs2 zs
              "index.html" HI HO Hi Ho Hin Hout Hinput Hdir Hwell Hvs Hzs eq_refl Hreset
              Htargets Hplaces) as [Hok Hfree].
  apply (build_keeps E site config ri ro ind outd HI HO Hi Ho Hin Hout sys input templates
           (vs1 ++ [(plainPath ri (ind ++ ds ++ [f]), File t data)]) vs2);
    try assumption.
  - now rewrite <- app_assoc.
  - unfold traversedUpTo in *. rewrite foldVisits_app.
    destruct (foldVisits (processStep E site config) vs1 _) as [sys1 count1].
    simpl fst in Hok, Hfree. unfold foldVisits. simpl fold_left.
    unfold processStep, processFn. simpl IsDir. cbv iota. rewrite Hmd. simpl.
    rewrite Hrender.
    rewrite Hfold.
    rewrite (app_assoc outd zs ["index.html"]) in *.
    rewrite (Dir_plainPath ro (outd ++ zs) "index.html") by (assumption || reflexivity).
    now apply WriteFile_after_MkdirAll.
  - intros v Hv Ht.
    pose proof (Htargets v _ (in_or_app _ _ _ (or_intror Hv)) Ht) as Hw.
    rewrite within_self in Hw by assumption. discriminate.
Qed.

(** X22. An asset that is in nobody's way reaches the output. For an input
    tree that is a directory in which no name begins with two dots, the input
    and the templates directory apart from the output directory, after a
    build whose output directory could be made anew: a file that is not
    markdown and whose name does not start with a dot stands with its bytes
    at its mirrored path in the output tree, if no other entry is written to
    that path or to a path on the way to it, no other entry has its place at
    or below that path, and the path is not [robots.txt] of the output
    directory. *)
Theorem asset_reaches_output E site config ri ro ind outd sys input templates
    vs1 vs2 ds f t data :
  InputDir config = plainPath ri ind -> OutputDir config = plainPath ro outd ->
  ind <> [] -> outd <> [] ->
  List.Forall (fun n => isName n = true) ind ->
  List.Forall (fun n => isName n = true) outd ->
  apart (InputDir config) (OutputDir config) = true ->
  apart (TemplatesDir config) (OutputDir config) = true ->
  inputRoot site = Some input -> templatesRoot site = Some templates ->
  IsDir input = true -> wellNamed input = true ->
  visits noSkip (InputDir config) input
  = vs1 ++ (plainPath ri (ind ++ ds ++ [f]), File t data) :: vs2 ->
  List.Forall (fun n => isName n = true) ds -> isName f = true ->
  isMarkdownFile (plainPath ri (ind ++ ds ++ [f])) = false ->
  HasPrefix f "." = false ->
  snd (OS.MkdirAll (OutputDir config) (OS.RemoveAll (OutputDir config) (fs sys))) = true ->
  (forall v T, In v (vs1 ++ vs2) -> writeTarget config (fst v) (snd v) = Some T ->
               OS.within T (plainPath ro (outd ++ ds ++ [f])) = false) ->
  (forall v P, In v (vs1 ++ vs2) -> placeOf config (fst v) (snd v) = Some P ->
               OS.within (plainPath ro (outd ++ ds ++ [f])) P = false) ->
  plainPath ro (outd ++ ds ++ [f]) <> Join [OutputDir config; "robots.txt"] ->
  fs (build E site config sys) !! plainPath ro (outd ++ ds ++ [f]) = Some (EFile data).
Proof.
  intros HI HO Hi Ho Hin Hout _ _ Hinput Htm Hdir Hwell Hvs Hds Hf Hmd Hdot Hreset
    Htargets Hplaces Hrobots.
  now apply (asset_reaches E site config ri ro ind outd sys input templates vs1 vs2
               ds f t data).
Qed.

(** X23. A page that is in nobody's way reaches the output. Under the same
    conditions on the tree, the directories and the build: a markdown file,
    named [index.md] or with a plain base name, whose conversion succeeds
    and whose template ([default.html] if the front matter names none) loads
    and executes to [out], stands with [out] at its page path after the
    build, if no other entry is written to the page path or to a path on the
    way to it, no other entry has its place at or below the page path, and
    the page path is not [robots.txt] of the output directory. *)
Theorem page_reaches_output E site config ri ro ind outd sys input templates
    vs1 vs2 ds f t data frontMatter markdownContent printed htmlContent tmpl out :
  InputDir config = plainPath ri ind -> OutputDir config = plainPath ro outd ->
  ind <> [] -> outd <> [] ->
  List.Forall (fun n => isName n = true) ind ->
  List.Forall (fun n => isName n = true) outd ->
  apart (InputDir config) (OutputDir config) = true ->
  apart (TemplatesDir config) (OutputDir config) = true ->
  inputRoot site = Some input -> templatesRoot site = Some templates ->
  IsDir input = true -> wellNamed input = true ->
  visits noSkip (InputDir config) input
  = vs1 ++ (plainPath ri (ind ++ ds ++ [f]), File t data) :: vs2 ->
  List.Forall (fun n => isName n = true) ds -> isName f = true ->
  f = "index.md" \/ isName (stem f) = true ->
  isMarkdownFile (plainPath ri (ind ++ ds ++ [f])) = true ->
  parseFrontMatter E data = (frontMatter, markdownContent, printed) ->
  Convert E markdownContent = inl htmlContent ->
  ParseFiles E (Join [TemplatesDir config;
                      if String.eqb (Template frontMatter) "" then "default.html"
                      else Template frontMatter]) = inl tmpl ->
  Execute E tmpl (templateData frontMatter htmlContent) = inl out ->
  snd (OS.MkdirAll (OutputDir config) (OS.RemoveAll (OutputDir config) (fs sys))) = true ->
  (forall v T, In v (vs1 ++ vs2) -> writeTarget config (fst v) (snd v) = Some T ->
               OS.within T (pagePath config (plainPath ri (ind ++ ds ++ [f]))) = false) ->
  (forall v P, In v (vs1 ++ vs2) -> placeOf config (fst v) (snd v) = Some P ->
               OS.within (pagePath config (plainPath ri (ind ++ ds ++ [f]))) P = false) ->
  pagePath config (plainPath ri (ind ++ ds ++ [f]))
  <> Join [OutputDir config; "robots.txt"] ->
  fs (build E site config sys) !! pagePath config (plainPath ri (ind ++ ds ++ [f]))
  = Some (EFile out).
Proof.
  intros HI HO Hi Ho Hin Hout _ _ Hinput Htm Hdir Hwell Hvs Hds Hf Hstem Hmd Hparse Hconv
    Hload Hexec Hreset Htargets Hplaces Hrobots.
  apply (page_reaches E site config ri ro ind outd sys input templates vs1 vs2
           ds f t data out); try assumption.
  intros outputPath sys1.
  apply (fs_renderMarkdown_page E site _ t data _ _ sys1 frontMatter markdownContent
           printed htmlContent tmpl out Hparse Hconv Hload Hexec).
Qed.

Lemma asset_reaches_output_witness :
  fs (build sampleEngine blogSite sampleConfig staleSys) !! "output/style.css"
  = Some (EFile "body {}").
Proof.
  apply (asset_reaches_output sampleEngine blogSite sampleConfig false false
           ["input"] ["output"] staleSys
           (Directory 0
              [("blog", Directory 0 [("index.md", File 0 "hello");
                                     ("post.md", File 0 "post")]);
               ("style.css", File 0 "body {}")])
           sampleTemplates
           [("input", Directory 0
                [("blog", Directory 0 [("index.md", File 0 "hello");
                                       ("post.md", File 0 "post")]);
                 ("style.css", File 0 "body {}")]);
            ("input/blog", Directory 0 [("index.md", File 0 "hello");
                                        ("post.md", File 0 "post")]);
            ("input/blog/index.md", File 0 "hello");
            ("input/blog/post.md", File 0 "post")]
           [] [] "style.css" 0 "body {}"
           eq_refl eq_refl ltac:(discriminate) ltac:(discriminate)
           ltac:(repeat constructor) ltac:(repeat constructor)
           eq_refl eq_refl eq_refl eq_refl eq_refl eq_refl eq_refl
           ltac:(repeat constructor) eq_refl eq_refl eq_refl eq_refl).
  - intros v T [<- | [<- | [<- | [<- | []]]]] HT; vm_compute in HT;
      try discriminate HT; injection HT as <-; reflexivity.
  - intros v P [<- | [<- | [<- | [<- | []]]]] HP; vm_compute in HP;
      try discriminate HP; injection HP as <-; reflexivity.
  - vm_compute. discriminate.
Defined.

Lemma page_reaches_output_witness :
  fs (build sampleEngine blogSite sampleConfig staleSys) !! "output/blog/post/index.html"
  = Some (EFile "<main><p>post</p></main>").
Proof.
  apply (page_reaches_output sampleEngine blogSite sampleConfig false false
           ["input"] ["output"] staleSys
           (Directory 0
              [("blog", Directory 0 [("index.md", File 0 "hello");
                                     ("post.md", File 0 "post")]);
               ("style.css", File 0 "body {}")])
           sampleTemplates
           [("input", Directory 0
                [("blog", Directory 0 [("index.md", File 0 "hello");
                                       ("post.md", File 0 "post")]);
                 ("style.css", File 0 "body {}")]);
            ("input/blog", Directory 0 [("index.md", File 0 "hello");
                                        ("post.md", File 0 "post")]);
            ("input/blog/index.md", File 0 "hello")]
           [("input/style.css", File 0 "body {}")]
           ["blog"] "post.md" 0 "post" emptyFrontMatter "post" [] "<p>post</p>"
           "templates/default.html" "<main><p>post</p></main>"
           eq_refl eq_refl ltac:(discriminate) ltac:(discriminate)
           ltac:(repeat constructor) ltac:(repeat constructor)
           eq_refl eq_refl eq_refl eq_refl eq_refl eq_refl eq_refl
           ltac:(repeat constructor) eq_refl (or_intror eq_refl) eq_refl eq_refl eq_refl
           eq_refl eq_refl eq_refl).
  - intros v T [<- | [<- | [<- | [<- | []]]]] HT; vm_compute in HT;
      try discriminate HT; injection HT as <-; reflexivity.
  - intros v P [<- | [<- | [<- | [<- | []]]]] HP; vm_compute in HP;
      try discriminate HP; injection HP as <-; reflexivity.
  - vm_compute. discriminate.
Defined.

(* ===================================================================== *)
(** ** [build]: directories, and nothing but places *)
(* ===================================================================== *)

Lemma handleRobotsTxt_other site config ro outd sys K :
  OutputDir config = plainPath ro outd -> outd <> [] ->
  List.Forall (fun n => isName n = true) outd ->
  K <> Join [OutputDir config; "robots.txt"] ->
  fs (handleRobotsTxt site (InputDir config) (OutputDir config) sys) !! K = fs sys !! K.
Proof.
  intros HO Ho Hout Hneq. rewrite fs_handleRobotsTxt. rewrite HO in *.
  rewrite (Join_plainPath_name ro outd "robots.txt" Ho Hout eq_refl) in *.
  assert (Hall : List.Forall (fun n => isName n = true) (outd ++ ["robots.txt"]))
    by now apply Forall_names_snoc.
  assert (Hw : forall data st,
             fst (OS.WriteFile (plainPath ro (outd ++ ["robots.txt"])) data st) !! K
             = st !! K).
  { intros data st. unfold OS.WriteFile. destruct (OS.canCreate st _); [|reflexivity].
    simpl. rewrite Clean_plainPath by (apply snoc_not_nil || assumption).
    now rewrite lookup_insert_ne by congruence. }
  destruct (statUnder _ _ _) as [[t data | t entries]|]; simpl; apply Hw.
Qed.

(** A directory on the way to a plain path is not the path or below it. *)
Lemma within_above r ns j :
  List.Forall (fun n => isName n = true) ns -> (0 < j < length ns)%nat ->
  OS.within (plainPath r ns) (plainPath r (take j ns)) = false.
Proof.
  intros Hall Hj.
  assert (Hne : ns <> []) by (destruct ns; [simpl in Hj; lia | discriminate]).
  assert (Hnt : take j ns <> []).
  { destruct ns; [congruence|]. destruct j; [lia | discriminate]. }
  assert (Ht : List.Forall (fun n => isName n = true) (take j ns)) by now apply Forall_take.
  unfold OS.within. rewrite Clean_plainPath by assumption.
  destruct (plainPath_not_dot r ns Hne Hall) as [_ ->].
  apply orb_false_iff. split.
  - apply String.eqb_neq. intros Heq. apply plainPath_inj in Heq; try assumption.
    apply (f_equal (@length string)) in Heq. rewrite length_take in Heq. lia.
  - destruct (HasPrefix (plainPath r (take j ns)) (plainPath r ns +:+ "/")) eqn:Hp;
      [|reflexivity].
    exfalso. destruct (HasPrefix_inv _ _ Hp) as [t Heq].
    apply (f_equal elements) in Heq. rewrite append_assoc in Heq.
    change ("/" +:+ t) with (String "/" t) in Heq.
    rewrite elements_app_slash, !elements_plainPath in Heq by assumption.
    apply (f_equal (@length string)) in Heq. rewrite !length_app, length_take in Heq.
    lia.
Qed.

(** After the output directory has been made anew nothing stands below
    it. *)
Lemma resetOutput_below config ro outd sys K :
  OutputDir config = plainPath ro outd -> outd <> [] ->
  List.Forall (fun n => isName n = true) outd ->
  OS.within (OutputDir config) K = true -> K <> OutputDir config ->
  fs (resetOutput config sys) !! K = None.
Proof.
  intros HO Ho Hout Hin Hneq. unfold resetOutput. rewrite !fs_withFs. rewrite HO in *.
  destruct (MkdirAll_changes ro outd (OS.RemoveAll (plainPath ro outd) (fs sys)) K Ho Hout)
    as [-> | (_ & _ & j & Hj & ->)].
  - rewrite RemoveAll_plain by assumption. apply map_lookup_filter_None. right. intros x _. simpl.
    now rewrite Hin.
  - exfalso. destruct (decide (j = length outd)) as [-> | Hlt].
    + now rewrite firstn_all in Hneq.
    + rewrite within_above in Hin by (assumption || lia). discriminate.
Qed.

(** Writing a file leaves every directory a directory. *)
Lemma WriteFile_keeps_dir r ns data st K :
  ns <> [] -> List.Forall (fun n => isName n = true) ns ->
  st !! K = Some EDir ->
  fst (OS.WriteFile (plainPath r ns) data st) !! K = Some EDir.
Proof.
  intros Hne Hall HK. unfold OS.WriteFile.
  destruct (OS.canCreate st (plainPath r ns)) eqn:Hc; [|exact HK].
  simpl. rewrite Clean_plainPath by assumption.
  destruct (decide (K = plainPath r ns)) as [-> | Hneq];
    [|now rewrite lookup_insert_ne by congruence].
  exfalso. unfold OS.canCreate in Hc.
  rewrite (Stat_plainPath st r ns Hne Hall), HK in Hc.
  now destruct (OS.Stat st (Dir (plainPath r ns))) as [[|]|].
Qed.

Lemma handleRobotsTxt_keeps_dir site config ro outd sys K :
  OutputDir config = plainPath ro outd -> outd <> [] ->
  List.Forall (fun n => isName n = true) outd ->
  fs sys !! K = Some EDir ->
  fs (handleRobotsTxt site (InputDir config) (OutputDir config) sys) !! K = Some EDir.
Proof.
  intros HO Ho Hout HK. rewrite fs_handleRobotsTxt. rewrite HO in *.
  rewrite (Join_plainPath_name ro outd "robots.txt" Ho Hout eq_refl) in *.
  assert (Hall : List.Forall (fun n => isName n = true) (outd ++ ["robots.txt"]))
    by now apply Forall_names_snoc.
  destruct (statUnder _ _ _) as [[t data | t entries]|]; simpl;
    apply WriteFile_keeps_dir; assumption || apply snoc_not_nil.
Qed.

(** The directories of a place can be made when no file has been written
    on the way to it. *)
Lemma dirs_can_be_made E site config ri ro ind outd vs sys count ns :
  InputDir config = plainPath ri ind -> OutputDir config = plainPath ro outd ->
  ind <> [] -> outd <> [] ->
  List.Forall (fun n => isName n = true) ind ->
  List.Forall (fun n => isName n = true) outd ->
  List.Forall (fun v => exists ds, fst v = plainPath ri (ind ++ ds)
                                   /\ List.Forall (fun n => isSafeName n = true) ds
                                   /\ (IsDir (snd v) = false -> ds <> [])) vs ->
  List.Forall (fun n => isName n = true) ns ->
  (forall j, (0 < j <= length outd)%nat ->
             fs sys !! plainPath ro (take j outd) = Some EDir) ->
  (forall zs, zs <> [] -> List.Forall (fun n => isName n = true) zs ->
              fs sys !! plainPath ro (outd ++ zs) = None) ->
  (forall v T, In v vs -> writeTarget config (fst v) (snd v) = Some T ->
               OS.within T (plainPath ro (outd ++ ns)) = false) ->
  snd (OS.MkdirAll (plainPath ro (outd ++ ns))
         (fs (fst (foldVisits (processStep E site config) vs (sys, count))))) = true.
Proof.
  intros HI HO Hi Ho Hin Hout Hvs Hns Hanc Hbelow Htargets.
  assert (Hall : List.Forall (fun n => isName n = true) (outd ++ ns))
    by (apply List.Forall_app; now split).
  assert (Hne : outd ++ ns <> []) by (destruct outd; [congruence | discriminate]).
  apply MkdirAll_succeeds; try assumption. intros j c Hj Hfile.
  pose proof (within_prefix ro (outd ++ ns) j Hall Hj) as Hway.
  destruct (foldVisits_processStep_touches E site config ri ro ind outd HI HO Hi Ho Hin Hout
              vs sys count (plainPath ro (take j (outd ++ ns))) Hvs)
    as [Heq | [(v & Hv & Ht) | (Hd & _)]].
  - rewrite Heq in Hfile.
    destruct (le_lt_dec j (length outd)) as [Hle | Hgt].
    + rewrite take_app_le in Hfile by exact Hle.
      rewrite Hanc in Hfile by lia. discriminate.
    + rewrite take_app_ge in Hfile by lia.
      rewrite Hbelow in Hfile; [discriminate | | now apply Forall_take].
      rewrite length_app in Hj.
      destruct ns as [|y ns']; [simpl in Hj; lia|].
      destruct (j - length outd)%nat eqn:Hjo; [lia | discriminate].
  - rewrite (Htargets v _ Hv Ht) in Hway. discriminate.
  - congruence.
Qed.

(** A directory of the input tree is a directory in the output after the
    build, if no entry is written to its mirrored path or to a path on the
    way to it. *)
Lemma directory_reaches E site config ri ro ind outd sys input templates
    vs1 vs2 ds t entries :
  InputDir config = plainPath ri ind -> OutputDir config = plainPath ro outd ->
  ind <> [] -> outd <> [] ->
  List.Forall (fun n => isName n = true) ind ->
  List.Forall (fun n => isName n = true) outd ->
  inputRoot site = Some input -> templatesRoot site = Some templates ->
  IsDir input = true -> wellNamed input = true ->
  visits noSkip (InputDir config) input
  = vs1 ++ (plainPath ri (ind ++ ds), Directory t entries) :: vs2 ->
  List.Forall (fun n => isName n = true) ds ->
  snd (OS.MkdirAll (OutputDir config) (OS.RemoveAll (OutputDir config) (fs sys))) = true ->
  (forall v T, In v (vs1 ++ vs2) -> writeTarget config (fst v) (snd v) = Some T ->
               OS.within T (plainPath ro (outd ++ ds)) = false) ->
  fs (build E site config sys) !! plainPath ro (outd ++ ds) = Some EDir.
Proof.
  intros HI HO Hi Ho Hin Hout Hinput Htm Hdir Hwell Hvs Hds Hreset Htargets.
  assert (Hall : List.Forall (fun n => isName n = true) (outd ++ ds))
    by (apply List.Forall_app; now split).
  assert (Hne : outd ++ ds <> []) by (destruct outd; [congruence | discriminate]).
  assert (Hstruct : forall v, In v (visits noSkip (InputDir config) input) ->
             exists ds, fst v = plainPath ri (ind ++ ds)
                        /\ List.Forall (fun n => isSafeName n = true) ds
                        /\ (IsDir (snd v) = false -> ds <> [])).
  { intros v Hv. now apply (visits_structure config ri ind HI Hi Hin input v Hdir Hwell). }
  rewrite (build_traversed E site config sys input templates Hinput Htm).
  rewrite fs_println. apply (handleRobotsTxt_keeps_dir site config ro outd); try assumption.
  rewrite (traversed_visits E site config sys input Hinput), Hvs.
  rewrite foldVisits_app, foldVisits_cons.
  set (listed := foldVisits (foundStep config)
                   (vs1 ++ (plainPath ri (ind ++ ds), Directory t entries) :: vs2)
                   (println (blue (nl +:+ "Files found in input directory:"))
                      (printConfiguration config sys))).
  assert (Hfs : fs listed = fs sys) by (unfold listed; now rewrite fs_foldVisits_foundStep).
  rewrite <- Hfs in Hreset.
  destruct (resetOutput_state config ro outd HO Ho Hout listed Hreset) as [Hanc Hbelow].
  assert (Hok : snd (OS.MkdirAll (plainPath ro (outd ++ ds))
                       (fs (fst (foldVisits (processStep E site config) vs1
                                   (resetOutput config listed, 0%nat))))) = true).
  { apply (dirs_can_be_made E site config ri ro ind outd vs1 _ _ ds); try assumption.
    - apply List.Forall_forall. intros v Hv. apply Hstruct. rewrite Hvs.
      apply in_or_app. now left.
    - intros v T Hv. apply Htargets. apply in_or_app. now left. }
  destruct (foldVisits (processStep E site config) vs1 _) as [sys1 count1].
  simpl fst in Hok.
  assert (Hstep : fs (fst (processStep E site config (plainPath ri (ind ++ ds))
                             (Directory t entries) (sys1, count1)))
                  !! plainPath ro (outd ++ ds) = Some EDir).
  { unfold processStep, processFn.
    rewrite (outputPath_any config ri ro ind outd ds) by assumption.
    simpl. now apply MkdirAll_made. }
  destruct (processStep E site config (plainPath ri (ind ++ ds)) (Directory t entries)
              (sys1, count1)) as [sys2 count2].
  apply (foldVisits_processStep_keeps E site config ri ro ind outd HI HO Hi Ho Hin Hout);
    [| | exact Hstep].
  - apply List.Forall_forall. intros v Hv. apply Hstruct. rewrite Hvs.
    apply in_or_app. right. now right.
  - intros v Hv Ht.
    pose proof (Htargets v _ (in_or_app _ _ _ (or_intror Hv)) Ht) as Hw.
    rewrite within_self in Hw by assumption. discriminate.
Qed.

(** X24. A directory that no file is in the way of reaches the output.
    For an input tree that is a directory in which no name begins with two
    dots, the input and the templates directory apart from the output
    directory, after a build whose output directory could be made anew: for
    a directory [input/d1/.../dk] of the tree, hidden or not, empty or not,
    [output/d1/.../dk] is a directory, if no entry is written to that path
    or to a path on the way to it. *)
Theorem directory_reaches_output E site config ri ro ind outd sys input templates
    vs1 vs2 ds t entries :
  InputDir config = plainPath ri ind -> OutputDir config = plainPath ro outd ->
  ind <> [] -> outd <> [] ->
  List.Forall (fun n => isName n = true) ind ->
  List.Forall (fun n => isName n = true) outd ->
  apart (InputDir config) (OutputDir config) = true ->
  apart (TemplatesDir config) (OutputDir config) = true ->
  inputRoot site = Some input -> templatesRoot site = Some templates ->
  IsDir input = true -> wellNamed input = true ->
  visits noSkip (InputDir config) input
  = vs1 ++ (plainPath ri (ind ++ ds), Directory t entries) :: vs2 ->
  List.Forall (fun n => isName n = true) ds ->
  snd (OS.MkdirAll (OutputDir config) (OS.RemoveAll (OutputDir config) (fs sys))) = true ->
  (forall v T, In v (vs1 ++ vs2) -> writeTarget config (fst v) (snd v) = Some T ->
               OS.within T (plainPath ro (outd ++ ds)) = false) ->
  fs (build E site config sys) !! plainPath ro (outd ++ ds) = Some EDir.
Proof.
  intros HI HO Hi Ho Hin Hout _ _ Hinput Htm Hdir Hwell Hvs Hds Hreset Htargets.
  now apply (directory_reaches E site config ri ro ind outd sys input templates vs1 vs2
               ds t entries).
Qed.

(** X25. Nothing but places. For such an input tree and such
    directories, whatever stands below the output directory after a build
    that passes the directory checks, apart from [robots.txt] of the output
    directory, stands at the path an entry of the input tree is written to,
    or is a directory at or on the way to the place of an entry. A file that
    the traversal skips leaves nothing, and nothing of an earlier build is
    left. *)
Theorem output_holds_only_places E site config ri ro ind outd sys input templates K x :
  InputDir config = plainPath ri ind -> OutputDir config = plainPath ro outd ->
  ind <> [] -> outd <> [] ->
  List.Forall (fun n => isName n = true) ind ->
  List.Forall (fun n => isName n = true) outd ->
  apart (InputDir config) (OutputDir config) = true ->
  apart (TemplatesDir config) (OutputDir config) = true ->
  inputRoot site = Some input -> templatesRoot site = Some templates ->
  IsDir input = true -> wellNamed input = true ->
  OS.within (OutputDir config) K = true -> K <> OutputDir config ->
  K <> Join [OutputDir config; "robots.txt"] ->
  fs (build E site config sys) !! K = Some x ->
  (exists v, In v (visits noSkip (InputDir config) input)
             /\ writeTarget config (fst v) (snd v) = Some K)
  \/ (x = EDir
      /\ exists v P, In v (visits noSkip (InputDir config) input)
                     /\ placeOf config (fst v) (snd v) = Some P
                     /\ OS.within K P = true).
Proof.
  intros HI HO Hi Ho Hin Hout _ _ Hinput Htm Hdir Hwell Hbelow Hneq Hrobots HK.
  rewrite (build_traversed E site config sys input templates Hinput Htm) in HK.
  rewrite fs_println in HK.
  rewrite (handleRobotsTxt_other site config ro outd _ K HO Ho Hout Hrobots) in HK.
  rewrite (traversed_visits E site config sys input Hinput) in HK.
  destruct (foldVisits_processStep_touches E site config ri ro ind outd HI HO Hi Ho Hin Hout
              (visits noSkip (InputDir config) input)
              (resetOutput config
                 (foldVisits (foundStep config) (visits noSkip (InputDir config) input)
                    (println (blue (nl +:+ "Files found in input directory:"))
                       (printConfiguration config sys)))) 0%nat K)
    as [Heq | [Ht | (Hd & Hp)]].
  - apply List.Forall_forall. intros v Hv.
    now apply (visits_structure config ri ind HI Hi Hin input v Hdir Hwell).
  - rewrite Heq in HK.
    rewrite (resetOutput_below config ro outd _ K HO Ho Hout Hbelow Hneq) in HK.
    discriminate.
  - now left.
  - right. split; [congruence | exact Hp].
Qed.

Lemma directory_reaches_output_witness :
  fs (build sampleEngine blogSite sampleConfig staleSys) !! "output/blog" = Some EDir.
Proof.
  apply (directory_reaches_output sampleEngine blogSite sampleConfig false false
           ["input"] ["output"] staleSys
           (Directory 0
              [("blog", Directory 0 [("index.md", File 0 "hello");
                                     ("post.md", File 0 "post")]);
               ("style.css", File 0 "body {}")])
           sampleTemplates
           [("input", Directory 0
                [("blog", Directory 0 [("index.md", File 0 "hello");
                                       ("post.md", File 0 "post")]);
                 ("style.css", File 0 "body {}")])]
           [("input/blog/index.md", File 0 "hello");
            ("input/blog/post.md", File 0 "post");
            ("input/style.css", File 0 "body {}")]
           ["blog"] 0 [("index.md", File 0 "hello"); ("post.md", File 0 "post")]
           eq_refl eq_refl ltac:(discriminate) ltac:(discriminate)
           ltac:(repeat constructor) ltac:(repeat constructor)
           eq_refl eq_refl eq_refl eq_refl eq_refl eq_refl eq_refl
           ltac:(repeat constructor) eq_refl).
  intros v T [<- | [<- | [<- | [<- | []]]]] HT; vm_compute in HT;
    try discriminate HT; injection HT as <-; reflexivity.
Defined.

Lemma output_holds_only_places_witness :
  (exists v, In v (visits noSkip (InputDir sampleConfig)
                     (Directory 0
                        [("blog", Directory 0 [("index.md", File 0 "hello");
                                               ("post.md", File 0 "post")]);
                         ("style.css", File 0 "body {}")]))
             /\ writeTarget sampleConfig (fst v) (snd v) = Some "output/blog/post")
  \/ (EDir = EDir
      /\ exists v P, In v (visits noSkip (InputDir sampleConfig)
                             (Directory 0
                                [("blog", Directory 0 [("index.md", File 0 "hello");
                                                       ("post.md", File 0 "post")]);
                                 ("style.css", File 0 "body {}")]))
                     /\ placeOf sampleConfig (fst v) (snd v) = Some P
                     /\ OS.within "output/blog/post" P = true).
Proof.
  apply (output_holds_only_places sampleEngine blogSite sampleConfig false false
           ["input"] ["output"] staleSys
           (Directory 0
              [("blog", Directory 0 [("index.md", File 0 "hello");
                                     ("post.md", File 0 "post")]);
               ("style.css", File 0 "body {}")])
           sampleTemplates "output/blog/post" EDir
           eq_refl eq_refl ltac:(discriminate) ltac:(discriminate)
           ltac:(repeat constructor) ltac:(repeat constructor)
           eq_refl eq_refl eq_refl eq_refl eq_refl eq_refl eq_refl
           ltac:(discriminate) ltac:(discriminate) eq_refl).
Defined.

Lemma isMarkdownFile_by_suffix_witness :
  isMarkdownFile "Notes/README.MD"
  = (HasSuffix (ToLower "Notes/README.MD") ".md"
     || HasSuffix (ToLower "Notes/README.MD") ".markdown"
     || HasSuffix (ToLower "Notes/README.MD") ".mkd"
     || HasSuffix (ToLower "Notes/README.MD") ".mdown")
  /\ isMarkdownFile (ToLower "Notes/README.MD") = isMarkdownFile "Notes/README.MD"
  /\ isMarkdownFile ("Notes/README.MD" +:+ "/") = false.
Proof.
  apply (isMarkdownFile_by_suffix "Notes/README.MD" eq_refl).
Defined.
(* ===================================================================== *)
(** ** [build]: the fallback page and the entries that are skipped *)
(* ===================================================================== *)

(** C4, as the code has it. For an input tree that is a directory in which
    no name begins with two dots, the input and the templates directory
    apart from the output directory, and a build whose output directory
    could be made anew. A markdown page whose conversion succeeds and whose
    template fails to load or to execute gets the fallback page,
    [<html><body>], the converted fragment and [</body></html>], nothing of
    the front matter: it stands at the page path after the build, if the
    place is free (no other entry is written to the page path or to a path
    on the way to it, no other entry has its place at or below it, and it is
    not [robots.txt] of the output directory). The build is not aborted: its
    last line counts every markdown file and every other file that is not
    hidden. And the files that come after the page are processed as they
    always are: an asset whose place is free stands with its bytes at its
    mirrored path, a page whose template loads and executes stands with
    what the template gives at its page path. *)
Theorem template_failure_falls_back E site config ri ro ind outd sys input templates
    vs1 vs2 ds f t data frontMatter markdownContent printed htmlContent :
  InputDir config = plainPath ri ind -> OutputDir config = plainPath ro outd ->
  ind <> [] -> outd <> [] ->
  List.Forall (fun n => isName n = true) ind ->
  List.Forall (fun n => isName n = true) outd ->
  apart (InputDir config) (OutputDir config) = true ->
  apart (TemplatesDir config) (OutputDir config) = true ->
  inputRoot site = Some input -> templatesRoot site = Some templates ->
  IsDir input = true -> wellNamed input = true ->
  visits noSkip (InputDir config) input
  = vs1 ++ (plainPath ri (ind ++ ds ++ [f]), File t data) :: vs2 ->
  List.Forall (fun n => isName n = true) ds -> isName f = true ->
  f = "index.md" \/ isName (stem f) = true ->
  isMarkdownFile (plainPath ri (ind ++ ds ++ [f])) = true ->
  parseFrontMatter E data = (frontMatter, markdownContent, printed) ->
  Convert E markdownContent = inl htmlContent ->
  templateFails E (TemplatesDir config) frontMatter htmlContent = true ->
  snd (OS.MkdirAll (OutputDir config) (OS.RemoveAll (OutputDir config) (fs sys))) = true ->
  ((forall v T, In v (vs1 ++ vs2) -> writeTarget config (fst v) (snd v) = Some T ->
                OS.within T (pagePath config (plainPath ri (ind ++ ds ++ [f]))) = false) ->
   (forall v P, In v (vs1 ++ vs2) -> placeOf config (fst v) (snd v) = Some P ->
                OS.within (pagePath config (plainPath ri (ind ++ ds ++ [f]))) P = false) ->
   pagePath config (plainPath ri (ind ++ ds ++ [f]))
   <> Join [OutputDir config; "robots.txt"] ->
   fs (build E site config sys) !! pagePath config (plainPath ri (ind ++ ds ++ [f]))
   = Some (EFile ("<html><body>" +:+ htmlContent +:+ "</body></html>")))
  /\ last (console (build E site config sys))
     = Some (processedLine
               (length (List.filter (fun v => isCounted (fst v) (snd v))
                          (visits noSkip (InputDir config) input))))
  /\ (forall ws1 ws2 ds' f' t' data',
        vs2 = ws1 ++ (plainPath ri (ind ++ ds' ++ [f']), File t' data') :: ws2 ->
        List.Forall (fun n => isName n = true) ds' -> isName f' = true ->
        isMarkdownFile (plainPath ri (ind ++ ds' ++ [f'])) = false ->
        HasPrefix f' "." = false ->
        (forall v T,
           In v ((vs1 ++ (plainPath ri (ind ++ ds ++ [f]), File t data) :: ws1) ++ ws2) ->
           writeTarget config (fst v) (snd v) = Some T ->
           OS.within T (plainPath ro (outd ++ ds' ++ [f'])) = false) ->
        (forall v P,
           In v ((vs1 ++ (plainPath ri (ind ++ ds ++ [f]), File t data) :: ws1) ++ ws2) ->
           placeOf config (fst v) (snd v) = Some P ->
           OS.within (plainPath ro (outd ++ ds' ++ [f'])) P = false) ->
        plainPath ro (outd ++ ds' ++ [f']) <> Join [OutputDir config; "robots.txt"] ->
        fs (build E site config sys) !! plainPath ro (outd ++ ds' ++ [f'])
        = Some (EFile data'))
  /\ (forall ws1 ws2 ds' f' t' data' frontMatter' markdownContent' printed'
             htmlContent' tmpl' out',
        vs2 = ws1 ++ (plainPath ri (ind ++ ds' ++ [f']), File t' data') :: ws2 ->
        List.Forall (fun n => isName n = true) ds' -> isName f' = true ->
        f' = "index.md" \/ isName (stem f') = true ->
        isMarkdownFile (plainPath ri (ind ++ ds' ++ [f'])) = true ->
        parseFrontMatter E data' = (frontMatter', markdownContent', printed') ->
        Convert E markdownContent' = inl htmlContent' ->
        ParseFiles E (Join [TemplatesDir config;
                            if String.eqb (Template frontMatter') "" then "default.html"
                            else Template frontMatter']) = inl tmpl' ->
        Execute E tmpl' (templateData frontMatter' htmlContent') = inl out' ->
        (forall v T,
           In v ((vs1 ++ (plainPath ri (ind ++ ds ++ [f]), File t data) :: ws1) ++ ws2) ->
           writeTarget config (fst v) (snd v) = Some T ->
           OS.within T (pagePath config (plainPath ri (ind ++ ds' ++ [f']))) = false) ->
        (forall v P,
           In v ((vs1 ++ (plainPath ri (ind ++ ds ++ [f]), File t data) :: ws1) ++ ws2) ->
           placeOf config (fst v) (snd v) = Some P ->
           OS.within (pagePath config (plainPath ri (ind ++ ds' ++ [f']))) P = false) ->
        pagePath config (plainPath ri (ind ++ ds' ++ [f']))
        <> Join [OutputDir config; "robots.txt"] ->
        fs (build E site config sys) !! pagePath config (plainPath ri (ind ++ ds' ++ [f']))
        = Some (EFile out')).
Proof.
  intros HI HO Hi Ho Hin Hout _ _ Hinput Htm Hdir Hwell Hvs Hds Hf Hstem Hmd Hparse Hconv
    Hfail Hreset.
  split; [|split; [|split]].
  - intros Htargets Hplaces Hrobots.
    apply (page_reaches E site config ri ro ind outd sys input templates vs1 vs2
             ds f t data (fallbackPage htmlContent)); try assumption.
    intros outputPath sys1.
    rewrite (fs_renderMarkdown_fallback E site _ t data outputPath _ sys1 frontMatter
               markdownContent printed htmlContent Hparse Hconv Hfail).
    apply fs_writeHTMLFile.
  - rewrite (build_traversed E site config sys input templates Hinput Htm).
    unfold println. simpl console. rewrite last_snoc.
    rewrite (traversed_visits E site config sys input Hinput).
    now rewrite foldVisits_processStep_count.
  - intros ws1 ws2 ds' f' t' data' Hvs2 Hds' Hf' Hmd' Hdot' Htargets Hplaces Hrobots.
    apply (asset_reaches E site config ri ro ind outd sys input templates
             (vs1 ++ (plainPath ri (ind ++ ds ++ [f]), File t data) :: ws1) ws2
             ds' f' t' data'); try assumption.
    rewrite Hvs, Hvs2, <- app_assoc. reflexivity.
  - intros ws1 ws2 ds' f' t' data' frontMatter' markdownContent' printed' htmlContent'
      tmpl' out' Hvs2 Hds' Hf' Hstem' Hmd' Hparse' Hconv' Hload' Hexec'
      Htargets Hplaces Hrobots.
    apply (page_reaches E site config ri ro ind outd sys input templates
             (vs1 ++ (plainPath ri (ind ++ ds ++ [f]), File t data) :: ws1) ws2
             ds' f' t' data' out'); try assumption.
    + rewrite Hvs, Hvs2, <- app_assoc. reflexivity.
    + intros outputPath sys1.
      apply (fs_renderMarkdown_page E site _ t' data' _ _ sys1 frontMatter'
               markdownContent' printed' htmlContent' tmpl' out'
               Hparse' Hconv' Hload' Hexec').
Qed.

Lemma template_failure_falls_back_witness :
  fs (build sampleEngine fallbackSite sampleConfig staleSys) !! "output/a/index.html"
  = Some (EFile "<html><body><p>hi</p></body></html>")
  /\ last (console (build sampleEngine fallbackSite sampleConfig staleSys))
     = Some (processedLine 2)
  /\ fs (build sampleEngine fallbackSite sampleConfig staleSys) !! "output/b/index.html"
     = Some (EFile "<main><p>second</p></main>").
Proof.
  destruct (template_failure_falls_back sampleEngine fallbackSite sampleConfig false false
              ["input"] ["output"] staleSys
              (Directory 0 [("a.md", File 0 missingTemplatePage);
                            ("b.md", File 0 "second")])
              sampleTemplates
              [("input", Directory 0 [("a.md", File 0 missingTemplatePage);
                                      ("b.md", File 0 "second")])]
              [("input/b.md", File 0 "second")]
              [] "a.md" 0 missingTemplatePage
              {| Title := ""; Template := "missing.html"; Description := "";
                 Date := ""; Tags := []; Custom := ∅ |}
              "hi" [] "<p>hi</p>"
              eq_refl eq_refl ltac:(discriminate) ltac:(discriminate)
              ltac:(repeat constructor) ltac:(repeat constructor)
              eq_refl eq_refl eq_refl eq_refl eq_refl eq_refl eq_refl
              ltac:(repeat constructor) eq_refl ltac:(right; reflexivity)
              eq_refl eq_refl eq_refl eq_refl eq_refl)
    as (Hpage & Hlast & _ & Hlater).
  split; [|split].
  - apply Hpage.
    + intros v T [<- | [<- | []]] HT; vm_compute in HT;
        try discriminate HT; injection HT as <-; reflexivity.
    + intros v P [<- | [<- | []]] HP; vm_compute in HP;
        try discriminate HP; injection HP as <-; reflexivity.
    + vm_compute. discriminate.
  - exact Hlast.
  - apply (Hlater [] [] [] "b.md" 0 "second" emptyFrontMatter "second" []
             "<p>second</p>" "templates/default.html" "<main><p>second</p></main>"
             eq_refl ltac:(repeat constructor) eq_refl ltac:(right; reflexivity)
             eq_refl eq_refl eq_refl eq_refl eq_refl).
    + intros v T [<- | [<- | []]] HT; vm_compute in HT;
        try discriminate HT; injection HT as <-; reflexivity.
    + intros v P [<- | [<- | []]] HP; vm_compute in HP;
        try discriminate HP; injection HP as <-; reflexivity.
    + vm_compute. discriminate.
Defined.

(** C4 as the claim states it fails. In [collidingPageSite] the template of
    [a.md] does not load, and its page path is [output/a/index.html], where
    the traversal has mirrored the directory [a/index.html] before it comes
    to the page: the fallback page cannot be written, [build] prints the
    error of the write and goes on, and the page has no output. *)
Lemma template_failure_falls_back_counterexample :
  isMarkdownFile "input/a.md" = true
  /\ templateFails sampleEngine "templates"
       (fst (fst (parseFrontMatter sampleEngine missingTemplatePage))) "<p>hi</p>" = true
  /\ pagePath sampleConfig "input/a.md" = "output/a/index.html"
  /\ fs (build sampleEngine collidingPageSite sampleConfig staleSys)
     !! "output/a/index.html" = Some EDir
  /\ In "Error: Error writing HTML file: open output/a/index.html: is a directory"
       (console (build sampleEngine collidingPageSite sampleConfig staleSys))
  /\ last (console (build sampleEngine collidingPageSite sampleConfig staleSys))
     = Some (processedLine 1).
Proof.
  split; [reflexivity|]. split; [reflexivity|]. split; [reflexivity|].
  split; [vm_compute; reflexivity|]. split; [vm_compute; tauto|].
  vm_compute; reflexivity.
Qed.

(** C2, as the code has it. A file of the input tree that is not
    markdown and whose base name starts with a dot is skipped by [build]: the
    callback leaves the state and the count as they are, and the file
    system and the count of a build are what they are for the site without
    these files. Directories are mirrored whatever their name: for a
    directory the callback makes the mirrored directory, and after the build
    it is a directory of the output tree if no entry is written to its path
    or to a path on the way to it (for an input tree that is a directory in
    which no name begins with two dots, the input and the templates
    directory apart from the output directory, and an output directory that
    could be made anew). *)
Theorem build_skips_hidden_assets E site config sys ri ro ind outd :
  InputDir config = plainPath ri ind -> OutputDir config = plainPath ro outd ->
  ind <> [] -> outd <> [] ->
  List.Forall (fun n => isName n = true) ind ->
  List.Forall (fun n => isName n = true) outd ->
  fs (build E (withoutHiddenAssets site config) config sys) = fs (build E site config sys)
  /\ last (console (build E (withoutHiddenAssets site config) config sys))
     = last (console (build E site config sys))
  /\ (forall p i s, isHiddenAsset p i = true -> processFn E site config p i s = (s, WNil))
  /\ (forall ds t entries sys0 count,
        List.Forall (fun n => isName n = true) ds ->
        processFn E site config (plainPath ri (ind ++ ds)) (Directory t entries)
          (sys0, count)
        = (withFs (fun st => fst (OS.MkdirAll (plainPath ro (outd ++ ds)) st)) sys0,
           count, WNil))
  /\ (forall input templates vs1 vs2 ds t entries,
        apart (InputDir config) (OutputDir config) = true ->
        apart (TemplatesDir config) (OutputDir config) = true ->
        inputRoot site = Some input -> templatesRoot site = Some templates ->
        IsDir input = true -> wellNamed input = true ->
        visits noSkip (InputDir config) input
        = vs1 ++ (plainPath ri (ind ++ ds), Directory t entries) :: vs2 ->
        List.Forall (fun n => isName n = true) ds ->
        snd (OS.MkdirAll (OutputDir config) (OS.RemoveAll (OutputDir config) (fs sys)))
        = true ->
        (forall v T, In v (vs1 ++ vs2) -> writeTarget config (fst v) (snd v) = Some T ->
                     OS.within T (plainPath ro (outd ++ ds)) = false) ->
        fs (build E site config sys) !! plainPath ro (outd ++ ds) = Some EDir).
Proof.
  intros HI HO Hi Ho Hin Hout.
  destruct (build_without_hidden_assets E site config sys ri ind HI Hi Hin) as [Hfs Hlast].
  split; [exact Hfs|]. split; [exact Hlast|]. split; [|split].
  - intros p i s H. rewrite processFn_shape. now rewrite processStep_hidden_asset.
  - intros ds t entries sys0 count Hds. unfold processFn.
    rewrite (outputPath_any config ri ro ind outd ds) by assumption. reflexivity.
  - intros input templates vs1 vs2 ds t entries _ _ Hinput Htm Hdir Hwell Hvs Hds
      Hreset Htargets.
    now apply (directory_reaches E site config ri ro ind outd sys input templates vs1 vs2
                 ds t entries).
Qed.

Lemma build_skips_hidden_assets_witness :
  fs (build sampleEngine (withoutHiddenAssets hiddenEntriesSite sampleConfig)
        sampleConfig staleSys)
  = fs (build sampleEngine hiddenEntriesSite sampleConfig staleSys)
  /\ fs (build sampleEngine hiddenEntriesSite sampleConfig staleSys) !! "output/.git"
     = Some EDir.
Proof.
  destruct (build_skips_hidden_assets sampleEngine hiddenEntriesSite sampleConfig
              staleSys false false ["input"] ["output"]
              eq_refl eq_refl ltac:(discriminate) ltac:(discriminate)
              ltac:(repeat constructor) ltac:(repeat constructor))
    as (Hfs & _ & _ & _ & Hdir).
  split; [exact Hfs|].
  apply (Hdir (Directory 0
                 [(".env", File 0 "SECRET=1");
                  (".git", Directory 0 [("config", File 0 "[core]")]);
                  ("index.md", File 0 "home")])
              sampleTemplates
              [("input", Directory 0
                   [(".env", File 0 "SECRET=1");
                    (".git", Directory 0 [("config", File 0 "[core]")]);
                    ("index.md", File 0 "home")]);
               ("input/.env", File 0 "SECRET=1")]
              [("input/.git/config", File 0 "[core]");
               ("input/index.md", File 0 "home")]
              [".git"] 0 [("config", File 0 "[core]")]
              eq_refl eq_refl eq_refl eq_refl eq_refl eq_refl eq_refl
              ltac:(repeat constructor) eq_refl).
  intros v T [<- | [<- | [<- | [<- | []]]]] HT; vm_compute in HT;
    try discriminate HT; injection HT as <-; reflexivity.
Defined.

(** C2 as the claim states it fails: the hidden directory [.git] of the
    input tree is mirrored into the output tree, with the file in it; only
    the hidden file [.env] is left out. And a hidden markdown file is
    rendered: the page of [.draft.md] stands in the directory [.draft] of
    the output tree, and the file is counted. *)
Lemma build_mirrors_hidden_directory_counterexample :
  HasPrefix (Base "output/.git") "." = true
  /\ fs (build sampleEngine hiddenEntriesSite sampleConfig emptySys) !! "output/.git"
     = Some EDir
  /\ fs (build sampleEngine hiddenEntriesSite sampleConfig emptySys)
     !! "output/.git/config" = Some (EFile "[core]")
  /\ fs (build sampleEngine hiddenEntriesSite sampleConfig emptySys) !! "output/.env"
     = None
  /\ HasPrefix (Base "input/.draft.md") "." = true
  /\ fs (build sampleEngine hiddenPageSite sampleConfig emptySys) !! "output/.draft"
     = Some EDir
  /\ fs (build sampleEngine hiddenPageSite sampleConfig emptySys)
     !! "output/.draft/index.html" = Some (EFile "<main><p>draft</p></main>")
  /\ fs (build sampleEngine hiddenPageSite sampleConfig emptySys) !! "output/.env"
     = None
  /\ last (console (build sampleEngine hiddenPageSite sampleConfig emptySys))
     = Some (processedLine 1).
Proof. repeat split; vm_compute; reflexivity. Qed.
